(** * Flow (demandas): the task/update data model and its persistence

    A shallow embedding of the data model of [src/app.py] (classes
    [TaskUpdate], [Task], [DataManager] and [DashboardView]) and the
    properties its specification states about it.

    Conventions of the embedding:
    - a Python [str] is the list of its code points ([list N]); the string
      constants of the source are written as Rocq strings and decoded from
      UTF-8 where they are defined;
    - a Python object stored in a dataclass field or in a JSON record is a
      [pyval]; dataclass annotations are not enforced by Python, so the
      fields of [Task] and [TaskUpdate] are [pyval]s;
    - code that can raise returns a [result]; code that reads or writes
      files takes and returns the file system;
    - what the program takes from the Python installation and cannot be
      read in the repository ([ast.literal_eval], [eval], the Unicode
      "printable" table, the HTML5 entity table, the interpreter's string
      hash) is gathered in the record [pylib], a parameter of the functions
      that use it; [reference_lib] is one such installation. *)

From Stdlib Require Import ZArith NArith List Bool Lia String Ascii.
From Stdlib Require DecimalZ.
Import ListNotations.

Set Implicit Arguments.

(** ** Python strings *)

Module Str.

Definition str := list N.

Fixpoint bytes_of (s : string) : list N :=
  match s with
  | EmptyString => []
  | String a r => N_of_ascii a :: bytes_of r
  end.

(** UTF-8 decoding of well-formed input (used on the constants of this file
    only). *)
Fixpoint utf8_decode (bs : list N) : str :=
  match bs with
  | [] => []
  | b :: r =>
      if (b <? 0x80)%N then b :: utf8_decode r
      else if (b <? 0xE0)%N then
        match r with
        | b1 :: r1 => ((b - 0xC0) * 64 + (b1 - 0x80))%N :: utf8_decode r1
        | _ => []
        end
      else if (b <? 0xF0)%N then
        match r with
        | b1 :: b2 :: r2 =>
            ((b - 0xE0) * 4096 + (b1 - 0x80) * 64 + (b2 - 0x80))%N :: utf8_decode r2
        | _ => []
        end
      else
        match r with
        | b1 :: b2 :: b3 :: r3 =>
            ((b - 0xF0) * 262144 + (b1 - 0x80) * 4096 + (b2 - 0x80) * 64 + (b3 - 0x80))%N
              :: utf8_decode r3
        | _ => []
        end
  end.

Definition py (s : string) : str := utf8_decode (bytes_of s).

Definition str_eqb (a b : str) : bool :=
  if list_eq_dec N.eq_dec a b then true else false.

(** [a < b] on [str]: lexicographic on code points. *)
Fixpoint str_ltb (a b : str) : bool :=
  match a, b with
  | _, [] => false
  | [], _ :: _ => true
  | x :: a', y :: b' =>
      if (x <? y)%N then true
      else if (x =? y)%N then str_ltb a' b'
      else false
  end.

Definition str_leb (a b : str) : bool := negb (str_ltb b a).

(** [str.isspace] on one code point (the white-space table of CPython). *)
Definition isspace (c : N) : bool :=
  ((0x09 <=? c) && (c <=? 0x0D) || (0x1C <=? c) && (c <=? 0x20)
   || (c =? 0x85) || (c =? 0xA0) || (c =? 0x1680)
   || (0x2000 <=? c) && (c <=? 0x200A)
   || (c =? 0x2028) || (c =? 0x2029) || (c =? 0x202F) || (c =? 0x205F)
   || (c =? 0x3000))%N.

Fixpoint lstrip (s : str) : str :=
  match s with
  | c :: r => if isspace c then lstrip r else s
  | [] => []
  end.

Definition rstrip (s : str) : str := rev (lstrip (rev s)).

(** [s.strip()] *)
Definition strip (s : str) : str := rstrip (lstrip s).

(** [c in s] for a one-character [c]. *)
Definition has_char (c : N) (s : str) : bool := existsb (N.eqb c) s.

(** [sep.join(parts)] *)
Fixpoint join (sep : str) (parts : list str) : str :=
  match parts with
  | [] => []
  | [p] => p
  | p :: ps => p ++ sep ++ join sep ps
  end.

(** [s.startswith(p)] and [s.endswith(p)] *)
Fixpoint startswith (s p : str) : bool :=
  match p, s with
  | [], _ => true
  | x :: p', y :: s' => (x =? y)%N && startswith s' p'
  | _ :: _, [] => false
  end.

Definition endswith (s p : str) : bool := startswith (rev s) (rev p).

(** Decimal digits of an integer, as [str(int)] prints them. *)
Fixpoint uint_digits (d : Decimal.uint) : str :=
  match d with
  | Decimal.Nil => []
  | Decimal.D0 d => 48%N :: uint_digits d
  | Decimal.D1 d => 49%N :: uint_digits d
  | Decimal.D2 d => 50%N :: uint_digits d
  | Decimal.D3 d => 51%N :: uint_digits d
  | Decimal.D4 d => 52%N :: uint_digits d
  | Decimal.D5 d => 53%N :: uint_digits d
  | Decimal.D6 d => 54%N :: uint_digits d
  | Decimal.D7 d => 55%N :: uint_digits d
  | Decimal.D8 d => 56%N :: uint_digits d
  | Decimal.D9 d => 57%N :: uint_digits d
  end.

Definition str_of_Z (z : Z) : str :=
  match Z.to_int z with
  | Decimal.Pos d => uint_digits d
  | Decimal.Neg d => 45%N :: uint_digits d
  end.

(** [n] digits wide, zero padded on the left (the "%02d" of [strftime]). *)
Definition zfill (n : nat) (s : str) : str :=
  repeat 48%N (n - List.length s) ++ s.

End Str.
Import Str.

(** ** Exceptions and results *)

Inductive exn : Type :=
| ValueError (msg : str)
| TypeError
| AttributeError
| OverflowError
| OSError.

Inductive result (A : Type) : Type :=
| Ok (a : A)
| Raise (e : exn).
Arguments Ok {A} a.
Arguments Raise {A} e.

Definition bind {A B} (r : result A) (k : A -> result B) : result B :=
  match r with
  | Ok a => k a
  | Raise e => Raise e
  end.

Notation "x <- r ;; k" := (bind r (fun x => k))
  (at level 61, r at next level, right associativity).

Definition is_ok {A} (r : result A) : bool :=
  match r with Ok _ => true | Raise _ => false end.

(** [[f(x) for x in l]] when [f] can raise: the first exception aborts the
    comprehension. *)
Fixpoint mapM {A B} (f : A -> result B) (l : list A) : result (list B) :=
  match l with
  | [] => Ok []
  | a :: r => b <- f a ;; bs <- mapM f r ;; Ok (b :: bs)
  end.

(** [try: r except: d] *)
Definition try_except {A} (r : result A) (d : A) : A :=
  match r with
  | Ok a => a
  | Raise _ => d
  end.

(** ** Calendar dates

    A [datetime] or [date] object is represented by its proleptic Gregorian
    ordinal ([date.toordinal()]: day 1 is 0001-01-01); the time of day plays
    no part in the code modelled here.  The functions follow CPython's
    [datetime] module. *)

Module Date.
Open Scope Z_scope.

Definition MINORD : Z := 1.
Definition MAXORD : Z := 3652059.   (* date(9999, 12, 31).toordinal() *)

Definition DI400Y : Z := 146097.
Definition DI100Y : Z := 36524.
Definition DI4Y : Z := 1461.

Definition DAYS_IN_MONTH : list Z :=
  [-1; 31; 28; 31; 30; 31; 30; 31; 31; 30; 31; 30; 31].
Definition DAYS_BEFORE_MONTH : list Z :=
  [-1; 0; 31; 59; 90; 120; 151; 181; 212; 243; 273; 304; 334].

Definition is_leap (y : Z) : bool :=
  (y mod 4 =? 0) && (negb (y mod 100 =? 0) || (y mod 400 =? 0)).

Definition days_before_year (y : Z) : Z :=
  let y' := y - 1 in y' * 365 + y' / 4 - y' / 100 + y' / 400.

Definition days_before_month (y m : Z) : Z :=
  nth (Z.to_nat m) DAYS_BEFORE_MONTH 0
  + (if (2 <? m) && is_leap y then 1 else 0).

Definition ymd2ord (y m d : Z) : Z :=
  days_before_year y + days_before_month y m + d.

(** [_ord2ymd(n)] *)
Definition ord2ymd (ord : Z) : Z * Z * Z :=
  let n := ord - 1 in
  let n400 := n / DI400Y in
  let n := n mod DI400Y in
  let year := n400 * 400 + 1 in
  let n100 := n / DI100Y in
  let n := n mod DI100Y in
  let n4 := n / DI4Y in
  let n := n mod DI4Y in
  let n1 := n / 365 in
  let n := n mod 365 in
  let year := year + n100 * 100 + n4 * 4 + n1 in
  if (n1 =? 4) || (n100 =? 4) then (year - 1, 12, 31)
  else
    let leapyear := (n1 =? 3) && (negb (n4 =? 24) || (n100 =? 3)) in
    let month := Z.shiftr (n + 50) 5 in
    let preceding :=
      nth (Z.to_nat month) DAYS_BEFORE_MONTH 0
      + (if (2 <? month) && leapyear then 1 else 0) in
    if n <? preceding then
      let month := month - 1 in
      let preceding :=
        preceding - (nth (Z.to_nat month) DAYS_IN_MONTH 0
                     + (if (month =? 2) && leapyear then 1 else 0)) in
      (year, month, n - preceding + 1)
    else (year, month, n - preceding + 1).

(** [d.weekday()]: Monday is 0, Sunday is 6. *)
Definition weekday (ord : Z) : Z := (ord + 6) mod 7.

(** [d + timedelta(days=k)] *)
Definition add_days (ord k : Z) : result Z :=
  let r := ord + k in
  if (MINORD <=? r) && (r <=? MAXORD) then Ok r else Raise OverflowError.

(** [d.strftime("%Y-%m-%d")], for the years 1000..9999 on which every
    platform prints four digits. *)
Definition strftime_ymd (ord : Z) : str :=
  let '(y, m, d) := ord2ymd ord in
  zfill 4 (str_of_Z y) ++ [45%N] ++ zfill 2 (str_of_Z m) ++ [45%N]
    ++ zfill 2 (str_of_Z d).

End Date.

(** ** Python values *)

#[warnings="-register-all"]
Inductive pyval : Type :=
| VNone
| VBool (b : bool)
| VInt (z : Z)
| VStr (s : str)
| VList (l : list pyval)
| VDict (d : list (str * pyval))
| VDate (ord : Z).

Definition dict := list (str * pyval).

Module Dict.

Fixpoint get (d : dict) (k : str) : option pyval :=
  match d with
  | [] => None
  | (k', v) :: r => if str_eqb k' k then Some v else get r k
  end.

(** [d.get(k, default)] *)
Definition get_default (d : dict) (k : str) (default : pyval) : pyval :=
  match get d k with
  | Some v => v
  | None => default
  end.

(** [k in d] *)
Definition mem (d : dict) (k : str) : bool :=
  match get d k with Some _ => true | None => false end.

(** [d[k] = v]: an existing key keeps its position, a new key goes last. *)
Fixpoint set (d : dict) (k : str) (v : pyval) : dict :=
  match d with
  | [] => [(k, v)]
  | (k', v') :: r =>
      if str_eqb k' k then (k', v) :: r else (k', v') :: set r k v
  end.

Fixpoint remove (d : dict) (k : str) : dict :=
  match d with
  | [] => []
  | (k', v') :: r => if str_eqb k' k then r else (k', v') :: remove r k
  end.

(** [list(d.keys())] *)
Definition keys (d : dict) : list str := map fst d.

End Dict.

(** [bool(v)] *)
Definition truthy (v : pyval) : bool :=
  match v with
  | VNone => false
  | VBool b => b
  | VInt z => negb (z =? 0)%Z
  | VStr s => match s with [] => false | _ => true end
  | VList l => match l with [] => false | _ => true end
  | VDict d => match d with [] => false | _ => true end
  | VDate _ => true
  end.

(** [v == s] for a [str] [s]: only an equal [str] is equal to it. *)
Definition eq_str (v : pyval) (s : str) : bool :=
  match v with
  | VStr s' => str_eqb s' s
  | _ => false
  end.

(** [v == z] for an [int] [z]: [bool] is a subclass of [int]. *)
Definition eq_int (v : pyval) (z : Z) : bool :=
  match v with
  | VInt z' => (z' =? z)%Z
  | VBool b => (Z.b2z b =? z)%Z
  | _ => false
  end.

(** ** [repr] and [str] of Python values *)

Module Repr.
Open Scope N_scope.

(** One lower-case hexadecimal digit. *)
Definition hexchar (d : N) : N := if d <? 10 then 48 + d else 87 + d.

(** [c] on [n] hexadecimal digits, most significant first. *)
Fixpoint hexdigits (n : nat) (c : N) : str :=
  match n with
  | O => []
  | S n' => hexchar ((c / 16 ^ N.of_nat n') mod 16) :: hexdigits n' c
  end.

Section WithTable.

(** [str.isprintable] on a code point above U+007E: the Unicode category
    table of the interpreter. *)
Variable unicode_isprintable : N -> bool.

(** The body of the loop of CPython's [unicode_repr]. *)
Definition repr_char (quote c : N) : str :=
  if (c =? quote) || (c =? 92) then [92; c]
  else if c =? 9 then [92; 116]
  else if c =? 10 then [92; 110]
  else if c =? 13 then [92; 114]
  else if (c <? 32) || (c =? 127) then 92 :: 120 :: hexdigits 2 c
  else if c <? 127 then [c]
  else if unicode_isprintable c then [c]
  else if c <=? 0xFF then 92 :: 120 :: hexdigits 2 c
  else if c <=? 0xFFFF then 92 :: 117 :: hexdigits 4 c
  else 92 :: 85 :: hexdigits 8 c.

(** The quote [repr] chooses: double quotes only when the string has a
    single quote and no double quote. *)
Definition repr_quote (s : str) : N :=
  if has_char 39 s && negb (has_char 34 s) then 34 else 39.

Definition repr_str (s : str) : str :=
  let q := repr_quote s in
  q :: flat_map (repr_char q) s ++ [q].

Fixpoint py_repr (v : pyval) : str :=
  match v with
  | VNone => py "None"
  | VBool b => if b then py "True" else py "False"
  | VInt z => str_of_Z z
  | VStr s => repr_str s
  | VList l => [91] ++ join (py ", ") (map py_repr l) ++ [93]
  | VDict d =>
      [123]
      ++ join (py ", ")
           (map (fun kv => repr_str (fst kv) ++ py ": " ++ py_repr (snd kv)) d)
      ++ [125]
  | VDate o =>
      let '(y, m, d) := Date.ord2ymd o in
      py "datetime.date(" ++ str_of_Z y ++ py ", " ++ str_of_Z m ++ py ", "
        ++ str_of_Z d ++ py ")"
  end.

(** [str(v)] *)
Definition py_str (v : pyval) : str :=
  match v with
  | VStr s => s
  | VDate o => Date.strftime_ymd o
  | _ => py_repr v
  end.

End WithTable.
End Repr.

(** ** [html.unescape], the tag-stripping substitution and [clean_val] *)

Module Html.
Open Scope N_scope.

(** Number of leading characters of [s] satisfying [p], at most [max]. *)
Fixpoint span_len (p : N -> bool) (max : nat) (s : str) : nat :=
  match max, s with
  | S m, c :: r => if p c then S (span_len p m r) else O
  | _, _ => O
  end.

Definition is_digit (c : N) : bool := (48 <=? c) && (c <=? 57).
Definition is_hex (c : N) : bool :=
  is_digit c || (97 <=? c) && (c <=? 102) || (65 <=? c) && (c <=? 70).

(** The class [[^\t\n\f <&#;]]. *)
Definition is_name_char (c : N) : bool :=
  negb ((c =? 9) || (c =? 10) || (c =? 12) || (c =? 32) || (c =? 60)
        || (c =? 38) || (c =? 35) || (c =? 59)).

Definition digit_val (c : N) : N :=
  if is_digit c then c - 48
  else if (97 <=? c) && (c <=? 102) then c - 87
  else c - 55.

(** [int(s, base)] on a string of digits. *)
Definition int_of_digits (base : N) (s : str) : N :=
  fold_left (fun acc c => acc * base + digit_val c) s 0.

(** The optional [;] that ends each alternative of the pattern: [n]
    characters of [s] are matched so far. *)
Definition opt_semi (s : str) (n : nat) : nat :=
  match skipn n s with
  | c :: _ => if c =? 59 then S n else n
  | [] => n
  end.

(** The group of [_charref],
    [#[0-9]+;?|#[xX][0-9a-fA-F]+;?|[^\t\n\f <&#;]{1,32};?], matched at the
    text [r] that follows an ampersand: the length of the match. *)
Definition charref_group (r : str) : option nat :=
  match r with
  | [] => None
  | c :: r1 =>
      if c =? 35 then
        let nd := span_len is_digit (List.length r1) r1 in
        if (0 <? nd)%nat then Some (opt_semi r (1 + nd))
        else
          match r1 with
          | x :: r2 =>
              if (x =? 120) || (x =? 88) then
                let nh := span_len is_hex (List.length r2) r2 in
                if (0 <? nh)%nat then Some (opt_semi r (2 + nh)) else None
              else None
          | [] => None
          end
      else
        let nn := span_len is_name_char 32 r in
        if (0 <? nn)%nat then Some (opt_semi r nn) else None
  end.

Fixpoint N_range (lo : N) (n : nat) : list N :=
  match n with
  | O => []
  | S n' => lo :: N_range (lo + 1) n'
  end.

Definition invalid_charrefs : list (N * str) :=
  [(0x00, [0xFFFD]); (0x0D, [0xD]); (0x80, [0x20AC]); (0x81, [0x81]);
   (0x82, [0x201A]); (0x83, [0x192]); (0x84, [0x201E]); (0x85, [0x2026]);
   (0x86, [0x2020]); (0x87, [0x2021]); (0x88, [0x2C6]); (0x89, [0x2030]);
   (0x8A, [0x160]); (0x8B, [0x2039]); (0x8C, [0x152]); (0x8D, [0x8D]);
   (0x8E, [0x17D]); (0x8F, [0x8F]); (0x90, [0x90]); (0x91, [0x2018]);
   (0x92, [0x2019]); (0x93, [0x201C]); (0x94, [0x201D]); (0x95, [0x2022]);
   (0x96, [0x2013]); (0x97, [0x2014]); (0x98, [0x2DC]); (0x99, [0x2122]);
   (0x9A, [0x161]); (0x9B, [0x203A]); (0x9C, [0x153]); (0x9D, [0x9D]);
   (0x9E, [0x17E]); (0x9F, [0x178])].

Definition invalid_codepoints : list N :=
  N_range 0x1 8 ++ N_range 0xE 18 ++ N_range 0x7F 33 ++ N_range 0xFDD0 32
  ++ [0xB; 0xFFFE; 0xFFFF; 0x1FFFE; 0x1FFFF; 0x2FFFE; 0x2FFFF; 0x3FFFE;
      0x3FFFF; 0x4FFFE; 0x4FFFF; 0x5FFFE; 0x5FFFF; 0x6FFFE; 0x6FFFF;
      0x7FFFE; 0x7FFFF; 0x8FFFE; 0x8FFFF; 0x9FFFE; 0x9FFFF; 0xAFFFE;
      0xAFFFF; 0xBFFFE; 0xBFFFF; 0xCFFFE; 0xCFFFF; 0xDFFFE; 0xDFFFF;
      0xEFFFE; 0xEFFFF; 0xFFFFE; 0xFFFFF; 0x10FFFE; 0x10FFFF].

Fixpoint assoc {A B} (eqb : A -> A -> bool) (k : A) (l : list (A * B)) : option B :=
  match l with
  | [] => None
  | (k', v) :: r => if eqb k' k then Some v else assoc eqb k r
  end.

(** [s.rstrip(';')] *)
Fixpoint lstrip_semi (s : str) : str :=
  match s with
  | c :: r => if c =? 59 then lstrip_semi r else s
  | [] => []
  end.
Definition rstrip_semi (s : str) : str := rev (lstrip_semi (rev s)).

Section WithEntities.

(** [html.entities.html5]: entity name (with or without its [;]) to text. *)
Variable html5 : list (str * str).

(** The loop [for x in range(len(s)-1, 1, -1)] of [_replace_charref]:
    [x] runs from [x0] down to 2. *)
Fixpoint longest_prefix (s : str) (x0 : nat) : option str :=
  match x0 with
  | O => None
  | S x' =>
      if (x0 <? 2)%nat then None
      else
        match assoc str_eqb (firstn x0 s) html5 with
        | Some v => Some (v ++ skipn x0 s)
        | None => longest_prefix s x'
        end
  end.

(** [_replace_charref], on the text of the group. *)
Definition replace_charref (s : str) : str :=
  match s with
  | [] => []
  | c :: s1 =>
      if c =? 35 then
        let num :=
          match s1 with
          | x :: s2 =>
              if (x =? 120) || (x =? 88) then int_of_digits 16 (rstrip_semi s2)
              else int_of_digits 10 (rstrip_semi s1)
          | [] => 0
          end in
        match assoc N.eqb num invalid_charrefs with
        | Some v => v
        | None =>
            if (0xD800 <=? num) && (num <=? 0xDFFF) || (0x10FFFF <? num)
            then [0xFFFD]
            else if existsb (N.eqb num) invalid_codepoints then []
            else [num]
        end
      else
        match assoc str_eqb s html5 with
        | Some v => v
        | None =>
            match longest_prefix s (List.length s - 1) with
            | Some v => v
            | None => 38 :: s
            end
        end
  end.

(** [_charref.sub(_replace_charref, s)]: a left-to-right scan; [skip]
    counts the characters of the current match still to be passed over. *)
Fixpoint sub_charrefs (skip : nat) (s : str) : str :=
  match s with
  | [] => []
  | c :: r =>
      match skip with
      | S k => sub_charrefs k r
      | O =>
          if c =? 38 then
            match charref_group r with
            | Some n => replace_charref (firstn n r) ++ sub_charrefs n r
            | None => c :: sub_charrefs 0 r
            end
          else c :: sub_charrefs 0 r
      end
  end.

(** [html.unescape(s)] *)
Definition unescape (s : str) : str :=
  if has_char 38 s then sub_charrefs 0 s else s.

End WithEntities.

(** [re.sub(r'<[^>]*>', '', s)]: a [<] starts a match exactly when a [>]
    follows somewhere, and the match ends at the first one. *)
Fixpoint strip_tags_from (intag : bool) (s : str) : str :=
  match s with
  | [] => []
  | c :: r =>
      if intag then strip_tags_from (negb (c =? 62)) r
      else if (c =? 60) && has_char 62 r then strip_tags_from true r
      else c :: strip_tags_from false r
  end.

Definition strip_tags (s : str) : str := strip_tags_from false s.

End Html.

(** ** The interpreter and its surroundings *)

(** What the program takes from the Python installation it runs on. *)
Record pylib : Type := {
  (** [str.isprintable] above U+007E *)
  unicode_isprintable : N -> bool;
  (** [html.entities.html5] *)
  html5 : list (str * str);
  (** [ast.literal_eval(s)] *)
  literal_eval : str -> result pyval;
  (** [eval(s)] in the namespace of [app.py] *)
  py_eval : str -> result pyval;
  (** [hash(s)] of a [str]; its key is drawn when the interpreter starts *)
  str_hash : str -> Z
}.

(** What the program reads from the session and the clock. *)
Record env : Type := {
  (** [st.session_state.get("current_user", "2949400")] *)
  current_user : str;
  (** the date of [datetime.now()], as an ordinal *)
  now_ord : Z;
  (** [datetime.now().strftime("%H:%M:%S")] *)
  now_hms : str;
  (** [int(time.time() * 1000)] *)
  now_ms : Z
}.

Definition py_repr (L : pylib) : pyval -> str :=
  Repr.py_repr (unicode_isprintable L).
Definition py_str (L : pylib) : pyval -> str :=
  Repr.py_str (unicode_isprintable L).

(** [datetime.now().strftime("%Y-%m-%d")] *)
Definition today_str (E : env) : str := Date.strftime_ymd (now_ord E).

(** ** Constants of [app.py] *)

Definition DATA_FILE : str := py "flow_data.json".
Definition UPDATES_FILE : str := py "flow_updates.json".

(** One entry of [DEFAULT_CATEGORY_OPTIONS]. *)
Definition category_info (color icon name bg : string) : pyval :=
  VDict [(py "color", VStr (py color)); (py "icon", VStr (py icon));
         (py "name", VStr (py name)); (py "bg", VStr (py bg))].

Definition DEFAULT_CATEGORY_OPTIONS : dict :=
  [(py "📚 Bolsas de Estudos",
    category_info "#fdab3d" "📚" "Bolsas de Estudos" "#5a4a2a");
   (py "🎓 Incentivo à Educação (ETEC)",
    category_info "#e44258" "🎓" "Incentivo à Educação (ETEC)" "#4a2a2f");
   (py "💼 Programa de Estágio",
    category_info "#00c875" "💼" "Programa de Estágio" "#1f4a3c");
   (py "📊 Indicadores da Área",
    category_info "#00d9ff" "📊" "Indicadores da Área" "#1f3d4a");
   (py "⚙️ Projeto de Desenvolvimento",
    category_info "#579bfc" "⚙️" "Projeto de Desenvolvimento" "#2a3d5a");
   (py "🤝 Relacionamento com Instituições",
    category_info "#a25ddc" "🤝" "Relacionamento com Instituições" "#3d2a5a");
   (py "🏢 Deskbee",
    category_info "#00cd8e" "🏢" "Deskbee" "#1f4a3c");
   (py "👥 Pessoas/Atendimentos",
    category_info "#ff5ac4" "👥" "Pessoas/Atendimentos" "#4a2a4a");
   (py "📋 Outros",
    category_info "#9699a6" "📋" "Outros" "#3d3d4a")].

(** ** class TaskUpdate *)

Module TaskUpdate.

Record t : Type := mk {
  task_id : pyval;
  content : pyval;
  timestamp : pyval;
  user : pyval;
  id : pyval
}.

(** [asdict(self)] *)
Definition to_dict (self : t) : dict :=
  [(py "task_id", task_id self); (py "content", content self);
   (py "timestamp", timestamp self); (py "user", user self);
   (py "id", id self)].

Definition field_names : list str :=
  [py "task_id"; py "content"; py "timestamp"; py "user"; py "id"].

(** [x[:20]] *)
Definition slice20 (x : pyval) : result pyval :=
  match x with
  | VStr s => Ok (VStr (firstn 20 s))
  | VList l => Ok (VList (firstn 20 l))
  | _ => Raise TypeError
  end.

Section WithLib.
Variable L : pylib.
Variable E : env.

(** The f-string of [from_dict]. *)
Definition unique_str (data : dict) (index : Z) : result str :=
  c20 <- slice20 (Dict.get_default data (py "content") (VStr [])) ;;
  Ok (py_str L (Dict.get_default data (py "task_id") (VInt 0)) ++ py "_"
      ++ py_str L (Dict.get_default data (py "timestamp") (VStr [])) ++ py "_"
      ++ py_str L c20 ++ py "_" ++ str_of_Z index).

(** The id given to a record that has none:
    [hash(unique_str) & 0x7FFFFFFF]. *)
Definition legacy_id (data : dict) (index : Z) : result Z :=
  u <- unique_str data index ;;
  Ok (Z.land (str_hash L u) 0x7FFFFFFF).

(** [cls( **data)]: the dataclass constructor called with the keys of the
    record as keyword arguments. *)
Definition construct (data : dict) : result t :=
  if negb (forallb (fun k => existsb (str_eqb k) field_names) (Dict.keys data))
  then Raise TypeError
  else
    match Dict.get data (py "task_id"), Dict.get data (py "content") with
    | Some tid, Some c =>
        Ok {| task_id := tid;
              content := c;
              timestamp :=
                Dict.get_default data (py "timestamp")
                  (VStr (today_str E ++ py " " ++ now_hms E));
              user := Dict.get_default data (py "user") (VStr (py "Maicon"));
              id := Dict.get_default data (py "id") (VInt (now_ms E)) |}
    | _, _ => Raise TypeError
    end.

(** [TaskUpdate.from_dict(data, index)]; a record that is not a mapping
    makes [data.get] or [cls( **data)] raise. *)
Definition from_dict (data : pyval) (index : Z) : result t :=
  match data with
  | VDict d =>
      d' <- (if negb (Dict.mem d (py "id"))
             then i <- legacy_id d index ;; Ok (Dict.set d (py "id") (VInt i))
             else Ok d) ;;
      construct d'
  | _ => Raise TypeError
  end.

End WithLib.
End TaskUpdate.

(** ** class Task *)

Module Task.

Record t : Type := mk {
  title : pyval;
  responsible : pyval;
  category : pyval;
  priority : pyval;
  status : pyval;
  due_date : pyval;
  description : pyval;
  attachments : pyval;
  collaborators : pyval;
  manager_feedback : pyval;
  id : pyval;
  created_at : pyval
}.

Definition TITLE_REQUIRED : str := py "Título é obrigatório".

Section WithLib.
Variable L : pylib.
Variable E : env.

(** The local function [clean_val] of [__post_init__]. *)
Definition clean_val (text : pyval) : str :=
  if negb (truthy text) then []
  else strip (Html.strip_tags (Html.unescape (html5 L) (py_str L text))).

(** [__post_init__], on the object the generated [__init__] has filled. *)
Definition post_init (self : t) : result t :=
  _ <- (if negb (truthy (title self)) then Raise (ValueError TITLE_REQUIRED)
        else
          match title self with
          | VStr s =>
              if truthy (VStr (strip s)) then Ok tt
              else Raise (ValueError TITLE_REQUIRED)
          | _ => Raise AttributeError
          end) ;;
  let due :=
    match due_date self with
    | VDate o => VStr (Date.strftime_ymd o)
    | d => d
    end in
  let collabs :=
    match collaborators self with
    | VNone => VList []
    | c => c
    end in
  let collabs :=
    match collabs with
    | VStr s =>
        try_except (if truthy (VStr s) then literal_eval L s else Ok (VList []))
          (VList [])
    | c => c
    end in
  let collabs :=
    match collabs with
    | VList l =>
        if truthy (VList l)
        then VList (map (fun c => VStr (clean_val c))
                      (filter (fun c => truthy (VStr (clean_val c))) l))
        else collabs
    | c => c
    end in
  Ok {| title := VStr (clean_val (title self));
        responsible := responsible self;
        category := category self;
        priority := priority self;
        status := status self;
        due_date := due;
        description := description self;
        attachments := attachments self;
        collaborators := collabs;
        manager_feedback := manager_feedback self;
        id := id self;
        created_at := created_at self |}.

(** [Task(...)]: the generated [__init__] stores its arguments and calls
    [__post_init__]. *)
Definition init (title responsible category priority status due_date
                   description attachments collaborators manager_feedback
                   id created_at : pyval) : result t :=
  post_init (mk title responsible category priority status due_date
               description attachments collaborators manager_feedback
               id created_at).

(** [to_dict]: [asdict] lists the fields in declaration order; the two
    renamed keys move to the end; [collaborators] is replaced in place. *)
Definition to_dict (self : t) : dict :=
  let data :=
    [(py "title", title self); (py "responsible", responsible self);
     (py "category", category self); (py "priority", priority self);
     (py "status", status self); (py "due_date", due_date self);
     (py "description", description self);
     (py "attachments", attachments self);
     (py "collaborators", collaborators self);
     (py "manager_feedback", manager_feedback self);
     (py "id", id self); (py "created_at", created_at self)] in
  let data :=
    Dict.set (Dict.remove data (py "due_date")) (py "dueDate")
      (Dict.get_default data (py "due_date") VNone) in
  let data :=
    Dict.set (Dict.remove data (py "created_at")) (py "createdAt")
      (Dict.get_default data (py "created_at") VNone) in
  match Dict.get data (py "collaborators") with
  | Some (VList l) => Dict.set data (py "collaborators") (VStr (py_str L (VList l)))
  | _ => data
  end.

(** [Task.from_dict(data)]; [data.get] needs a mapping. *)
Definition from_dict (data : pyval) : result t :=
  match data with
  | VDict d =>
      let collabs := Dict.get_default d (py "collaborators") (VList []) in
      let collabs :=
        match collabs with
        | VStr s =>
            try_except
              (if truthy (VStr s) then literal_eval L s else Ok (VList []))
              (VList [])
        | c => c
        end in
      init (Dict.get_default d (py "title") (VStr []))
           (Dict.get_default d (py "responsible") (VStr (py "Maicon")))
           (Dict.get_default d (py "category") (VStr (py "Outros")))
           (Dict.get_default d (py "priority") (VStr (py "Média")))
           (Dict.get_default d (py "status") (VStr (py "Pendente")))
           (Dict.get_default d (py "dueDate") (VStr (today_str E)))
           (Dict.get_default d (py "description") (VStr []))
           (Dict.get_default d (py "attachments") (VList []))
           collabs
           (Dict.get_default d (py "manager_feedback") (VStr []))
           (Dict.get_default d (py "id") (VInt (now_ms E)))
           (Dict.get_default d (py "createdAt") (VStr (today_str E)))
  | _ => Raise AttributeError
  end.

(** [is_urgent_today] *)
Definition is_urgent_today (self : t) : bool :=
  let today := today_str E in
  eq_str (priority self) (py "Urgente")
  && negb (eq_str (status self) (py "Concluído"))
  && eq_str (due_date self) today.

End WithLib.
End Task.

(** ** class RequestRC *)

Module RequestRC.

Record t : Type := mk {
  subelement : pyval;
  date_opening : pyval;
  description : pyval;
  rc_code : pyval;
  buyer : pyval;
  situation : pyval;
  attachments : pyval;
  po_number : pyval;
  nf_tracking : pyval;
  nf_attachments : pyval;
  id : pyval;
  created_at : pyval
}.

(** [asdict(self)] *)
Definition to_dict (self : t) : dict :=
  [(py "subelement", subelement self); (py "date_opening", date_opening self);
   (py "description", description self); (py "rc_code", rc_code self);
   (py "buyer", buyer self); (py "situation", situation self);
   (py "attachments", attachments self); (py "po_number", po_number self);
   (py "nf_tracking", nf_tracking self);
   (py "nf_attachments", nf_attachments self);
   (py "id", id self); (py "created_at", created_at self)].

Definition field_names : list str :=
  [py "subelement"; py "date_opening"; py "description"; py "rc_code";
   py "buyer"; py "situation"; py "attachments"; py "po_number";
   py "nf_tracking"; py "nf_attachments"; py "id"; py "created_at"].

Section WithEnv.
Variable E : env.

(** [RequestRC.from_dict(data)], that is [cls( **data)]: every field has a
    default; a key that is no field, or a record that is no mapping,
    raises. *)
Definition from_dict (data : pyval) : result t :=
  match data with
  | VDict d =>
      if negb (forallb (fun k => existsb (str_eqb k) field_names) (Dict.keys d))
      then Raise TypeError
      else
        Ok {| subelement := Dict.get_default d (py "subelement") (VStr (py "RC"));
              date_opening := Dict.get_default d (py "date_opening") (VStr (today_str E));
              description := Dict.get_default d (py "description") (VStr []);
              rc_code := Dict.get_default d (py "rc_code") (VStr []);
              buyer := Dict.get_default d (py "buyer") (VStr []);
              situation := Dict.get_default d (py "situation") (VStr (py "Pendente"));
              attachments := Dict.get_default d (py "attachments") (VList []);
              po_number := Dict.get_default d (py "po_number") (VStr []);
              nf_tracking :=
                Dict.get_default d (py "nf_tracking")
                  (VStr (py "Aguardando recebimento"));
              nf_attachments := Dict.get_default d (py "nf_attachments") (VList []);
              id := Dict.get_default d (py "id") (VInt (now_ms E));
              created_at := Dict.get_default d (py "created_at") (VStr (today_str E)) |}
  | _ => Raise TypeError
  end.

End WithEnv.
End RequestRC.

(** ** The local files *)

Module FS.

(** A file holds the JSON text of a value, or text that [json.load]
    rejects (an interrupted write, an empty file). *)
Inductive file : Type :=
| FJson (v : pyval)
| FGarbage.

(** The working directory: file name to content, in directory order. *)
Definition t := list (str * file).

Fixpoint lookup (fs : t) (path : str) : option file :=
  match fs with
  | [] => None
  | (p, f) :: r => if str_eqb p path then Some f else lookup r path
  end.

(** [os.path.exists(path)] *)
Definition exists_ (fs : t) (path : str) : bool :=
  match lookup fs path with Some _ => true | None => false end.

(** [os.listdir(".")] *)
Definition listdir (fs : t) : list str := map fst fs.

(** [open(path, "w")] followed by writing [f]. *)
Fixpoint write (fs : t) (path : str) (f : file) : t :=
  match fs with
  | [] => [(path, f)]
  | (p, f') :: r =>
      if str_eqb p path then (p, f) :: r else (p, f') :: write r path f
  end.

(** A [str] that the UTF-8 codec of the file can encode. *)
Definition encodable (s : str) : bool :=
  forallb (fun c => negb ((0xD800 <=? c) && (c <=? 0xDFFF)) && (c <=? 0x10FFFF))%N s.

(** The values [json.dump] accepts. *)
Fixpoint json_ok (v : pyval) : bool :=
  match v with
  | VNone | VBool _ | VInt _ => true
  | VStr s => encodable s
  | VList l => forallb json_ok l
  | VDict d => forallb (fun kv => encodable (fst kv) && json_ok (snd kv)) d
  | VDate _ => false
  end.

(** [with open(path, "w") as f: json.dump(v, f)]: whether it completed, and
    the directory afterwards.  A value that cannot be serialised stops the
    dump after the file was truncated. *)
Definition dump (fs : t) (path : str) (v : pyval) : bool * t :=
  if json_ok v then (true, write fs path (FJson v))
  else (false, write fs path FGarbage).

(** [with open(path, "r") as f: json.load(f)] *)
Definition load (fs : t) (path : str) : result pyval :=
  match lookup fs path with
  | Some (FJson v) => Ok v
  | Some FGarbage => Raise (ValueError (py "JSONDecodeError"))
  | None => Raise OSError
  end.

End FS.

(** [for item in data]: the items a loop over a JSON value visits. *)
Definition iter_items (data : pyval) : result (list pyval) :=
  match data with
  | VList l => Ok l
  | VDict d => Ok (map (fun kv => VStr (fst kv)) d)
  | VStr s => Ok (map (fun c => VStr [c]) s)
  | _ => Raise TypeError
  end.

(** [x in s] for a set [s] of ids: [x] must be hashable, and equal numbers
    are the same element. *)
Definition hashable (x : pyval) : bool :=
  match x with
  | VList _ | VDict _ => false
  | _ => true
  end.

Definition key_eqb (x y : pyval) : bool :=
  match x, y with
  | VNone, VNone => true
  | VStr a, VStr b => str_eqb a b
  | VDate a, VDate b => (a =? b)%Z
  | VInt a, _ => eq_int y a
  | VBool a, _ => eq_int y (Z.b2z a)
  | _, _ => false
  end.

(** ** class DataManager, without a spreadsheet connection

    [get_sheets_connection()] found no connection, so [use_sheets] is
    [False] and every method takes its local-file branch. *)

Module DataManager.

Record t : Type := mk {
  user_id : str;
  file_path : str;
  updates_path : str;
  categories_path : str;
  requests_path : str
}.

Definition is_manager (u : str) : bool :=
  str_eqb u (py "GESTAO") || str_eqb u (py "2484901").

Section WithLib.
Variable L : pylib.
Variable E : env.

(** [DataManager(file_path)] *)
Definition init (file_path : option str) : t :=
  let u := current_user E in
  let dm :=
    if str_eqb u (py "2949400") then
      mk u DATA_FILE UPDATES_FILE (py "flow_categories.json")
         (py "flow_requests.json")
    else
      mk u (py "flow_data_" ++ u ++ py ".json")
         (py "flow_updates_" ++ u ++ py ".json")
         (py "flow_categories_" ++ u ++ py ".json")
         (py "flow_requests_" ++ u ++ py ".json") in
  match file_path with
  | Some p =>
      if truthy (VStr p)
      then mk (user_id dm) p (updates_path dm) (categories_path dm)
              (requests_path dm)
      else dm
  | None => dm
  end.

(** [save_tasks], local branch: the success flag and the directory. *)
Definition save_tasks (self : t) (fs : FS.t) (tasks : list Task.t) : bool * FS.t :=
  let data := map (fun t => VDict (Task.to_dict L t)) tasks in
  FS.dump fs (file_path self) (VList data).

(** [_create_initial_data] *)
Definition _create_initial_data (self : t) (fs : FS.t) : result (list Task.t * FS.t) :=
  let base_id := now_ms E in
  t0 <- Task.init L (VStr (py "Exemplo de Tarefa")) (VStr (py "Maicon"))
          (VStr (py "Outros")) (VStr (py "Média")) (VStr (py "Pendente"))
          (VStr (today_str E)) (VStr []) (VList []) (VList []) (VStr [])
          (VInt base_id) (VStr (today_str E)) ;;
  let initial_tasks := [t0] in
  Ok (initial_tasks, snd (save_tasks self fs initial_tasks)).

(** The inner loop of the manager branch of [load_tasks]: the tasks and ids
    gathered so far survive an exception, which ends the file. *)
Fixpoint gather (items : list pyval) (all_tasks : list Task.t) (seen_ids : list pyval)
  : list Task.t * list pyval :=
  match items with
  | [] => (all_tasks, seen_ids)
  | item :: rest =>
      match Task.from_dict L E item with
      | Raise _ => (all_tasks, seen_ids)
      | Ok t =>
          if negb (hashable (Task.id t)) then (all_tasks, seen_ids)
          else if negb (existsb (key_eqb (Task.id t)) seen_ids)
          then gather rest (all_tasks ++ [t]) (seen_ids ++ [Task.id t])
          else gather rest all_tasks seen_ids
      end
  end.

(** The outer loop, over [files_to_load]. *)
Fixpoint gather_files (fs : FS.t) (files : list str) (all_tasks : list Task.t)
    (seen_ids : list pyval) : list Task.t :=
  match files with
  | [] => all_tasks
  | fpath :: rest =>
      if FS.exists_ fs fpath then
        match (data <- FS.load fs fpath ;; iter_items data) with
        | Ok items =>
            let '(all_tasks', seen_ids') := gather items all_tasks seen_ids in
            gather_files fs rest all_tasks' seen_ids'
        | Raise _ => gather_files fs rest all_tasks seen_ids
        end
      else gather_files fs rest all_tasks seen_ids
  end.

(** [load_tasks], local branch. *)
Definition load_tasks (self : t) (fs : FS.t) : result (list Task.t * FS.t) :=
  let user_id := current_user E in
  if is_manager user_id then
    let files_to_load :=
      DATA_FILE
      :: filter (fun f => startswith f (py "flow_data_") && endswith f (py ".json"))
           (FS.listdir fs) in
    Ok (gather_files fs files_to_load [] [], fs)
  else if negb (FS.exists_ fs (file_path self)) then _create_initial_data self fs
  else
    Ok (try_except
          (data <- FS.load fs (file_path self) ;;
           items <- iter_items data ;;
           mapM (Task.from_dict L E) items)
          [],
        fs).

(** [[TaskUpdate.from_dict(item, idx) for idx, item in enumerate(data)]] *)
Fixpoint from_dicts (items : list pyval) (idx : Z) : result (list TaskUpdate.t) :=
  match items with
  | [] => Ok []
  | item :: rest =>
      u <- TaskUpdate.from_dict L E item idx ;;
      us <- from_dicts rest (idx + 1) ;;
      Ok (u :: us)
  end.

(** [load_updates], local branch. *)
Definition load_updates (self : t) (fs : FS.t) : list TaskUpdate.t :=
  if negb (FS.exists_ fs (updates_path self)) then []
  else
    try_except
      (data <- FS.load fs (updates_path self) ;;
       items <- iter_items data ;;
       from_dicts items 0)
      [].

(** [save_updates], local branch. *)
Definition save_updates (self : t) (fs : FS.t) (updates : list TaskUpdate.t)
  : bool * FS.t :=
  let data := map (fun u => VDict (TaskUpdate.to_dict u)) updates in
  FS.dump fs (updates_path self) (VList data).

(** [add_update] *)
Definition add_update (self : t) (fs : FS.t) (update : TaskUpdate.t) : FS.t :=
  let updates := load_updates self fs in
  snd (save_updates self fs (updates ++ [update])).

(** [get_task_updates] *)
Definition get_task_updates (self : t) (fs : FS.t) (task_id : Z) : list TaskUpdate.t :=
  filter (fun u => eq_int (TaskUpdate.task_id u) task_id) (load_updates self fs).

(** [delete_update] *)
Definition delete_update (self : t) (fs : FS.t) (update_id : Z) : bool * FS.t :=
  let updates := load_updates self fs in
  let updates := filter (fun u => negb (eq_int (TaskUpdate.id u) update_id)) updates in
  save_updates self fs updates.

(** The loop of [edit_update]: the first update with the id gets the new
    content and the time stamp of the edit; the loop stops there. *)
Fixpoint edit_first (update_id : Z) (new_content : pyval) (us : list TaskUpdate.t)
  : list TaskUpdate.t :=
  match us with
  | [] => []
  | u :: rest =>
      if eq_int (TaskUpdate.id u) update_id then
        TaskUpdate.mk (TaskUpdate.task_id u) new_content
          (VStr (today_str E ++ py " " ++ now_hms E ++ py " (editado)"))
          (TaskUpdate.user u) (TaskUpdate.id u)
        :: rest
      else u :: edit_first update_id new_content rest
  end.

(** [edit_update] *)
Definition edit_update (self : t) (fs : FS.t) (update_id : Z) (new_content : pyval)
  : bool * FS.t :=
  let updates := load_updates self fs in
  save_updates self fs (edit_first update_id new_content updates).

(** [user_id in ["2949400", "2484901", "GESTAO"]] *)
Definition is_admin (u : str) : bool :=
  str_eqb u (py "2949400") || str_eqb u (py "2484901") || str_eqb u (py "GESTAO").

(** [load_categories], local branch: whatever value the file holds, or the
    fallback of the identity. *)
Definition load_categories (self : t) (fs : FS.t) : pyval :=
  let user_id := current_user E in
  let fallback :=
    if is_admin user_id then VDict DEFAULT_CATEGORY_OPTIONS else VDict [] in
  if negb (FS.exists_ fs (categories_path self)) then fallback
  else try_except (FS.load fs (categories_path self)) fallback.

(** [save_categories], local branch. *)
Definition save_categories (self : t) (fs : FS.t) (categories : pyval) : bool * FS.t :=
  FS.dump fs (categories_path self) categories.

(** [load_requests], local branch. *)
Definition load_requests (self : t) (fs : FS.t) : list RequestRC.t :=
  if negb (FS.exists_ fs (requests_path self)) then []
  else
    try_except
      (data <- FS.load fs (requests_path self) ;;
       items <- iter_items data ;;
       mapM (RequestRC.from_dict E) items)
      [].

(** [save_requests], local branch. *)
Definition save_requests (self : t) (fs : FS.t) (requests : list RequestRC.t)
  : bool * FS.t :=
  FS.dump fs (requests_path self)
    (VList (map (fun r => VDict (RequestRC.to_dict r)) requests)).

End WithLib.
End DataManager.

(** ** class DashboardView *)

Module DashboardView.

(** [v < s] and [s <= v] for a [str] [s]: ordering a [str] with anything
    else raises [TypeError]. *)
Definition lt_str (v : pyval) (s : str) : result bool :=
  match v with
  | VStr a => Ok (str_ltb a s)
  | _ => Raise TypeError
  end.

Definition str_le (s : str) (v : pyval) : result bool :=
  match v with
  | VStr a => Ok (str_leb s a)
  | _ => Raise TypeError
  end.

Definition le_str (v : pyval) (s : str) : result bool :=
  match v with
  | VStr a => Ok (str_leb a s)
  | _ => Raise TypeError
  end.

(** [len([t for t in tasks if cond(t)])] *)
Fixpoint count_if {A} (cond : A -> result bool) (l : list A) : result Z :=
  match l with
  | [] => Ok 0%Z
  | a :: r =>
      b <- cond a ;;
      n <- count_if cond r ;;
      Ok (if b then n + 1 else n)%Z
  end.

Section WithEnv.
Variable E : env.

(** [calculate_stats(tasks)] *)
Definition calculate_stats (tasks : list Task.t) : result dict :=
  let today := now_ord E in
  week_start <- Date.add_days today (- Date.weekday today) ;;
  week_end <- Date.add_days week_start 6 ;;
  let total := Z.of_nat (List.length tasks) in
  completed <- count_if (fun t => Ok (eq_str (Task.status t) (py "Concluído"))) tasks ;;
  in_progress <- count_if (fun t => Ok (eq_str (Task.status t) (py "Em Andamento"))) tasks ;;
  urgent <- count_if (fun t => Ok (eq_str (Task.priority t) (py "Alta")
                                  || eq_str (Task.priority t) (py "Urgente"))) tasks ;;
  overdue <- count_if (fun t =>
               b <- lt_str (Task.due_date t) (Date.strftime_ymd today) ;;
               Ok (b && negb (eq_str (Task.status t) (py "Concluído")))) tasks ;;
  this_week <- count_if (fun t =>
                 b <- str_le (Date.strftime_ymd week_start) (Task.due_date t) ;;
                 if b then le_str (Task.due_date t) (Date.strftime_ymd week_end)
                 else Ok false) tasks ;;
  Ok [(py "total", VInt total); (py "completed", VInt completed);
      (py "in_progress", VInt in_progress); (py "urgent", VInt urgent);
      (py "overdue", VInt overdue); (py "this_week", VInt this_week)].

End WithEnv.
End DashboardView.

(** ** A reader for list displays of string literals

    [ast.literal_eval] and [eval] are parameters of the model.  Where a
    statement needs a concrete reader, this one is used: it accepts the list
    displays [repr] writes for a list of [str] (and blanks between their
    tokens), with the meaning Python gives them, and rejects any other
    text. *)

Module Literal.
Open Scope N_scope.

Inductive mode : Type :=
| Start                                (* before the opening bracket *)
| Item                                 (* an item or the closing bracket *)
| Plain (q : N)                        (* inside a literal quoted by [q] *)
| Esc (q : N)                          (* after a backslash *)
| Hex (q : N) (n : nat) (acc : N)      (* [n] hexadecimal digits to read *)
| After                                (* a comma or the closing bracket *)
| Done.                                (* after the closing bracket *)

Definition hexval (c : N) : option N :=
  if (48 <=? c) && (c <=? 57) then Some (c - 48)
  else if (97 <=? c) && (c <=? 102) then Some (c - 87)
  else if (65 <=? c) && (c <=? 70) then Some (c - 55)
  else None.

(** [items] and [cur] hold the strings read so far and the characters of
    the current one, both in reverse. *)
Fixpoint run (m : mode) (items : list str) (cur : str) (s : str)
  : option (list str) :=
  match s with
  | [] => match m with Done => Some (rev items) | _ => None end
  | c :: r =>
      match m with
      | Start =>
          if c =? 32 then run Start items cur r
          else if c =? 91 then run Item items cur r
          else None
      | Item =>
          if c =? 32 then run Item items cur r
          else if c =? 93 then run Done items cur r
          else if (c =? 39) || (c =? 34) then run (Plain c) items [] r
          else None
      | Plain q =>
          if c =? q then run After (rev cur :: items) [] r
          else if c =? 92 then run (Esc q) items cur r
          else if (c =? 0) || (c =? 10) || (c =? 13) then None
          else run (Plain q) items (c :: cur) r
      | Esc q =>
          if (c =? 92) || (c =? 39) || (c =? 34) then run (Plain q) items (c :: cur) r
          else if c =? 116 then run (Plain q) items (9 :: cur) r
          else if c =? 110 then run (Plain q) items (10 :: cur) r
          else if c =? 114 then run (Plain q) items (13 :: cur) r
          else if c =? 120 then run (Hex q 2 0) items cur r
          else if c =? 117 then run (Hex q 4 0) items cur r
          else if c =? 85 then run (Hex q 8 0) items cur r
          else None
      | Hex q n acc =>
          match n, hexval c with
          | S k, Some v =>
              let acc' := acc * 16 + v in
              match k with
              | O =>
                  if acc' <=? 0x10FFFF then run (Plain q) items (acc' :: cur) r
                  else None
              | S _ => run (Hex q k acc') items cur r
              end
          | _, _ => None
          end
      | After =>
          if c =? 32 then run After items cur r
          else if c =? 44 then run Item items cur r
          else if c =? 93 then run Done items cur r
          else None
      | Done => if c =? 32 then run Done items cur r else None
      end
  end.

Definition SYNTAX_ERROR : exn := ValueError (py "malformed node or string").

Definition parse (s : str) : result pyval :=
  match run Start [] [] s with
  | Some l => Ok (VList (map VStr l))
  | None => Raise SYNTAX_ERROR
  end.

End Literal.

(** ** SipHash-1-3, the string hash of CPython 3.11 and later *)

Module SipHash.
Open Scope Z_scope.

Definition w64 (x : Z) : Z := x mod 2 ^ 64.

Definition rotl (x b : Z) : Z :=
  w64 (Z.lor (Z.shiftl x b) (Z.shiftr x (64 - b))).

(** [HALF_ROUND(a, b, c, d, s, t)] *)
Definition half_round (a b c d s t : Z) : Z * Z * Z * Z :=
  let a := w64 (a + b) in
  let c := w64 (c + d) in
  let b := Z.lxor (rotl b s) a in
  let d := Z.lxor (rotl d t) c in
  let a := rotl a 32 in
  (a, b, c, d).

(** [SINGLE_ROUND(v0, v1, v2, v3)] *)
Definition single_round (v : Z * Z * Z * Z) : Z * Z * Z * Z :=
  let '(v0, v1, v2, v3) := v in
  let '(v0, v1, v2, v3) := half_round v0 v1 v2 v3 13 16 in
  let '(v2, v1, v0, v3) := half_round v2 v1 v0 v3 17 21 in
  (v0, v1, v2, v3).

(** A little-endian word. *)
Fixpoint le_word (bs : list Z) : Z :=
  match bs with
  | [] => 0
  | b :: r => b + 256 * le_word r
  end.

Definition absorb (v : Z * Z * Z * Z) (mi : Z) : Z * Z * Z * Z :=
  let '(v0, v1, v2, v3) := v in
  let '(v0, v1, v2, v3) := single_round (v0, v1, v2, Z.lxor v3 mi) in
  (Z.lxor v0 mi, v1, v2, v3).

(** The loop over whole words, then the last block, which carries the
    length in its top byte. *)
Fixpoint blocks (len : Z) (v : Z * Z * Z * Z) (bs : list Z) : Z * Z * Z * Z :=
  match bs with
  | b0 :: b1 :: b2 :: b3 :: b4 :: b5 :: b6 :: b7 :: r =>
      blocks len (absorb v (le_word [b0; b1; b2; b3; b4; b5; b6; b7])) r
  | _ => absorb v (Z.lor (w64 (Z.shiftl len 56)) (le_word bs))
  end.

(** [siphash13(k0, k1, src, src_sz)] *)
Definition siphash13 (k0 k1 : Z) (bs : list Z) : Z :=
  let v0 := Z.lxor k0 0x736f6d6570736575 in
  let v1 := Z.lxor k1 0x646f72616e646f6d in
  let v2 := Z.lxor k0 0x6c7967656e657261 in
  let v3 := Z.lxor k1 0x7465646279746573 in
  let '(v0, v1, v2, v3) := blocks (Z.of_nat (List.length bs)) (v0, v1, v2, v3) bs in
  let v2 := Z.lxor v2 0xff in
  let '(v0, v1, v2, v3) := single_round (single_round (single_round (v0, v1, v2, v3))) in
  Z.lxor (Z.lxor v0 v1) (Z.lxor v2 v3).

(** The buffer of a [str] object: one, two or four bytes for each code
    point, by the largest code point of the string. *)
Definition le_bytes (n : nat) (c : N) : list Z :=
  map (fun i => (Z.of_N c / 256 ^ Z.of_nat i) mod 256) (seq 0 n).

Definition str_buffer (s : str) : list Z :=
  let top := fold_right N.max 0%N s in
  let kind := if (top <? 256)%N then 1%nat else if (top <? 65536)%N then 2%nat else 4%nat in
  flat_map (le_bytes kind) s.

(** [hash(s)] under the key [(k0, k1)]: the 64 bits read as a signed number,
    [-1] being reserved. *)
Definition str_hash (k0 k1 : Z) (s : str) : Z :=
  match s with
  | [] => 0
  | _ =>
      let x := siphash13 k0 k1 (str_buffer s) in
      let x := if 2 ^ 63 <=? x then x - 2 ^ 64 else x in
      if x =? -1 then -2 else x
  end.

End SipHash.

(** ** A reference installation

    CPython 3.11 started with [PYTHONHASHSEED=0] (hash key zero).  The two
    tables are excerpts: the printable table is exact up to U+00FF and
    answers "no" above it; the entity table has the markup entities. *)

Definition reference_isprintable (c : N) : bool :=
  ((0xA1 <=? c) && (c <=? 0xFF) && negb (c =? 0xAD))%N.

Definition reference_html5 : list (str * str) :=
  [(py "amp;", [38%N]); (py "amp", [38%N]); (py "lt;", [60%N]);
   (py "lt", [60%N]); (py "gt;", [62%N]); (py "gt", [62%N]);
   (py "quot;", [34%N]); (py "quot", [34%N]); (py "apos;", [39%N]);
   (py "nbsp;", [160%N]); (py "nbsp", [160%N])].

Definition reference_lib : pylib :=
  {| unicode_isprintable := reference_isprintable;
     html5 := reference_html5;
     literal_eval := Literal.parse;
     py_eval := Literal.parse;
     str_hash := SipHash.str_hash 0 0 |}.

(** ** The spreadsheet row of a task

    The bodies of the two loops of the remote branches of [save_tasks] and
    [load_tasks].  The worksheet itself belongs to gspread; the record
    [get_all_records] hands back for a row is taken to be the row written. *)

Module SheetRow.
Section WithLib.
Variable L : pylib.
Variable E : env.

(** [save_tasks]: [new_item] for one task. *)
Definition encode (t : Task.t) : dict :=
  let item := Task.to_dict L t in
  match Dict.get item (py "attachments") with
  | Some a => Dict.set item (py "attachments") (VStr (py_str L a))
  | None => item
  end.

(** [load_tasks]: one record [r]; a record without an [id] is skipped. *)
Definition decode (r : dict) : result (option Task.t) :=
  let r :=
    match Dict.get r (py "attachments") with
    | Some (VStr s) =>
        Dict.set r (py "attachments") (try_except (py_eval L s) (VList []))
    | _ => r
    end in
  if Dict.mem r (py "id")
  then t <- Task.from_dict L E (VDict r) ;; Ok (Some t)
  else Ok None.

End WithLib.
End SheetRow.

(** ** Vocabulary of the statements *)

Module Spec.
Open Scope Z_scope.

(** The number of tasks that satisfy [p]. *)
Definition count (p : Task.t -> bool) (tasks : list Task.t) : Z :=
  Z.of_nat (List.length (filter p tasks)).

(** The due date of a task whose [due_date] is a [str], as the dataclass
    declares it. *)
Definition due (t : Task.t) : str :=
  match Task.due_date t with
  | VStr s => s
  | _ => []
  end.

Definition has_str_due (t : Task.t) : Prop :=
  exists s, Task.due_date t = VStr s.

Definition done (t : Task.t) : bool := eq_str (Task.status t) (py "Concluído").

(** The Monday and the Sunday of the week of day [d]. *)
Definition monday_of (d : Z) : Z := d - Date.weekday d.
Definition sunday_of (d : Z) : Z := monday_of d + 6.

(** A task with the given status, priority and due date. *)
Definition task (status priority due_date : string) : Task.t :=
  Task.mk (VStr (py "t")) (VStr (py "Maicon")) (VStr (py "Outros"))
    (VStr (py priority)) (VStr (py status)) (VStr (py due_date)) (VStr [])
    (VList []) (VList []) (VStr []) (VInt 1) (VStr (py "2026-11-01")).

(** The object [__init__] fills for the given title, attachments and
    collaborators, before [__post_init__] runs. *)
Definition draft (title : str) (attachments collaborators : pyval) : Task.t :=
  Task.mk (VStr title) (VStr (py "Maicon")) (VStr (py "Outros"))
    (VStr (py "Alta")) (VStr (py "Pendente")) (VStr (py "2026-11-06")) (VStr [])
    attachments collaborators (VStr []) (VInt 1793793600000)
    (VStr (py "2026-11-04")).

(** Wednesday 2026-11-04, noon, signed in as the default user. *)
Definition env0 : env :=
  {| current_user := py "2949400";
     now_ord := Date.ymd2ord 2026 11 4;
     now_hms := py "12:00:00";
     now_ms := 1793793600000 |}.

(** The same instant, signed in as the manager. *)
Definition env_manager : env :=
  {| current_user := py "GESTAO";
     now_ord := Date.ymd2ord 2026 11 4;
     now_hms := py "12:00:00";
     now_ms := 1793793600000 |}.

(** Five tasks, two of them done. *)
Definition fixture : list Task.t :=
  [task "Concluído" "Alta" "2026-11-03";
   task "Concluído" "Baixa" "2026-10-01";
   task "Em Andamento" "Urgente" "2026-11-04";
   task "Pendente" "Média" "2026-11-01";
   task "Para Revisão" "Alta" "2026-11-08"].

(** The updates file of [dm] holds the collection [us]. *)
Definition stored_updates (dm : DataManager.t) (fs : FS.t) (us : list TaskUpdate.t) : Prop :=
  FS.lookup fs (DataManager.updates_path dm)
  = Some (FS.FJson (VList (map (fun u => VDict (TaskUpdate.to_dict u)) us))).

(** The updates of a collection can be written as JSON. *)
Definition json_updates (us : list TaskUpdate.t) : Prop :=
  Forall (fun u => FS.json_ok (VDict (TaskUpdate.to_dict u)) = true) us.

(** The ids of a collection are integers, no two of them equal. *)
Definition unique_ids (us : list TaskUpdate.t) : Prop :=
  Forall (fun u => exists z, TaskUpdate.id u = VInt z) us
  /\ NoDup (map TaskUpdate.id us).

(** [u.id != update_id] *)
Definition other_id (update_id : Z) (u : TaskUpdate.t) : bool :=
  negb (eq_int (TaskUpdate.id u) update_id).

Definition update (task_id id : Z) (content : string) : TaskUpdate.t :=
  TaskUpdate.mk (VInt task_id) (VStr (py content))
    (VStr (py "2026-11-04 12:00:00")) (VStr (py "Maicon")) (VInt id).

(** A stored task record, as [save_tasks] writes it. *)
Definition record (title : string) (id : Z) : pyval :=
  VDict [(py "title", VStr (py title)); (py "responsible", VStr (py "Maicon"));
         (py "category", VStr (py "Outros")); (py "priority", VStr (py "Alta"));
         (py "status", VStr (py "Pendente")); (py "description", VStr []);
         (py "attachments", VList []); (py "collaborators", VStr (py "[]"));
         (py "manager_feedback", VStr []); (py "id", VInt id);
         (py "dueDate", VStr (py "2026-11-06"));
         (py "createdAt", VStr (py "2026-11-04"))].

End Spec.

(** ** Vocabulary of the statements about lists in records *)

Module SpecL.

(** A [str] of Unicode code points. *)
Definition valid_str (s : str) : Prop := Forall (fun c => (c <= 0x10FFFF)%N) s.

(** [read] gives back every list of [str] from its [repr]: what Python
    promises of [ast.literal_eval] and of [eval]. *)
Definition reads_repr (L : pylib) (read : str -> result pyval) : Prop :=
  forall l : list str,
    Forall valid_str l ->
    read (py_repr L (VList (map VStr l))) = Ok (VList (map VStr l)).


(** The title passes the check of [__post_init__]. *)
Definition title_accepted (self : Task.t) : Prop :=
  exists s, Task.title self = VStr s /\ strip s <> [].









End SpecL.

(** ** Vocabulary of the statements about sanitized text *)

Module SpecS.

(** No [<] of [s] has a [>] after it: the tag pattern matches nowhere. *)
Fixpoint tagfree (s : str) : bool :=
  match s with
  | [] => true
  | c :: r => negb ((c =? 60)%N && has_char 62 r) && tagfree r
  end.

(** The comprehension of [__post_init__] applied to a list of [str]. *)
Definition resanitize (L : pylib) (lc : list str) : list str :=
  filter (fun x => truthy (VStr x)) (map (fun x => Task.clean_val L (VStr x)) lc).

(** [t] came out of the constructor. *)
Definition constructed (L : pylib) (t : Task.t) : Prop :=
  exists self, Task.post_init L self = Ok t.


End SpecS.

(** ** Sample tasks *)

Module Sample.

Definition attachments : list str := [py "nota, v2.pdf"; py "it's.pdf"].
Definition collaborators : list str := [py "Ana"; py "Bia, Jr."].

(** A draft with two attachments and three collaborator entries, one of
    them blank. *)
Definition draft : Task.t :=
  Spec.draft (py "Relatório") (VList (map VStr attachments))
    (VList [VStr (py " Ana "); VStr (py "<b>Bia</b>, Jr."); VStr (py "  ")]).

(** The task the constructor makes of it. *)
Definition task : Task.t :=
  Eval vm_compute in
    match Task.post_init reference_lib draft with
    | Ok t => t
    | Raise _ => draft
    end.

(** A draft with empty lists, and its task. *)
Definition draft0 : Task.t := Spec.draft (py "Relatório") (VList []) (VList []).

Definition task0 : Task.t :=
  Eval vm_compute in
    match Task.post_init reference_lib draft0 with
    | Ok t => t
    | Raise _ => draft0
    end.

End Sample.

(** ** Vocabulary of the statements about derived ids *)

Module SpecId.
Open Scope Z_scope.

(** Two records agree on what the derived id is made of: the task id, the
    time stamp and the first 20 characters of the content. *)
Definition same_tuple (data data' : dict) : Prop :=
  Dict.get_default data (py "task_id") (VInt 0)
  = Dict.get_default data' (py "task_id") (VInt 0)
  /\ Dict.get_default data (py "timestamp") (VStr [])
     = Dict.get_default data' (py "timestamp") (VStr [])
  /\ TaskUpdate.slice20 (Dict.get_default data (py "content") (VStr []))
     = TaskUpdate.slice20 (Dict.get_default data' (py "content") (VStr [])).

(** A record stored before updates had ids. *)
Definition legacy_record : dict :=
  [(py "task_id", VInt 1); (py "content", VStr (py "ok"));
   (py "timestamp", VStr (py "2026-11-04 12:00:00"))].

(** The reference installation started with [PYTHONHASHSEED=1]: the key is
    what CPython derives from that seed. *)
Definition seed1_lib : pylib :=
  {| unicode_isprintable := reference_isprintable;
     html5 := reference_html5;
     literal_eval := Literal.parse;
     py_eval := Literal.parse;
     str_hash := SipHash.str_hash 12598376723466036009 16999324916296290386 |}.

End SpecId.

(** ** Vocabulary of the further statements *)

Module SpecX.
Open Scope Z_scope.

(** A record [TaskUpdate.from_dict] cannot take, whatever the index: one
    that is no mapping, one without [task_id] or without [content], or one
    with a key that is no field of the class. *)
Definition unusable_update (item : pyval) : Prop :=
  match item with
  | VDict d =>
      Dict.get d (py "task_id") = None
      \/ Dict.get d (py "content") = None
      \/ exists k, In k (Dict.keys d) /\ ~ In k TaskUpdate.field_names
  | _ => True
  end.

(** The update [u] after an edit at the clock of [E]. *)
Definition edited (E : env) (new_content : pyval) (u : TaskUpdate.t) : TaskUpdate.t :=
  TaskUpdate.mk (TaskUpdate.task_id u) new_content
    (VStr (today_str E ++ py " " ++ now_hms E ++ py " (editado)"))
    (TaskUpdate.user u) (TaskUpdate.id u).

(** The updates store of [dm] is missing, cannot be parsed, or holds an
    unusable record. *)
Definition unreadable_updates (dm : DataManager.t) (fs : FS.t) : Prop :=
  FS.lookup fs (DataManager.updates_path dm) = None
  \/ FS.lookup fs (DataManager.updates_path dm) = Some FS.FGarbage
  \/ exists items bad,
       FS.lookup fs (DataManager.updates_path dm) = Some (FS.FJson (VList items))
       /\ In bad items /\ unusable_update bad.

(** No update of the list has the id. *)
Definition id_absent (update_id : Z) (us : list TaskUpdate.t) : Prop :=
  Forall (fun u => eq_int (TaskUpdate.id u) update_id = false) us.

(** A constructed task with a title, whose title and collaborators hold no
    ampersand: nothing is left for the sanitization to change. *)
Definition settled (L : pylib) (t : Task.t) : Prop :=
  SpecS.constructed L t
  /\ (exists x, Task.title t = VStr x /\ x <> [] /\ has_char 38 x = false)
  /\ exists lc, Task.collaborators t = VList (map VStr lc)
                /\ Forall SpecL.valid_str lc
                /\ Forall (fun x => has_char 38 x = false) lc.

(** The JSON array [save_tasks] writes for a list of tasks. *)
Definition tasks_json (L : pylib) (ts : list Task.t) : pyval :=
  VList (map (fun t => VDict (Task.to_dict L t)) ts).

(** The example task [_create_initial_data] makes at the clock of [E]. *)
Definition seed (E : env) : Task.t :=
  Task.mk (VStr (py "Exemplo de Tarefa")) (VStr (py "Maicon")) (VStr (py "Outros"))
    (VStr (py "Média")) (VStr (py "Pendente")) (VStr (today_str E)) (VStr [])
    (VList []) (VList []) (VStr []) (VInt (now_ms E)) (VStr (today_str E)).

(** The ids of the tasks are pairwise different, as Python compares them. *)
Definition distinct_ids (ts : list Task.t) : Prop :=
  ForallOrdPairs (fun a b => key_eqb (Task.id a) (Task.id b) = false) ts.

(** The stores the manager reads: [flow_data.json] and every
    [flow_data_*.json] of the directory. *)
Definition manager_files (fs : FS.t) : list str :=
  DATA_FILE
  :: filter (fun f => startswith f (py "flow_data_") && endswith f (py ".json"))
       (FS.listdir fs).

(** [t] is what [Task.from_dict] makes of a record of one of those stores. *)
Definition read_from_store (L : pylib) (E : env) (fs : FS.t) (t : Task.t) : Prop :=
  exists f v items item,
    In f (manager_files fs)
    /\ FS.lookup fs f = Some (FS.FJson v)
    /\ iter_items v = Ok items
    /\ In item items
    /\ Task.from_dict L E item = Ok t.

(** The tasks a call of [load_tasks] returned. *)
Definition loaded (r : result (list Task.t * FS.t)) : result (list Task.t) :=
  match r with
  | Ok (ts, _) => Ok ts
  | Raise e => Raise e
  end.

(** The four local files of a [DataManager]. *)
Definition own_paths (dm : DataManager.t) : list str :=
  [DataManager.file_path dm; DataManager.updates_path dm;
   DataManager.categories_path dm; DataManager.requests_path dm].

(** The directory after the identity of [dm] saved tasks, updates,
    categories and requests, in this order. *)
Definition after_saves (L : pylib) (dm : DataManager.t) (fs : FS.t)
    (ts : list Task.t) (us : list TaskUpdate.t) (cats : pyval)
    (rs : list RequestRC.t) : FS.t :=
  let fs1 := snd (DataManager.save_tasks L dm fs ts) in
  let fs2 := snd (DataManager.save_updates dm fs1 us) in
  let fs3 := snd (DataManager.save_categories dm fs2 cats) in
  snd (DataManager.save_requests dm fs3 rs).

(** A colleague signed in at the instant of [Spec.env0]. *)
Definition env_colleague : env :=
  {| current_user := py "3050111";
     now_ord := Date.ymd2ord 2026 11 4;
     now_hms := py "12:00:00";
     now_ms := 1793793600000 |}.

(** The [due_date] of the task is no [str]. *)
Definition non_str_due (t : Task.t) : Prop :=
  match Task.due_date t with
  | VStr _ => False
  | _ => True
  end.

(** The task [Task.from_dict] makes of a record whose [dueDate] is null. *)
Definition undated_record : pyval :=
  VDict [(py "title", VStr (py "Sem prazo")); (py "dueDate", VNone)].

Definition undated : Task.t :=
  Eval vm_compute in
    match Task.from_dict reference_lib Spec.env0 undated_record with
    | Ok t => t
    | Raise _ => Sample.task0
    end.

(** A text without markup and without white space around it. *)
Definition clean (x : str) : Prop := SpecS.tagfree x = true /\ strip x = x.

(** The JSON array [save_requests] writes for a list of requests. *)
Definition requests_json (rs : list RequestRC.t) : pyval :=
  VList (map (fun r => VDict (RequestRC.to_dict r)) rs).

(** A record [RequestRC.from_dict] cannot take: one that is no mapping, or
    one with a key that is no field of the class. *)
Definition unusable_request (item : pyval) : Prop :=
  match item with
  | VDict d => exists k, In k (Dict.keys d) /\ ~ In k RequestRC.field_names
  | _ => True
  end.

(** What [load_categories] returns when it has no readable file: the
    default categories for the three administrators, nothing for the
    others. *)
Definition categories_fallback (E : env) : pyval :=
  if DataManager.is_admin (current_user E) then VDict DEFAULT_CATEGORY_OPTIONS
  else VDict [].

(** A request opened by hand. *)
Definition request : RequestRC.t :=
  RequestRC.mk (VStr (py "RC")) (VStr (py "2026-11-04")) (VStr (py "Toner"))
    (VStr (py "RC-0815")) (VStr (py "Ana")) (VStr (py "Pendente")) (VList [])
    (VStr []) (VStr (py "Aguardando recebimento")) (VList []) (VInt 1793793600000)
    (VStr (py "2026-11-04")).

(** Every store the manager reads holds a JSON array of records that
    [Task.from_dict] accepts, with ids that can be members of a set. *)
Definition all_readable (L : pylib) (E : env) (fs : FS.t) : Prop :=
  forall f file,
    In f (manager_files fs) -> FS.lookup fs f = Some file ->
    exists items,
      file = FS.FJson (VList items)
      /\ Forall (fun item => exists t, Task.from_dict L E item = Ok t
                                       /\ hashable (Task.id t) = true) items.

(** The default user again, one day and some seconds later. *)
Definition env_next_day : env :=
  {| current_user := py "2949400";
     now_ord := Date.ymd2ord 2026 11 5;
     now_hms := py "09:30:15";
     now_ms := 1793871015000 |}.

(** The identity of [dm] has saved its tasks before: its store in [fs] is
    what a [save_tasks] that returned [True] left. *)
Definition saved_before (L : pylib) (dm : DataManager.t) (fs : FS.t) : Prop :=
  exists fs0 ts0,
    fst (DataManager.save_tasks L dm fs0 ts0) = true
    /\ FS.lookup fs (DataManager.file_path dm)
       = FS.lookup (snd (DataManager.save_tasks L dm fs0 ts0)) (DataManager.file_path dm).

(** [t] is what [Task.from_dict] makes of a record of one of the stores the
    manager reads, other than the store of [dm]. *)
Definition read_from_other (L : pylib) (E : env) (dm : DataManager.t) (fs : FS.t)
    (t : Task.t) : Prop :=
  exists f v items item,
    f <> DataManager.file_path dm
    /\ In f (manager_files fs)
    /\ FS.lookup fs f = Some (FS.FJson v)
    /\ iter_items v = Ok items
    /\ In item items
    /\ Task.from_dict L E item = Ok t.

(** A name that [open] takes as a file of the working directory: not
    empty, without a path separator and without a NUL. *)
Definition plain_name (p : str) : bool :=
  match p with
  | [] => false
  | _ => negb (has_char 47 p) && negb (has_char 0 p)
  end.

End SpecX.

(** * Properties *)

Unset Implicit Arguments.

(** ** Strings and values *)

Lemma str_eqb_eq (a b : str) : str_eqb a b = true <-> a = b.
Proof.
  unfold str_eqb. destruct (list_eq_dec N.eq_dec a b); split; congruence.
Qed.

Lemma str_eqb_refl (a : str) : str_eqb a a = true.
Proof. now apply str_eqb_eq. Qed.

Lemma str_eqb_neq (a b : str) : str_eqb a b = false <-> a <> b.
Proof.
  unfold str_eqb. destruct (list_eq_dec N.eq_dec a b); split; congruence.
Qed.

Lemma eq_str_true (v : pyval) (s : str) : eq_str v s = true <-> v = VStr s.
Proof.
  destruct v; simpl; try (split; discriminate).
  rewrite str_eqb_eq. split; congruence.
Qed.

Lemma eq_str_false (v : pyval) (s : str) : eq_str v s = false <-> v <> VStr s.
Proof.
  rewrite <- eq_str_true. destruct (eq_str v s); split; congruence.
Qed.

(** ** is_urgent_today *)

(** C5: [is_urgent_today] holds exactly when the priority is 'Urgente', the
    status is not 'Concluído' and the due date is today's date; a task that
    misses any one of the three conditions is not urgent today. *)
Theorem is_urgent_today_iff (E : env) (t : Task.t) :
  (Task.is_urgent_today E t = true <->
     Task.priority t = VStr (py "Urgente")
     /\ Task.status t <> VStr (py "Concluído")
     /\ Task.due_date t = VStr (today_str E))
  /\ (Task.priority t <> VStr (py "Urgente") -> Task.is_urgent_today E t = false)
  /\ (Task.status t = VStr (py "Concluído") -> Task.is_urgent_today E t = false)
  /\ (Task.due_date t <> VStr (today_str E) -> Task.is_urgent_today E t = false).
Proof.
  unfold Task.is_urgent_today.
  split; [split|split; [|split]].
  - intros H. apply andb_prop in H as [H Hd]. apply andb_prop in H as [Hp Hs].
    apply eq_str_true in Hp, Hd. apply negb_true_iff, eq_str_false in Hs.
    auto.
  - intros (Hp & Hs & Hd).
    apply eq_str_true in Hp, Hd. apply eq_str_false in Hs.
    now rewrite Hp, Hs, Hd.
  - intros H. apply eq_str_false in H. now rewrite H.
  - intros H. apply eq_str_true in H. rewrite H. now rewrite andb_false_r.
  - intros H. apply eq_str_false in H. rewrite H. now rewrite andb_false_r.
Qed.

(** ** calculate_stats *)

Lemma count_if_ok {A} (cond : A -> result bool) (p : A -> bool) (l : list A) :
  Forall (fun a => cond a = Ok (p a)) l ->
  DashboardView.count_if cond l = Ok (Z.of_nat (List.length (filter p l))).
Proof.
  induction 1 as [|a l Ha _ IH]; simpl; [reflexivity|].
  rewrite Ha, IH. simpl. destruct (p a); simpl; f_equal; lia.
Qed.

Lemma count_if_total {A} (p : A -> bool) (l : list A) :
  DashboardView.count_if (fun a => Ok (p a)) l
  = Ok (Z.of_nat (List.length (filter p l))).
Proof. apply count_if_ok. now apply Forall_forall. Qed.

Lemma weekday_range (d : Z) : (0 <= Date.weekday d < 7)%Z.
Proof. unfold Date.weekday. apply Z.mod_pos_bound. lia. Qed.

(** The Monday on or before a day. *)
Lemma weekday_monday (d : Z) : Date.weekday (d - Date.weekday d) = 0%Z.
Proof.
  unfold Date.weekday.
  replace (d - (d + 6) mod 7 + 6)%Z with (7 * ((d + 6) / 7))%Z.
  - rewrite Z.mul_comm. apply Z.mod_mul. lia.
  - pose proof (Z.div_mod (d + 6) 7). lia.
Qed.

(** Day 1 is a Monday, so the Monday of a week is never before it. *)
Lemma monday_in_range (d : Z) :
  (Date.MINORD <= d -> Date.MINORD <= d - Date.weekday d)%Z.
Proof.
  unfold Date.weekday, Date.MINORD. intros Hd.
  pose proof (Z.div_mod (d + 6) 7 ltac:(lia)).
  pose proof (Z.mod_pos_bound (d + 6) 7 ltac:(lia)).
  assert (1 <= (d + 6) / 7)%Z by (apply Z.div_le_lower_bound; lia).
  lia.
Qed.

(** C1: for tasks whose due dates are strings, [calculate_stats] returns
    the six counts: all tasks; tasks done; tasks in progress; tasks of
    priority 'Alta' or 'Urgente'; tasks not done whose due date is
    lexicographically before today's date; tasks whose due date lies between
    the dates of the Monday and the Sunday of the week of today, both
    included. *)
Theorem calculate_stats_counts (E : env) (tasks : list Task.t) :
  (Date.ymd2ord 1000 1 7 <= now_ord E <= Date.MAXORD - 6)%Z ->
  Forall Spec.has_str_due tasks ->
  let monday := Spec.monday_of (now_ord E) in
  let sunday := Spec.sunday_of (now_ord E) in
  Date.weekday monday = 0%Z /\ Date.weekday sunday = 6%Z
  /\ (monday <= now_ord E <= sunday)%Z
  /\ DashboardView.calculate_stats E tasks
       = Ok [(py "total", VInt (Z.of_nat (List.length tasks)));
             (py "completed",
              VInt (Spec.count (fun t => eq_str (Task.status t) (py "Concluído")) tasks));
             (py "in_progress",
              VInt (Spec.count (fun t => eq_str (Task.status t) (py "Em Andamento")) tasks));
             (py "urgent",
              VInt (Spec.count (fun t => eq_str (Task.priority t) (py "Alta")
                                         || eq_str (Task.priority t) (py "Urgente")) tasks));
             (py "overdue",
              VInt (Spec.count (fun t => str_ltb (Spec.due t) (Date.strftime_ymd (now_ord E))
                                         && negb (Spec.done t)) tasks));
             (py "this_week",
              VInt (Spec.count (fun t => str_leb (Date.strftime_ymd monday) (Spec.due t)
                                         && str_leb (Spec.due t) (Date.strftime_ymd sunday))
                      tasks))].
Proof.
  intros Hnow Hdue.
  assert (Hy : Date.ymd2ord 1000 1 7 = 364884%Z) by reflexivity.
  rewrite Hy in Hnow. clear Hy.
  pose proof (weekday_range (now_ord E)) as Hw.
  assert (Hm : (Date.MINORD <= now_ord E - Date.weekday (now_ord E))%Z)
    by (apply monday_in_range; unfold Date.MINORD; lia).
  unfold Spec.sunday_of, Spec.monday_of. cbv zeta.
  split; [apply weekday_monday|].
  split.
  { pose proof (weekday_monday (now_ord E)) as H0.
    set (mon := (now_ord E - Date.weekday (now_ord E))%Z) in *.
    unfold Date.weekday in H0 |- *.
    rewrite <- Zplus_mod_idemp_l, H0. reflexivity. }
  split; [lia|].
  unfold DashboardView.calculate_stats, Date.add_days.
  unfold Date.MINORD, Date.MAXORD in *.
  replace (now_ord E + - Date.weekday (now_ord E))%Z
    with (now_ord E - Date.weekday (now_ord E))%Z by lia.
  set (mon := (now_ord E - Date.weekday (now_ord E))%Z) in *.
  replace ((1 <=? mon)%Z && (mon <=? 3652059)%Z) with true
    by (symmetry; apply andb_true_intro; split; apply Z.leb_le; lia).
  cbn [bind].
  replace ((1 <=? mon + 6)%Z && (mon + 6 <=? 3652059)%Z) with true
    by (symmetry; apply andb_true_intro; split; apply Z.leb_le; lia).
  cbn [bind].
  rewrite !count_if_total. cbn [bind].
  rewrite (count_if_ok _
             (fun t => str_ltb (Spec.due t) (Date.strftime_ymd (now_ord E))
                       && negb (Spec.done t))).
  2:{ eapply Forall_impl; [|exact Hdue]. intros t [s Hs].
      unfold Spec.due, Spec.done. rewrite Hs. reflexivity. }
  cbn [bind].
  rewrite (count_if_ok _
             (fun t => str_leb (Date.strftime_ymd mon) (Spec.due t)
                       && str_leb (Spec.due t) (Date.strftime_ymd (mon + 6)))).
  2:{ eapply Forall_impl; [|exact Hdue]. intros t [s Hs].
      unfold Spec.due. rewrite Hs. simpl.
      destruct (str_leb (Date.strftime_ymd mon) s); reflexivity. }
  reflexivity.
Qed.

(** The fixture of five tasks, two of them done, on Wednesday 2026-11-04:
    [completed] is 2, and the other counts are as expected. *)
Lemma calculate_stats_fixture :
  ((Date.ymd2ord 1000 1 7 <= now_ord Spec.env0 <= Date.MAXORD - 6)%Z
   /\ Forall Spec.has_str_due Spec.fixture)
  /\ DashboardView.calculate_stats Spec.env0 Spec.fixture
     = Ok [(py "total", VInt 5); (py "completed", VInt 2);
           (py "in_progress", VInt 1); (py "urgent", VInt 3);
           (py "overdue", VInt 1); (py "this_week", VInt 3)].
Proof.
  assert (Hn : (Date.ymd2ord 1000 1 7 <= now_ord Spec.env0 <= Date.MAXORD - 6)%Z)
    by (vm_compute; split; discriminate).
  assert (Hd : Forall Spec.has_str_due Spec.fixture)
    by (repeat constructor; eexists; reflexivity).
  split; [split; assumption|].
  destruct (calculate_stats_counts Spec.env0 Spec.fixture Hn Hd) as (_ & _ & _ & Hstats).
  rewrite Hstats. vm_compute. reflexivity.
Defined.

(** C1 as stated, for every list of tasks, fails: a record whose [dueDate]
    is null is accepted by [Task.from_dict], and the task it gives makes
    [calculate_stats] raise [TypeError] where it compares the due date with
    the date of today. *)
Lemma calculate_stats_null_due_date :
  let record := VDict [(py "title", VStr (py "Sem prazo")); (py "dueDate", VNone)] in
  exists t : Task.t,
    Task.from_dict reference_lib Spec.env0 record = Ok t
    /\ Task.due_date t = VNone
    /\ DashboardView.calculate_stats Spec.env0 (Spec.fixture ++ [t]) = Raise TypeError
    /\ DashboardView.calculate_stats Spec.env0 [t] = Raise TypeError.
Proof.
  intros record. exists SpecX.undated.
  split; [vm_compute; reflexivity|].
  split; [reflexivity|].
  split; vm_compute; reflexivity.
Qed.

(** ** Task.to_dict *)

(** C3, as the code has it: [to_dict] keeps every field under its own name
    except [due_date] and [created_at], which become [dueDate] and
    [createdAt]; [attachments] stays the native list; a [collaborators] list
    is replaced by its textual representation. *)
Theorem to_dict_shape (L : pylib) (t : Task.t) :
  Task.to_dict L t
  = [(py "title", Task.title t);
     (py "responsible", Task.responsible t);
     (py "category", Task.category t);
     (py "priority", Task.priority t);
     (py "status", Task.status t);
     (py "description", Task.description t);
     (py "attachments", Task.attachments t);
     (py "collaborators",
      match Task.collaborators t with
      | VList l => VStr (py_repr L (VList l))
      | c => c
      end);
     (py "manager_feedback", Task.manager_feedback t);
     (py "id", Task.id t);
     (py "dueDate", Task.due_date t);
     (py "createdAt", Task.created_at t)].
Proof.
  destruct t as [ti re ca pr st du de at_ co mf i cr].
  unfold Task.to_dict; cbn [Task.title Task.responsible Task.category
    Task.priority Task.status Task.due_date Task.description Task.attachments
    Task.collaborators Task.manager_feedback Task.id Task.created_at].
  destruct co; reflexivity.
Qed.

(** C3 as stated fails: a task constructed with two collaborators holds a
    list, and [to_dict] maps [collaborators] to a string. *)
Lemma to_dict_stringifies_collaborators :
  exists t : Task.t,
    Task.post_init reference_lib
      (Spec.draft (py "Relatório") (VList [])
         (VList [VStr (py "Ana"); VStr (py "Bia")])) = Ok t
    /\ Task.collaborators t = VList [VStr (py "Ana"); VStr (py "Bia")]
    /\ Dict.get (Task.to_dict reference_lib t) (py "collaborators")
       = Some (VStr (py "['Ana', 'Bia']"))
    /\ Dict.get (Task.to_dict reference_lib t) (py "collaborators")
       <> Some (Task.collaborators t).
Proof.
  eexists. split; [vm_compute; reflexivity|].
  split; [reflexivity|]. split; [vm_compute; reflexivity|].
  vm_compute. discriminate.
Qed.

(** ** Task.__post_init__ and the title *)

Lemma truthy_str (s : str) : truthy (VStr s) = false <-> s = [].
Proof. destruct s; simpl; split; congruence. Qed.

(** An empty or white-space title is refused with the validation error. *)
Lemma post_init_blank_title (L : pylib) (self : Task.t) (s : str) :
  Task.title self = VStr s -> strip s = [] ->
  Task.post_init L self = Raise (ValueError Task.TITLE_REQUIRED).
Proof.
  intros Ht Hs. unfold Task.post_init. rewrite Ht.
  destruct (truthy (VStr s)); simpl; [|reflexivity].
  rewrite Hs. reflexivity.
Qed.

(** C4, at the failing input: a title made of markup only passes the check
    of [__post_init__], which runs before the sanitization, and the task is
    constructed with an empty title.  The same happens with escaped
    markup. *)
Theorem post_init_markup_title_empty (L : pylib) :
  (exists t : Task.t,
     Task.post_init L (Spec.draft (py "<b></b>") (VList []) (VList [])) = Ok t
     /\ Task.title t = VStr [])
  /\ (exists t : Task.t,
        Task.post_init reference_lib
          (Spec.draft (py "&lt;br&gt;") (VList []) (VList [])) = Ok t
        /\ Task.title t = VStr []).
Proof.
  split; eexists; split; try reflexivity.
Qed.

(** ** The local store *)

Lemma lookup_write_same (fs : FS.t) (p : str) (f : FS.file) :
  FS.lookup (FS.write fs p f) p = Some f.
Proof.
  induction fs as [|[q g] fs IH]; simpl.
  - now rewrite str_eqb_refl.
  - destruct (str_eqb q p) eqn:Hq; simpl; rewrite Hq; auto.
Qed.

Lemma lookup_write_other (fs : FS.t) (p q : str) (f : FS.file) :
  q <> p -> FS.lookup (FS.write fs p f) q = FS.lookup fs q.
Proof.
  intros Hne. induction fs as [|[r g] fs IH]; simpl.
  - destruct (str_eqb p q) eqn:Hpq; [|reflexivity].
    apply str_eqb_eq in Hpq. congruence.
  - destruct (str_eqb r p) eqn:Hr; simpl.
    + apply str_eqb_eq in Hr. subst r.
      destruct (str_eqb p q) eqn:Hpq; [|reflexivity].
      apply str_eqb_eq in Hpq. congruence.
    + destruct (str_eqb r q); auto.
Qed.

Lemma exists_lookup (fs : FS.t) (p : str) (f : FS.file) :
  FS.lookup fs p = Some f -> FS.exists_ fs p = true.
Proof. unfold FS.exists_. now intros ->. Qed.

Lemma mapM_raises {A B} (f : A -> result B) (l : list A) (a : A) :
  In a l -> is_ok (f a) = false -> is_ok (mapM f l) = false.
Proof.
  induction l as [|x l IH]; simpl; [tauto|].
  intros [->|Hin] Ha.
  - destruct (f a); [discriminate|reflexivity].
  - destruct (f x); [|reflexivity]. simpl.
    specialize (IH Hin Ha). destruct (mapM f l); [discriminate|reflexivity].
Qed.

(** A record with an empty or white-space title cannot be reconstructed. *)
Lemma from_dict_blank_title (L : pylib) (E : env) (d : dict) (s : str) :
  Dict.get d (py "title") = Some (VStr s) -> strip s = [] ->
  Task.from_dict L E (VDict d) = Raise (ValueError Task.TITLE_REQUIRED).
Proof.
  intros Hd Hs. unfold Task.from_dict, Task.init.
  eapply post_init_blank_title; [|exact Hs].
  simpl. unfold Dict.get_default. rewrite Hd. reflexivity.
Qed.

(** C10: in local-file mode, for an identity that is not the manager, when
    the tasks file holds a JSON array and one of its records cannot be
    reconstructed, [load_tasks] returns the empty list (and leaves the files
    alone): the valid records of the file are dropped with the bad one. *)
Theorem load_tasks_one_bad_record_drops_all
    (L : pylib) (E : env) (dm : DataManager.t) (fs : FS.t)
    (items : list pyval) (bad : pyval) :
  DataManager.is_manager (current_user E) = false ->
  FS.lookup fs (DataManager.file_path dm) = Some (FS.FJson (VList items)) ->
  In bad items ->
  is_ok (Task.from_dict L E bad) = false ->
  DataManager.load_tasks L E dm fs = Ok ([], fs).
Proof.
  intros Hm Hf Hin Hbad. unfold DataManager.load_tasks.
  rewrite Hm, (exists_lookup _ _ _ Hf). simpl.
  unfold FS.load. rewrite Hf. simpl.
  pose proof (mapM_raises (Task.from_dict L E) items bad Hin Hbad) as Hr.
  destruct (mapM (Task.from_dict L E) items); [discriminate|reflexivity].
Qed.

(** The bad record of C10 can be one with a white-space title; the valid
    record next to it is lost. *)
Lemma load_tasks_blank_title_record :
  let dm := DataManager.init Spec.env0 None in
  let items := [Spec.record "Pagar fatura" 1; Spec.record "   " 2] in
  let fs := [(DATA_FILE, FS.FJson (VList items))] in
  (DataManager.is_manager (current_user Spec.env0) = false
   /\ FS.lookup fs (DataManager.file_path dm) = Some (FS.FJson (VList items))
   /\ In (Spec.record "   " 2) items
   /\ is_ok (Task.from_dict reference_lib Spec.env0 (Spec.record "   " 2)) = false)
  /\ is_ok (Task.from_dict reference_lib Spec.env0 (Spec.record "Pagar fatura" 1)) = true
  /\ DataManager.load_tasks reference_lib Spec.env0 dm fs = Ok ([], fs).
Proof.
  intros dm items fs.
  assert (H1 : DataManager.is_manager (current_user Spec.env0) = false) by reflexivity.
  assert (H2 : FS.lookup fs (DataManager.file_path dm) = Some (FS.FJson (VList items)))
    by reflexivity.
  assert (H3 : In (Spec.record "   " 2) items) by (right; left; reflexivity).
  assert (H4 : is_ok (Task.from_dict reference_lib Spec.env0 (Spec.record "   " 2)) = false)
    by reflexivity.
  split; [auto|]. split; [reflexivity|].
  exact (load_tasks_one_bad_record_drops_all reference_lib Spec.env0 dm fs items
           (Spec.record "   " 2) H1 H2 H3 H4).
Defined.

(** ** Updates *)

Lemma update_from_to_dict (L : pylib) (E : env) (u : TaskUpdate.t) (idx : Z) :
  TaskUpdate.from_dict L E (VDict (TaskUpdate.to_dict u)) idx = Ok u.
Proof. destruct u. reflexivity. Qed.

Lemma from_dicts_to_dicts (L : pylib) (E : env) (us : list TaskUpdate.t) (idx : Z) :
  DataManager.from_dicts L E (map (fun u => VDict (TaskUpdate.to_dict u)) us) idx = Ok us.
Proof.
  revert idx. induction us as [|u us IH]; intros idx; [reflexivity|].
  cbn [map DataManager.from_dicts].
  rewrite update_from_to_dict. cbn [bind]. rewrite IH. reflexivity.
Qed.

Lemma load_updates_stored (L : pylib) (E : env) (dm : DataManager.t) (fs : FS.t)
    (us : list TaskUpdate.t) :
  Spec.stored_updates dm fs us -> DataManager.load_updates L E dm fs = us.
Proof.
  unfold Spec.stored_updates, DataManager.load_updates. intros H.
  rewrite (exists_lookup _ _ _ H). simpl. unfold FS.load. rewrite H. simpl.
  rewrite from_dicts_to_dicts. reflexivity.
Qed.

Lemma save_updates_stored (dm : DataManager.t) (fs : FS.t) (us : list TaskUpdate.t) :
  Spec.json_updates us ->
  fst (DataManager.save_updates dm fs us) = true
  /\ Spec.stored_updates dm (snd (DataManager.save_updates dm fs us)) us
  /\ (forall p, p <> DataManager.updates_path dm ->
        FS.lookup (snd (DataManager.save_updates dm fs us)) p = FS.lookup fs p).
Proof.
  intros Hj. unfold DataManager.save_updates, FS.dump, Spec.stored_updates.
  assert (Hok : FS.json_ok (VList (map (fun u => VDict (TaskUpdate.to_dict u)) us)) = true).
  { cbn [FS.json_ok]. rewrite forallb_forall. intros v Hv.
    apply in_map_iff in Hv as (u & <- & Hu).
    unfold Spec.json_updates in Hj. rewrite Forall_forall in Hj. now apply Hj. }
  rewrite Hok. cbn [fst snd]. split; [reflexivity|]. split.
  - apply lookup_write_same.
  - intros p Hp. now apply lookup_write_other.
Qed.

Lemma filter_comm {A} (p q : A -> bool) (l : list A) :
  filter p (filter q l) = filter q (filter p l).
Proof.
  induction l as [|a l IH]; simpl; [reflexivity|].
  destruct (q a) eqn:Hq, (p a) eqn:Hp; simpl; rewrite ?Hq, ?Hp, IH; reflexivity.
Qed.

Lemma other_id_int (uid z : Z) (u : TaskUpdate.t) :
  TaskUpdate.id u = VInt z -> Spec.other_id uid u = negb (z =? uid)%Z.
Proof. unfold Spec.other_id. now intros ->. Qed.

Lemma filter_keeps_all {A} (p : A -> bool) (l : list A) :
  (forall a, In a l -> p a = true) -> filter p l = l.
Proof.
  induction l as [|a l IH]; simpl; intros H; [reflexivity|].
  rewrite (H a (or_introl eq_refl)). f_equal. apply IH. auto.
Qed.

(** With unique ids, the filter of [delete_update] drops one update. *)
Lemma filter_other_id_length (uid : Z) (us : list TaskUpdate.t) (u0 : TaskUpdate.t) :
  Spec.unique_ids us -> In u0 us -> TaskUpdate.id u0 = VInt uid ->
  (List.length (filter (Spec.other_id uid) us) + 1 = List.length us)%nat
  /\ ~ In u0 (filter (Spec.other_id uid) us).
Proof.
  intros [Hint Hnd] Hin H0.
  split.
  - induction us as [|u us IH]; simpl in *; [tauto|].
    inversion Hint as [|? ? [z Hz] Hint']; subst.
    inversion Hnd as [|? ? Hnotin Hnd']; subst.
    rewrite (other_id_int uid z u Hz).
    destruct (Z.eqb_spec z uid) as [->|Hne]; simpl.
    + rewrite filter_keeps_all; [lia|].
      intros a Ha. rewrite Forall_forall in Hint'.
      destruct (Hint' a Ha) as [za Hza]. rewrite (other_id_int uid za a Hza).
      destruct (Z.eqb_spec za uid) as [->|]; [|reflexivity].
      exfalso. apply Hnotin. rewrite Hz, <- Hza. now apply in_map.
    + destruct Hin as [->|Hin]; [congruence|].
      specialize (IH Hint' Hnd' Hin). lia.
  - intros Hf. apply filter_In in Hf as [_ Hf].
    rewrite (other_id_int uid uid u0 H0), Z.eqb_refl in Hf. discriminate.
Qed.

(** C9: on a stored collection with unique ids, [delete_update(update_id)]
    succeeds and stores the collection without the update of that id: no
    update returned by [get_task_updates] afterwards has the id; every other
    update is still stored, unchanged and in order, so the updates of every
    task are the former ones without the deleted one; when the id was present
    the collection is one shorter; no other file changes. *)
Theorem delete_update_removes_exactly
    (L : pylib) (E : env) (dm : DataManager.t) (fs : FS.t)
    (us : list TaskUpdate.t) (update_id : Z) :
  Spec.stored_updates dm fs us ->
  Spec.json_updates us ->
  Spec.unique_ids us ->
  let fs' := snd (DataManager.delete_update L E dm fs update_id) in
  fst (DataManager.delete_update L E dm fs update_id) = true
  /\ DataManager.load_updates L E dm fs' = filter (Spec.other_id update_id) us
  /\ (forall task_id u,
        In u (DataManager.get_task_updates L E dm fs' task_id) ->
        TaskUpdate.id u <> VInt update_id)
  /\ (forall u, In u us -> TaskUpdate.id u <> VInt update_id ->
                In u (DataManager.load_updates L E dm fs'))
  /\ (forall task_id,
        DataManager.get_task_updates L E dm fs' task_id
        = filter (Spec.other_id update_id)
            (DataManager.get_task_updates L E dm fs task_id))
  /\ (forall u0, In u0 us -> TaskUpdate.id u0 = VInt update_id ->
        (List.length (DataManager.load_updates L E dm fs') + 1 = List.length us)%nat
        /\ ~ In u0 (DataManager.load_updates L E dm fs'))
  /\ (forall p, p <> DataManager.updates_path dm -> FS.lookup fs' p = FS.lookup fs p).
Proof.
  intros Hst Hj Hu fs'.
  assert (Hj' : Spec.json_updates (filter (Spec.other_id update_id) us)).
  { unfold Spec.json_updates in *. rewrite Forall_forall in *.
    intros u Hin. apply filter_In in Hin as [Hin _]. auto. }
  assert (Hdel : DataManager.delete_update L E dm fs update_id
                 = DataManager.save_updates dm fs (filter (Spec.other_id update_id) us)).
  { unfold DataManager.delete_update. now rewrite (load_updates_stored L E dm fs us Hst). }
  destruct (save_updates_stored dm fs _ Hj') as (Hok & Hst' & Hframe).
  subst fs'. rewrite Hdel.
  set (fs' := snd (DataManager.save_updates dm fs (filter (Spec.other_id update_id) us))) in *.
  pose proof (load_updates_stored L E dm fs' _ Hst') as Hload.
  split; [exact Hok|]. split; [exact Hload|].
  split.
  { intros tid u Hin. unfold DataManager.get_task_updates in Hin.
    rewrite Hload in Hin. apply filter_In in Hin as [Hin _].
    apply filter_In in Hin as [_ Hin]. intros Hid.
    rewrite (other_id_int update_id update_id u Hid), Z.eqb_refl in Hin. discriminate. }
  split.
  { intros u Hin Hid. rewrite Hload. apply filter_In. split; [exact Hin|].
    destruct Hu as [Hint _]. rewrite Forall_forall in Hint.
    destruct (Hint u Hin) as [z Hz]. rewrite (other_id_int update_id z u Hz).
    destruct (Z.eqb_spec z update_id); [congruence|reflexivity]. }
  split.
  { intros tid. unfold DataManager.get_task_updates.
    rewrite Hload, (load_updates_stored L E dm fs us Hst). apply filter_comm. }
  split.
  { intros u0 Hin Hid. rewrite Hload. now apply filter_other_id_length. }
  exact Hframe.
Qed.

(** Three updates of two tasks; the update of id 10 is deleted. *)
Lemma delete_update_example :
  let dm := DataManager.init Spec.env0 None in
  let us := [Spec.update 1 10 "visto"; Spec.update 2 20 "ok"; Spec.update 1 30 "feito"] in
  let fs := snd (DataManager.save_updates dm [] us) in
  (Spec.stored_updates dm fs us /\ Spec.json_updates us /\ Spec.unique_ids us)
  /\ DataManager.load_updates reference_lib Spec.env0 dm
       (snd (DataManager.delete_update reference_lib Spec.env0 dm fs 10))
     = [Spec.update 2 20 "ok"; Spec.update 1 30 "feito"]
  /\ DataManager.get_task_updates reference_lib Spec.env0 dm
       (snd (DataManager.delete_update reference_lib Spec.env0 dm fs 10)) 1
     = [Spec.update 1 30 "feito"].
Proof.
  intros dm us fs.
  assert (H1 : Spec.stored_updates dm fs us) by reflexivity.
  assert (H2 : Spec.json_updates us) by (repeat constructor).
  assert (H3 : Spec.unique_ids us).
  { split.
    - repeat constructor; eexists; reflexivity.
    - repeat constructor; simpl; intuition discriminate. }
  split; [auto|].
  destruct (delete_update_removes_exactly reference_lib Spec.env0 dm fs us 10 H1 H2 H3)
    as (_ & Hload & _ & _ & Hget & _).
  split.
  - rewrite Hload. reflexivity.
  - rewrite Hget. reflexivity.
Defined.

(** ** Reading back what [repr] writes *)

Section ReadRepr.
Open Scope N_scope.

Lemma hexval_hexchar (d : N) : d < 16 -> Literal.hexval (Repr.hexchar d) = Some d.
Proof.
  intros Hd. unfold Repr.hexchar.
  destruct (N.ltb_spec d 10).
  - unfold Literal.hexval.
    replace ((48 <=? 48 + d) && (48 + d <=? 57)) with true
      by (symmetry; apply andb_true_intro; split; apply N.leb_le; lia).
    f_equal. lia.
  - unfold Literal.hexval.
    replace ((48 <=? 87 + d) && (87 + d <=? 57)) with false
      by (symmetry; apply andb_false_iff; right; apply N.leb_gt; lia).
    replace ((97 <=? 87 + d) && (87 + d <=? 102)) with true
      by (symmetry; apply andb_true_intro; split; apply N.leb_le; lia).
    f_equal. lia.
Qed.

Lemma mod_pow16_succ (c : N) (k : nat) :
  c mod 16 ^ N.of_nat (S k) = (c / 16 ^ N.of_nat k) mod 16 * 16 ^ N.of_nat k + c mod 16 ^ N.of_nat k.
Proof.
  rewrite Nat2N.inj_succ, N.pow_succ_r'.
  rewrite (N.mul_comm 16), N.Div0.mod_mul_r. lia.
Qed.

Lemma run_hex (q : N) (items : list str) (cur rest : str) (c : N) (n : nat) (acc : N) :
  (0 < n)%nat ->
  acc * 16 ^ N.of_nat n + c mod 16 ^ N.of_nat n <= 0x10FFFF ->
  Literal.run (Literal.Hex q n acc) items cur (Repr.hexdigits n c ++ rest)
  = Literal.run (Literal.Plain q) items ((acc * 16 ^ N.of_nat n + c mod 16 ^ N.of_nat n) :: cur) rest.
Proof.
  revert acc. induction n as [|k IH]; intros acc Hn Hle; [lia|].
  cbn [Repr.hexdigits app Literal.run].
  rewrite hexval_hexchar by (apply N.mod_lt; lia).
  rewrite mod_pow16_succ in *.
  assert (Hp : 16 ^ N.of_nat (S k) = 16 * 16 ^ N.of_nat k)
    by (rewrite Nat2N.inj_succ; apply N.pow_succ_r').
  rewrite Hp in *.
  set (v := (c / 16 ^ N.of_nat k) mod 16) in *.
  replace (acc * (16 * 16 ^ N.of_nat k) + (v * 16 ^ N.of_nat k + c mod 16 ^ N.of_nat k))
    with ((acc * 16 + v) * 16 ^ N.of_nat k + c mod 16 ^ N.of_nat k) in * by lia.
  destruct k as [|k'].
  - cbn [N.of_nat] in *. rewrite N.pow_0_r, N.mod_1_r, N.mul_1_r, N.add_0_r in *.
    apply N.leb_le in Hle. rewrite Hle. reflexivity.
  - apply IH; [lia|exact Hle].
Qed.

(** Any table of printable characters. *)
Variable pr : N -> bool.

Lemma run_hex0 (q : N) (items : list str) (cur rest : str) (c : N) (n : nat) :
  (0 < n)%nat -> c < 16 ^ N.of_nat n -> c <= 0x10FFFF ->
  Literal.run (Literal.Hex q n 0) items cur (Repr.hexdigits n c ++ rest)
  = Literal.run (Literal.Plain q) items (c :: cur) rest.
Proof.
  intros Hn Hc Hle. rewrite run_hex; [|exact Hn|];
    rewrite N.mul_0_l, N.add_0_l, N.mod_small by exact Hc; [reflexivity|exact Hle].
Qed.

Lemma run_repr_char (q : N) (items : list str) (cur rest : str) (c : N) :
  q = 34 \/ q = 39 -> c <= 0x10FFFF ->
  Literal.run (Literal.Plain q) items cur (Repr.repr_char pr q c ++ rest)
  = Literal.run (Literal.Plain q) items (c :: cur) rest.
Proof.
  intros Hq Hc. unfold Repr.repr_char.
  assert (H2 : 16 ^ N.of_nat 2 = 256) by reflexivity.
  assert (H4 : 16 ^ N.of_nat 4 = 65536) by reflexivity.
  assert (H8 : 16 ^ N.of_nat 8 = 4294967296) by reflexivity.
  destruct ((c =? q) || (c =? 92)) eqn:E1.
  { cbn [app Literal.run].
    destruct Hq; subst q; cbn [N.eqb Pos.eqb orb];
      apply orb_true_iff in E1 as [E1|E1]; apply N.eqb_eq in E1; subst c; reflexivity. }
  apply orb_false_iff in E1 as [E1 E1']. apply N.eqb_neq in E1, E1'.
  destruct (N.eqb_spec c 9); [subst; destruct Hq; subst q; reflexivity|].
  destruct (N.eqb_spec c 10); [subst; destruct Hq; subst q; reflexivity|].
  destruct (N.eqb_spec c 13); [subst; destruct Hq; subst q; reflexivity|].
  assert (Hx : forall k, (0 < k)%nat -> c < 16 ^ N.of_nat k -> forall e, e = 120 /\ k = 2%nat \/ e = 117 /\ k = 4%nat \/ e = 85 /\ k = 8%nat ->
     Literal.run (Literal.Plain q) items cur ((92 :: e :: Repr.hexdigits k c) ++ rest)
     = Literal.run (Literal.Plain q) items (c :: cur) rest).
  { intros k Hk Hck e He. cbn [app Literal.run].
    replace (92 =? q) with false by (destruct Hq; subst q; reflexivity).
    cbn [N.eqb Pos.eqb].
    destruct He as [[-> ->]|[[-> ->]|[-> ->]]]; cbn [N.eqb Pos.eqb orb];
      apply run_hex0; auto. }
  assert (Hp : Literal.run (Literal.Plain q) items cur ([c] ++ rest)
               = Literal.run (Literal.Plain q) items (c :: cur) rest \/ c = 0).
  { destruct (N.eqb_spec c 0); [right; assumption|left].
    cbn [app Literal.run].
    replace (c =? q) with false by (symmetry; apply N.eqb_neq; assumption).
    replace (c =? 92) with false by (symmetry; apply N.eqb_neq; assumption).
    replace (c =? 0) with false by (symmetry; apply N.eqb_neq; assumption).
    replace (c =? 10) with false by (symmetry; apply N.eqb_neq; assumption).
    replace (c =? 13) with false by (symmetry; apply N.eqb_neq; assumption).
    reflexivity. }
  destruct ((c <? 32) || (c =? 127)) eqn:E2.
  { apply (Hx 2%nat); [lia| |auto].
    rewrite H2. apply orb_true_iff in E2 as [E2|E2];
      [apply N.ltb_lt in E2|apply N.eqb_eq in E2]; lia. }
  apply orb_false_iff in E2 as [E2 E2']. apply N.ltb_ge in E2.
  assert (Hp' : Literal.run (Literal.Plain q) items cur ([c] ++ rest)
               = Literal.run (Literal.Plain q) items (c :: cur) rest)
    by (destruct Hp as [Hp|Hp]; [exact Hp|lia]).
  destruct (c <? 127); [exact Hp'|].
  destruct (pr c); [exact Hp'|].
  destruct (N.leb_spec c 255); [apply (Hx 2%nat); [lia|lia|auto]|].
  destruct (N.leb_spec c 65535); [apply (Hx 4%nat); [lia|lia|auto]|].
  apply (Hx 8%nat); [lia|lia|auto 6].
Qed.

Lemma run_repr_chars (q : N) (items : list str) (s cur rest : str) :
  q = 34 \/ q = 39 -> Forall (fun c => c <= 0x10FFFF) s ->
  Literal.run (Literal.Plain q) items cur (flat_map (Repr.repr_char pr q) s ++ rest)
  = Literal.run (Literal.Plain q) items (rev s ++ cur) rest.
Proof.
  intros Hq Hs. revert cur. induction Hs as [|c s Hc _ IH]; intros cur; [reflexivity|].
  cbn [flat_map rev]. rewrite <- !app_assoc.
  rewrite run_repr_char by assumption. rewrite IH. reflexivity.
Qed.

Lemma repr_quote_cases (s : str) : Repr.repr_quote s = 34 \/ Repr.repr_quote s = 39.
Proof. unfold Repr.repr_quote. destruct (_ && _); auto. Qed.

Lemma run_repr_str (items : list str) (s rest : str) :
  Forall (fun c => c <= 0x10FFFF) s ->
  Literal.run Literal.Item items [] (Repr.repr_str pr s ++ rest)
  = Literal.run Literal.After (s :: items) [] rest.
Proof.
  intros Hs. unfold Repr.repr_str.
  pose proof (repr_quote_cases s) as Hq. set (q := Repr.repr_quote s) in *.
  cbn [app Literal.run].
  replace (q =? 32) with false by (destruct Hq as [-> | ->]; reflexivity).
  replace (q =? 93) with false by (destruct Hq as [-> | ->]; reflexivity).
  replace ((q =? 39) || (q =? 34)) with true by (destruct Hq as [-> | ->]; reflexivity).
  rewrite <- app_assoc, run_repr_chars by assumption.
  cbn [app Literal.run]. rewrite N.eqb_refl, app_nil_r, rev_involutive. reflexivity.
Qed.

Lemma join_cons (sep : str) (p : str) (ps : list str) :
  join sep (p :: ps) = p ++ flat_map (fun x => sep ++ x) ps.
Proof.
  revert p. induction ps as [|p' ps IH]; intros p.
  - simpl. now rewrite app_nil_r.
  - change (join sep (p :: p' :: ps)) with (p ++ sep ++ join sep (p' :: ps)).
    rewrite IH. cbn [flat_map]. now rewrite <- app_assoc.
Qed.

Lemma run_items (l : list str) (items : list str) :
  Forall (Forall (fun c => c <= 0x10FFFF)) l ->
  Literal.run Literal.After items []
    (flat_map (fun x => py ", " ++ x) (map (Repr.repr_str pr) l) ++ [93])
  = Some (rev items ++ l).
Proof.
  intros Hl. revert items. induction Hl as [|s l Hs _ IH]; intros items.
  - cbn. now rewrite app_nil_r.
  - cbn [map flat_map]. rewrite <- !app_assoc.
    change (py ", ") with [44; 32]. cbn [app Literal.run N.eqb Pos.eqb].
    rewrite run_repr_str by assumption. rewrite IH. cbn [rev].
    now rewrite <- app_assoc.
Qed.

Lemma parse_repr_list (l : list str) :
  Forall (Forall (fun c => c <= 0x10FFFF)) l ->
  Literal.parse (Repr.py_repr pr (VList (map VStr l))) = Ok (VList (map VStr l)).
Proof.
  intros Hl. unfold Literal.parse. cbn [Repr.py_repr].
  rewrite map_map. cbn [Repr.py_repr].
  change (map (fun x => Repr.repr_str pr x) l) with (map (Repr.repr_str pr) l).
  destruct Hl as [|s l Hs Hl].
  - reflexivity.
  - cbn [map]. rewrite join_cons. cbn [app Literal.run N.eqb Pos.eqb].
    rewrite <- app_assoc, run_repr_str by assumption.
    pose proof (run_items l [s] Hl) as Hr. unfold str in *.
    rewrite Hr. reflexivity.
Qed.

End ReadRepr.

(** ** The collaborators argument *)


Lemma repr_list_nonempty (L : pylib) (l : list pyval) : truthy (VStr (py_repr L (VList l))) = true.
Proof. reflexivity. Qed.

Lemma post_init_accepted (L : pylib) (self : Task.t) :
  SpecL.title_accepted self -> exists t, Task.post_init L self = Ok t.
Proof.
  intros (s & Hs & Hne). unfold Task.post_init. rewrite Hs.
  destruct (truthy (VStr s)) eqn:Ht.
  - cbn [negb]. destruct (truthy (VStr (strip s))) eqn:Ht'.
    + cbn [bind]. eexists. reflexivity.
    + apply truthy_str in Ht'. contradiction.
  - apply truthy_str in Ht. subst s. contradiction Hne. reflexivity.
Qed.

Lemma get_set_same (d : dict) (k : str) (v : pyval) :
  Dict.get (Dict.set d k v) k = Some v.
Proof.
  induction d as [|[k' v'] d IH]; simpl.
  - now rewrite str_eqb_refl.
  - destruct (str_eqb k' k) eqn:Hk; simpl; rewrite Hk; auto.
Qed.

Lemma get_set_other (d : dict) (k k' : str) (v : pyval) :
  k' <> k -> Dict.get (Dict.set d k v) k' = Dict.get d k'.
Proof.
  intros Hne. induction d as [|[k0 v0] d IH]; simpl.
  - destruct (str_eqb k k') eqn:Hk; [|reflexivity].
    apply str_eqb_eq in Hk. congruence.
  - destruct (str_eqb k0 k) eqn:Hk; simpl.
    + apply str_eqb_eq in Hk. subst k0.
      destruct (str_eqb k k') eqn:Hk'; [|reflexivity].
      apply str_eqb_eq in Hk'. congruence.
    + destruct (str_eqb k0 k'); auto.
Qed.


Lemma get_default_set_same (d : dict) (k : str) (v dflt : pyval) :
  Dict.get_default (Dict.set d k v) k dflt = v.
Proof. unfold Dict.get_default. now rewrite get_set_same. Qed.


(** The reader of this file has the property asked of [ast.literal_eval]
    and of [eval]. *)
Lemma reference_reads_repr : SpecL.reads_repr reference_lib Literal.parse.
Proof. intros l Hl. apply parse_repr_list. exact Hl. Qed.

(** ** Sanitizing twice *)

Lemma lstrip_split (w : str) : exists p, w = p ++ lstrip w.
Proof.
  induction w as [|c w [p IH]]; simpl.
  - now exists [].
  - destruct (isspace c).
    + exists (c :: p). simpl. now f_equal.
    + now exists [].
Qed.

Lemma lstrip_head (w : str) (c : N) (r : str) :
  lstrip w = c :: r -> isspace c = false.
Proof.
  induction w as [|a w IH]; simpl; [discriminate|].
  destruct (isspace a) eqn:Ha; [exact IH|].
  intros H. injection H as <- _. exact Ha.
Qed.

Lemma lstrip_fixed (w : str) :
  (forall c r, w = c :: r -> isspace c = false) -> lstrip w = w.
Proof.
  destruct w as [|c r]; simpl; [reflexivity|].
  intros H. now rewrite (H c r eq_refl).
Qed.

Lemma rstrip_split (w : str) : exists p, w = rstrip w ++ p.
Proof.
  unfold rstrip. destruct (lstrip_split (rev w)) as [p Hp].
  exists (rev p). rewrite <- rev_app_distr, <- Hp. now rewrite rev_involutive.
Qed.

Lemma strip_fixed (w : str) : strip (strip w) = strip w.
Proof.
  unfold strip at 1.
  assert (Hl : lstrip (strip w) = strip w).
  { apply lstrip_fixed. intros c r Hc. unfold strip in Hc.
    destruct (rstrip_split (lstrip w)) as [p Hp]. rewrite Hc in Hp.
    eapply lstrip_head. exact Hp. }
  rewrite Hl. unfold strip, rstrip.
  rewrite rev_involutive. f_equal.
  apply lstrip_fixed. intros c r Hc. eapply lstrip_head. exact Hc.
Qed.

Lemma has_char_app (c : N) (a b : str) :
  has_char c (a ++ b) = has_char c a || has_char c b.
Proof. unfold has_char. apply existsb_app. Qed.

Lemma tagfree_app (a b : str) : SpecS.tagfree (a ++ b) = true -> SpecS.tagfree a = true /\ SpecS.tagfree b = true.
Proof.
  induction a as [|c a IH]; simpl; [auto|].
  intros H. apply andb_prop in H as [H1 H2]. destruct (IH H2) as [Ha Hb].
  rewrite Ha. split; [|exact Hb].
  rewrite andb_true_r. rewrite has_char_app in H1.
  destruct (c =? 60)%N; [|reflexivity]. simpl in *.
  destruct (has_char 62 a); [discriminate|reflexivity].
Qed.

Lemma tagfree_strip (s : str) : SpecS.tagfree s = true -> SpecS.tagfree (strip s) = true.
Proof.
  intros H. unfold strip.
  destruct (lstrip_split s) as [p Hp]. rewrite Hp in H.
  apply tagfree_app in H as [_ H].
  destruct (rstrip_split (lstrip s)) as [q Hq]. rewrite Hq in H.
  now apply tagfree_app in H as [H _].
Qed.

Lemma has_char_strip_tags (c : N) (b : bool) (s : str) :
  has_char c s = false -> has_char c (Html.strip_tags_from b s) = false.
Proof.
  revert b. induction s as [|a s IH]; intros b; simpl; [auto|].
  intros H. apply orb_false_iff in H as [H1 H2].
  destruct b; [now apply IH|].
  destruct ((a =? 60)%N && has_char 62 s); [now apply IH|].
  simpl. rewrite H1. now apply IH.
Qed.

Lemma tagfree_strip_tags (b : bool) (s : str) :
  SpecS.tagfree (Html.strip_tags_from b s) = true.
Proof.
  revert b. induction s as [|a s IH]; intros b; simpl; [reflexivity|].
  destruct b; [apply IH|].
  destruct ((a =? 60)%N && has_char 62 s) eqn:Ha; [apply IH|].
  simpl. rewrite IH, andb_true_r.
  destruct (a =? 60)%N; [|reflexivity]. simpl in *.
  now rewrite has_char_strip_tags.
Qed.

Lemma strip_tags_tagfree (s : str) : SpecS.tagfree s = true -> Html.strip_tags s = s.
Proof.
  unfold Html.strip_tags. induction s as [|a s IH]; simpl; [reflexivity|].
  intros H. apply andb_prop in H as [H1 H2].
  apply negb_true_iff in H1. rewrite H1. f_equal. now apply IH.
Qed.

(** A sanitized text without [&] stays as it is when sanitized again. *)
Lemma clean_val_fixed (L : pylib) (v : pyval) :
  has_char 38 (Task.clean_val L v) = false ->
  Task.clean_val L (VStr (Task.clean_val L v)) = Task.clean_val L v.
Proof.
  intros Hamp.
  destruct (Task.clean_val L v) as [|c x] eqn:Hx; [reflexivity|].
  rewrite <- Hx in *.
  unfold Task.clean_val at 1. rewrite Hx at 1. cbn [truthy negb].
  cbn [py_str Repr.py_str]. unfold Html.unescape. rewrite Hamp.
  assert (Hc : Task.clean_val L v
               = strip (Html.strip_tags (Html.unescape (html5 L) (py_str L v)))).
  { unfold Task.clean_val in *. destruct (negb (truthy v)); [discriminate|reflexivity]. }
  rewrite strip_tags_tagfree.
  - rewrite Hc. apply strip_fixed.
  - rewrite Hc. apply tagfree_strip, tagfree_strip_tags.
Qed.

(** ** The spreadsheet row of a task, there and back *)



Lemma map_VStr_inj (a b : list str) : map VStr a = map VStr b -> a = b.
Proof.
  revert b. induction a as [|x a IH]; intros [|y b] H; try discriminate; [reflexivity|].
  simpl in H. injection H as -> H. f_equal. now apply IH.
Qed.

Lemma resanitize_map (L : pylib) (lc : list str) :
  map (fun c => VStr (Task.clean_val L c))
    (filter (fun c => truthy (VStr (Task.clean_val L c))) (map VStr lc))
  = map VStr (SpecS.resanitize L lc).
Proof.
  unfold SpecS.resanitize. induction lc as [|x lc IH]; [reflexivity|].
  cbn [map filter].
  destruct (truthy (VStr (Task.clean_val L (VStr x)))); cbn [map]; now rewrite IH.
Qed.

(** What the constructor leaves in the title and in a list of
    collaborators. *)
Lemma constructed_fields (L : pylib) (t : Task.t) :
  SpecS.constructed L t ->
  (exists v, Task.title t = VStr (Task.clean_val L v))
  /\ (forall lc, Task.collaborators t = VList (map VStr lc) ->
        Forall (fun x => x <> [] /\ exists v, x = Task.clean_val L v) lc).
Proof.
  intros [self Hself]. unfold Task.post_init in Hself.
  destruct (if negb (truthy (Task.title self)) then _ else _); [|discriminate].
  cbn [bind] in Hself.
  match type of Hself with
  | context [match ?c with VList _ => _ | _ => _ end] =>
      match c with
      | match ?c0 with VStr _ => _ | _ => _ end => set (c2 := c) in Hself
      end
  end.
  injection Hself as <-. cbn [Task.title Task.collaborators].
  split; [eexists; reflexivity|].
  intros lc Hlc.
  destruct c2 as [| | | |l| |]; try discriminate.
  assert (Hl : (if truthy (VList l)
               then VList (map (fun c => VStr (Task.clean_val L c))
                             (filter (fun c => truthy (VStr (Task.clean_val L c))) l))
               else VList l)
              = VList (map VStr (map (Task.clean_val L)
                                   (filter (fun c => truthy (VStr (Task.clean_val L c))) l))))
    by (rewrite map_map; destruct l; reflexivity).
  pose proof (eq_trans (eq_sym Hl) Hlc) as Hlc'. clear Hl Hlc.
  injection Hlc' as Hlc.
  apply map_VStr_inj in Hlc. subst lc.
  apply Forall_forall. intros x Hx.
  apply in_map_iff in Hx as (c & <- & Hc).
  apply filter_In in Hc as [_ Hc]. split.
  - intros H0. rewrite H0 in Hc. discriminate.
  - eexists. reflexivity.
Qed.

Lemma strip_clean_val (L : pylib) (v : pyval) :
  strip (Task.clean_val L v) = Task.clean_val L v.
Proof.
  unfold Task.clean_val. destruct (negb (truthy v)); [reflexivity|apply strip_fixed].
Qed.

Lemma resanitize_fixed (L : pylib) (lc : list str) :
  Forall (fun x => x <> [] /\ exists v, x = Task.clean_val L v) lc ->
  Forall (fun x => has_char 38 x = false) lc ->
  SpecS.resanitize L lc = lc.
Proof.
  unfold SpecS.resanitize.
  induction 1 as [|x lc [Hne [v Hv]] _ IH]; intros Hamp; [reflexivity|].
  inversion Hamp as [|? ? Hx Hamp']; subst.
  cbn [map filter]. rewrite clean_val_fixed by exact Hx.
  destruct (Task.clean_val L v) eqn:Hc; [contradiction Hne; reflexivity|].
  cbn [truthy]. f_equal. now apply IH.
Qed.

(** The constructor run on a task whose title is accepted and whose
    collaborators are a list of [str]. *)
Lemma post_init_str_list (L : pylib) (t : Task.t) (x : str) (lc : list str) :
  Task.title t = VStr x -> strip x <> [] ->
  Task.collaborators t = VList (map VStr lc) ->
  Task.post_init L t
  = Ok (Task.mk (VStr (Task.clean_val L (VStr x))) (Task.responsible t)
          (Task.category t) (Task.priority t) (Task.status t)
          (match Task.due_date t with
           | VDate o => VStr (Date.strftime_ymd o)
           | d => d
           end)
          (Task.description t) (Task.attachments t)
          (VList (map VStr (SpecS.resanitize L lc)))
          (Task.manager_feedback t) (Task.id t) (Task.created_at t)).
Proof.
  destruct t as [ti re ca pr st du de at_ co mf i cr].
  cbn [Task.title Task.responsible Task.category Task.priority Task.status
       Task.due_date Task.description Task.attachments Task.collaborators
       Task.manager_feedback Task.id Task.created_at].
  intros -> Hx ->. unfold Task.post_init.
  cbn [Task.title Task.responsible Task.category Task.priority Task.status
       Task.due_date Task.description Task.attachments Task.collaborators
       Task.manager_feedback Task.id Task.created_at].
  assert (Ht : truthy (VStr x) = true).
  { destruct x; [contradiction Hx; reflexivity|reflexivity]. }
  assert (Ht' : truthy (VStr (strip x)) = true).
  { destruct (strip x); [contradiction Hx; reflexivity|reflexivity]. }
  rewrite Ht, Ht'. cbn [negb bind]. do 2 f_equal.
  destruct lc as [|y lc]; [reflexivity|].
  change (truthy (VList (map VStr (y :: lc)))) with true. cbv iota.
  now rewrite resanitize_map.
Qed.

(** ** The collaborators argument: what the constructor makes of it *)












(** The row of a task constructed with a markup-only title (C4) cannot be
    decoded at all. *)
Lemma sheet_row_empty_title_not_decoded :
  exists t : Task.t,
    Task.post_init reference_lib (Spec.draft (py "<b></b>") (VList []) (VList [])) = Ok t
    /\ SheetRow.decode reference_lib Spec.env0 (SheetRow.encode reference_lib t)
       = Raise (ValueError Task.TITLE_REQUIRED).
Proof.
  eexists. split; [vm_compute; reflexivity|].
  vm_compute. reflexivity.
Qed.

(** ** Derived ids of legacy updates *)

Lemma uint_digits_inj (d d' : Decimal.uint) : uint_digits d = uint_digits d' -> d = d'.
Proof.
  revert d'. induction d; intros d' H; destruct d'; simpl in H;
    try discriminate; try reflexivity;
    injection H as H; f_equal; now apply IHd.
Qed.

Lemma uint_digits_not_minus (d : Decimal.uint) (r : str) : uint_digits d <> 45%N :: r.
Proof. destruct d; simpl; discriminate. Qed.

Lemma str_of_Z_inj (a b : Z) : str_of_Z a = str_of_Z b -> a = b.
Proof.
  unfold str_of_Z. intros H.
  assert (Hi : Z.to_int a = Z.to_int b).
  { destruct (Z.to_int a) as [d|d], (Z.to_int b) as [d'|d'].
    - f_equal. now apply uint_digits_inj.
    - exfalso. eapply uint_digits_not_minus. exact H.
    - exfalso. eapply uint_digits_not_minus. symmetry. exact H.
    - injection H as H. f_equal. now apply uint_digits_inj. }
  rewrite <- (DecimalZ.of_to a), <- (DecimalZ.of_to b). now rewrite Hi.
Qed.

Lemma land_mask_range (x : Z) : (0 <= Z.land x 0x7FFFFFFF < 2 ^ 31)%Z.
Proof.
  change 0x7FFFFFFF%Z with (Z.ones 31). rewrite Z.land_ones by lia.
  apply Z.mod_pos_bound. lia.
Qed.

Lemma unique_str_same_tuple (L : pylib) (data data' : dict) (index : Z) :
  SpecId.same_tuple data data' ->
  TaskUpdate.unique_str L data index = TaskUpdate.unique_str L data' index.
Proof.
  intros (H1 & H2 & H3). unfold TaskUpdate.unique_str. now rewrite H1, H2, H3.
Qed.

Lemma unique_str_index_inj (L : pylib) (data : dict) (i j : Z) (s s' : str) :
  TaskUpdate.unique_str L data i = Ok s ->
  TaskUpdate.unique_str L data j = Ok s' ->
  s = s' -> i = j.
Proof.
  unfold TaskUpdate.unique_str.
  destruct (TaskUpdate.slice20 _) as [c20|]; cbn [bind]; [|discriminate].
  intros H1 H2 Heq. rewrite !app_assoc in H1, H2.
  injection H1 as H1. injection H2 as H2. rewrite <- H1, <- H2 in Heq.
  apply app_inv_head in Heq. now apply str_of_Z_inj.
Qed.

Lemma from_dict_legacy_id (L : pylib) (E : env) (data : dict) (index : Z)
    (u : TaskUpdate.t) :
  Dict.mem data (py "id") = false ->
  TaskUpdate.from_dict L E (VDict data) index = Ok u ->
  exists i, TaskUpdate.legacy_id L data index = Ok i /\ TaskUpdate.id u = VInt i.
Proof.
  intros Hmem. unfold TaskUpdate.from_dict. rewrite Hmem. cbn [negb].
  destruct (TaskUpdate.legacy_id L data index) as [i|]; cbn [bind]; [|discriminate].
  intros Hc. exists i. split; [reflexivity|].
  unfold TaskUpdate.construct in Hc.
  destruct (negb _); [discriminate|].
  destruct (Dict.get _ (py "task_id")); [|discriminate].
  destruct (Dict.get _ (py "content")); [|discriminate].
  injection Hc as <-. cbn [TaskUpdate.id].
  apply get_default_set_same.
Qed.

(** C6, as the code has it: within one interpreter (one hash key), the id
    given to a record without [id] depends only on the task id, the time
    stamp, the first 20 characters of the content and the index; it lies
    between 0 and 2^31 - 1; and two different indexes give two different
    strings to hash (the hashes themselves may coincide). *)
Theorem legacy_id_function
    (L : pylib) (E : env) (data data' : dict) (index index' : Z) :
  Dict.mem data (py "id") = false ->
  Dict.mem data' (py "id") = false ->
  SpecId.same_tuple data data' ->
  TaskUpdate.legacy_id L data index = TaskUpdate.legacy_id L data' index
  /\ (forall u u',
        TaskUpdate.from_dict L E (VDict data) index = Ok u ->
        TaskUpdate.from_dict L E (VDict data') index = Ok u' ->
        TaskUpdate.id u = TaskUpdate.id u'
        /\ exists i, TaskUpdate.id u = VInt i /\ (0 <= i < 2 ^ 31)%Z)
  /\ (index <> index' ->
      forall s s',
        TaskUpdate.unique_str L data index = Ok s ->
        TaskUpdate.unique_str L data' index' = Ok s' ->
        s <> s').
Proof.
  intros Hm Hm' Hsame.
  assert (Hid : TaskUpdate.legacy_id L data index = TaskUpdate.legacy_id L data' index).
  { unfold TaskUpdate.legacy_id. now rewrite (unique_str_same_tuple L data data' index Hsame). }
  split; [exact Hid|]. split.
  - intros u u' Hu Hu'.
    destruct (from_dict_legacy_id L E data index u Hm Hu) as (i & Hi & Hui).
    destruct (from_dict_legacy_id L E data' index u' Hm' Hu') as (i' & Hi' & Hui').
    rewrite Hid, Hi' in Hi. injection Hi as ->.
    split; [congruence|]. exists i. split; [exact Hui|].
    unfold TaskUpdate.legacy_id in Hi'.
    destruct (TaskUpdate.unique_str L data' index); cbn [bind] in Hi'; [|discriminate].
    injection Hi' as <-. apply land_mask_range.
  - intros Hne s s' Hs Hs' Heq.
    rewrite <- (unique_str_same_tuple L data data' index' Hsame) in Hs'.
    apply Hne. exact (unique_str_index_inj L data index index' s s' Hs Hs' Heq).
Qed.

(** The derived id of a legacy record at index 0, and the strings hashed at
    indexes 0 and 1. *)
Lemma legacy_id_example :
  (Dict.mem SpecId.legacy_record (py "id") = false
   /\ SpecId.same_tuple SpecId.legacy_record SpecId.legacy_record)
  /\ TaskUpdate.legacy_id reference_lib SpecId.legacy_record 0 = Ok 1463111195%Z
  /\ TaskUpdate.unique_str reference_lib SpecId.legacy_record 0
     = Ok (py "1_2026-11-04 12:00:00_ok_0")
  /\ TaskUpdate.unique_str reference_lib SpecId.legacy_record 1
     <> TaskUpdate.unique_str reference_lib SpecId.legacy_record 0.
Proof.
  assert (Hm : Dict.mem SpecId.legacy_record (py "id") = false) by reflexivity.
  assert (Hs : SpecId.same_tuple SpecId.legacy_record SpecId.legacy_record)
    by (repeat split).
  split; [auto|].
  destruct (legacy_id_function reference_lib Spec.env0 SpecId.legacy_record
              SpecId.legacy_record 1 0 Hm Hm Hs) as (_ & _ & Hinj).
  split; [vm_compute; reflexivity|]. split; [vm_compute; reflexivity|].
  intros Heq.
  apply (Hinj ltac:(discriminate) (py "1_2026-11-04 12:00:00_ok_1")
           (py "1_2026-11-04 12:00:00_ok_0")); [reflexivity|reflexivity|].
  vm_compute in Heq. discriminate Heq.
Defined.

(** C6 as stated fails: the same legacy record read at indexes 2168 and
    127252 gets the same id (CPython 3.11, hash key zero). *)
Lemma legacy_id_collision :
  let data := SpecId.legacy_record in
  Dict.mem data (py "id") = false
  /\ TaskUpdate.legacy_id reference_lib data 2168 = Ok 181749382%Z
  /\ TaskUpdate.legacy_id reference_lib data 127252 = Ok 181749382%Z
  /\ (exists u u',
        TaskUpdate.from_dict reference_lib Spec.env0 (VDict data) 2168 = Ok u
        /\ TaskUpdate.from_dict reference_lib Spec.env0 (VDict data) 127252 = Ok u'
        /\ TaskUpdate.id u = TaskUpdate.id u')
  /\ 2168%Z <> 127252%Z.
Proof.
  intros data. split; [reflexivity|].
  split; [vm_compute; reflexivity|]. split; [vm_compute; reflexivity|].
  split; [|discriminate].
  eexists. eexists. split; [vm_compute; reflexivity|].
  split; [vm_compute; reflexivity|]. reflexivity.
Qed.

(** The id of the same record at the same index under two hash keys: it is
    not the same from one interpreter process to the next. *)
Lemma legacy_id_depends_on_hash_key :
  TaskUpdate.legacy_id reference_lib SpecId.legacy_record 0 = Ok 1463111195%Z
  /\ TaskUpdate.legacy_id SpecId.seed1_lib SpecId.legacy_record 0 = Ok 765644807%Z.
Proof. split; vm_compute; reflexivity. Qed.

(** * Further properties *)

(** ** Updates: records and store *)

Lemma existsb_str_In (k : str) (l : list str) :
  existsb (str_eqb k) l = true <-> In k l.
Proof.
  rewrite existsb_exists. split.
  - intros (x & Hx & He). apply str_eqb_eq in He. now subst.
  - intros H. exists k. split; [exact H|apply str_eqb_refl].
Qed.

Lemma get_In_keys (d : dict) (k : str) (v : pyval) :
  Dict.get d k = Some v -> In k (Dict.keys d).
Proof.
  induction d as [|[k' v'] d IH]; simpl; [discriminate|].
  destruct (str_eqb k' k) eqn:Hk.
  - apply str_eqb_eq in Hk. auto.
  - auto.
Qed.

Lemma keys_set (d : dict) (k : str) (v : pyval) (x : str) :
  In x (Dict.keys d) -> In x (Dict.keys (Dict.set d k v)).
Proof.
  induction d as [|[k' v'] d IH]; simpl; [tauto|].
  destruct (str_eqb k' k); simpl; intuition.
Qed.

Lemma construct_unusable (E : env) (d : dict) :
  Dict.get d (py "task_id") = None
  \/ Dict.get d (py "content") = None
  \/ (exists k, In k (Dict.keys d) /\ ~ In k TaskUpdate.field_names) ->
  is_ok (TaskUpdate.construct E d) = false.
Proof.
  intros H. unfold TaskUpdate.construct.
  destruct (forallb _ (Dict.keys d)) eqn:Hk; cbn [negb]; [|reflexivity].
  destruct H as [H|[H|(k & Hin & Hno)]].
  - now rewrite H.
  - rewrite H. now destruct (Dict.get d (py "task_id")).
  - exfalso. rewrite forallb_forall in Hk. apply Hno.
    apply existsb_str_In. now apply Hk.
Qed.

(** An unusable record raises at every index. *)
Lemma from_dict_unusable (L : pylib) (E : env) (item : pyval) (index : Z) :
  SpecX.unusable_update item -> is_ok (TaskUpdate.from_dict L E item index) = false.
Proof.
  destruct item as [| | | | |d|]; try reflexivity.
  intros H. unfold TaskUpdate.from_dict.
  destruct (negb (Dict.mem d (py "id"))); cbn [bind].
  - destruct (TaskUpdate.legacy_id L d index) as [i|]; cbn [bind]; [|reflexivity].
    apply construct_unusable.
    destruct H as [H|[H|(k & Hin & Hno)]].
    + left. rewrite get_set_other; [exact H|]. intros Hq. vm_compute in Hq. discriminate.
    + right. left. rewrite get_set_other; [exact H|]. intros Hq. vm_compute in Hq. discriminate.
    + right. right. exists k. split; [now apply keys_set|exact Hno].
  - now apply construct_unusable.
Qed.

Lemma from_dicts_raises (L : pylib) (E : env) (items : list pyval) (bad : pyval) (idx : Z) :
  In bad items ->
  (forall i, is_ok (TaskUpdate.from_dict L E bad i) = false) ->
  is_ok (DataManager.from_dicts L E items idx) = false.
Proof.
  intros Hin Hbad. revert idx. induction items as [|x items IH]; intros idx; [destruct Hin|].
  cbn [DataManager.from_dicts]. destruct Hin as [->|Hin].
  - specialize (Hbad idx). destruct (TaskUpdate.from_dict L E bad idx); [discriminate|reflexivity].
  - destruct (TaskUpdate.from_dict L E x idx); [|reflexivity]. cbn [bind].
    specialize (IH Hin (idx + 1)%Z).
    destruct (DataManager.from_dicts L E items (idx + 1)); [discriminate|reflexivity].
Qed.

(** X1: a record that has an [id] is read the same at any index, and what
    [to_dict] writes is read back as the update it came from. *)
Theorem update_record_round_trip (L : pylib) (E : env) :
  (forall (u : TaskUpdate.t) (index : Z),
      TaskUpdate.from_dict L E (VDict (TaskUpdate.to_dict u)) index = Ok u)
  /\ (forall (d : dict) (i j : Z),
        Dict.mem d (py "id") = true ->
        TaskUpdate.from_dict L E (VDict d) i = TaskUpdate.from_dict L E (VDict d) j).
Proof.
  split.
  - intros [tid c ts us i] index. reflexivity.
  - intros d i j Hm. unfold TaskUpdate.from_dict. now rewrite Hm.
Qed.

(** A record with an id, read at two places of the store. *)
Lemma update_record_round_trip_example :
  let d := [(py "task_id", VInt 1); (py "content", VStr (py "ok")); (py "id", VInt 7)] in
  Dict.mem d (py "id") = true
  /\ TaskUpdate.from_dict reference_lib Spec.env0 (VDict d) 0
     = TaskUpdate.from_dict reference_lib Spec.env0 (VDict d) 5.
Proof.
  intros d.
  assert (Hm : Dict.mem d (py "id") = true) by reflexivity.
  split; [exact Hm|].
  exact (proj2 (update_record_round_trip reference_lib Spec.env0) d 0%Z 5%Z Hm).
Defined.

Lemma load_updates_unreadable (L : pylib) (E : env) (dm : DataManager.t) (fs : FS.t) :
  SpecX.unreadable_updates dm fs -> DataManager.load_updates L E dm fs = [].
Proof.
  unfold DataManager.load_updates, FS.exists_, FS.load.
  intros [H|[H|(items & bad & H & Hin & Hbad)]]; rewrite H; try reflexivity.
  cbn [negb bind iter_items].
  pose proof (from_dicts_raises L E items bad 0 Hin
                (fun i => from_dict_unusable L E bad i Hbad)) as Hr.
  destruct (DataManager.from_dicts L E items 0); [discriminate|reflexivity].
Qed.

(** X2: [load_updates] gives the empty list when the store is missing, when
    it cannot be parsed, and when any one of its records is unusable: the
    usable records next to it are dropped as well. *)
Theorem load_updates_all_or_nothing
    (L : pylib) (E : env) (dm : DataManager.t) (fs : FS.t) :
  SpecX.unreadable_updates dm fs ->
  DataManager.load_updates L E dm fs = []
  /\ forall task_id, DataManager.get_task_updates L E dm fs task_id = [].
Proof.
  intros H. pose proof (load_updates_unreadable L E dm fs H) as Hl.
  split; [exact Hl|].
  intros task_id. unfold DataManager.get_task_updates. now rewrite Hl.
Qed.

(** A store of two records, the second without [content]. *)
Lemma load_updates_all_or_nothing_example :
  let dm := DataManager.init Spec.env0 None in
  let good := VDict (TaskUpdate.to_dict (Spec.update 1 10 "visto")) in
  let bad := VDict [(py "task_id", VInt 1); (py "id", VInt 11)] in
  let fs := [(UPDATES_FILE, FS.FJson (VList [good; bad]))] in
  SpecX.unreadable_updates dm fs
  /\ is_ok (TaskUpdate.from_dict reference_lib Spec.env0 good 0) = true
  /\ DataManager.load_updates reference_lib Spec.env0 dm fs = [].
Proof.
  intros dm good bad fs.
  assert (H : SpecX.unreadable_updates dm fs).
  { right. right. exists [good; bad], bad. split; [reflexivity|].
    split; [right; left; reflexivity|]. right. left. reflexivity. }
  split; [exact H|]. split; [reflexivity|].
  exact (proj1 (load_updates_all_or_nothing reference_lib Spec.env0 dm fs H)).
Defined.

Lemma load_updates_garbage (L : pylib) (E : env) (dm : DataManager.t) (fs : FS.t) :
  FS.lookup fs (DataManager.updates_path dm) = Some FS.FGarbage ->
  DataManager.load_updates L E dm fs = [].
Proof.
  unfold DataManager.load_updates, FS.exists_, FS.load. intros ->. reflexivity.
Qed.

Lemma save_updates_failed (dm : DataManager.t) (fs : FS.t) (us : list TaskUpdate.t) :
  FS.json_ok (VList (map (fun u => VDict (TaskUpdate.to_dict u)) us)) = false ->
  fst (DataManager.save_updates dm fs us) = false
  /\ FS.lookup (snd (DataManager.save_updates dm fs us)) (DataManager.updates_path dm)
     = Some FS.FGarbage.
Proof.
  intros H. unfold DataManager.save_updates, FS.dump. rewrite H. cbn [fst snd].
  split; [reflexivity|apply lookup_write_same].
Qed.

Lemma json_updates_ok (us : list TaskUpdate.t) :
  Spec.json_updates us <->
  FS.json_ok (VList (map (fun u => VDict (TaskUpdate.to_dict u)) us)) = true.
Proof.
  unfold Spec.json_updates.
  change (FS.json_ok (VList (map (fun u => VDict (TaskUpdate.to_dict u)) us)))
    with (forallb FS.json_ok (map (fun u => VDict (TaskUpdate.to_dict u)) us)).
  rewrite forallb_forall, Forall_forall.
  split.
  - intros H v Hv. apply in_map_iff in Hv as (u & <- & Hu). now apply H.
  - intros H u Hu. apply (H (VDict (TaskUpdate.to_dict u))).
    apply in_map_iff. now exists u.
Qed.

(** X3: [save_updates] followed by [load_updates] gives the updates back and
    touches no other file; when an update cannot be written as JSON the save
    reports failure and the store is left unreadable, so that [load_updates]
    gives the empty list. *)
Theorem save_load_updates
    (L : pylib) (E : env) (dm : DataManager.t) (fs : FS.t) (us : list TaskUpdate.t) :
  let fs' := snd (DataManager.save_updates dm fs us) in
  (forall p, p <> DataManager.updates_path dm -> FS.lookup fs' p = FS.lookup fs p)
  /\ (Spec.json_updates us ->
      fst (DataManager.save_updates dm fs us) = true
      /\ DataManager.load_updates L E dm fs' = us)
  /\ (~ Spec.json_updates us ->
      fst (DataManager.save_updates dm fs us) = false
      /\ DataManager.load_updates L E dm fs' = []).
Proof.
  intros fs'. split; [|split].
  - intros p Hp. subst fs'. unfold DataManager.save_updates, FS.dump.
    destruct (FS.json_ok _); cbn [snd]; now apply lookup_write_other.
  - intros Hj. destruct (save_updates_stored dm fs us Hj) as (Hok & Hst & _).
    split; [exact Hok|]. exact (load_updates_stored L E dm fs' us Hst).
  - intros Hj.
    assert (Hf : FS.json_ok (VList (map (fun u => VDict (TaskUpdate.to_dict u)) us)) = false).
    { destruct (FS.json_ok _) eqn:Hq; [|reflexivity].
      exfalso. apply Hj. now apply json_updates_ok. }
    destruct (save_updates_failed dm fs us Hf) as [H1 H2].
    split; [exact H1|]. now apply load_updates_garbage.
Qed.

(** Two updates saved and loaded; an update holding a date object, which
    JSON cannot represent, makes the save fail. *)
Lemma save_load_updates_example :
  let dm := DataManager.init Spec.env0 None in
  let us := [Spec.update 1 10 "visto"; Spec.update 2 20 "ok"] in
  let us' := [TaskUpdate.mk (VInt 1) (VStr (py "visto")) (VDate 739924)
                (VStr (py "Maicon")) (VInt 10)] in
  (Spec.json_updates us /\ ~ Spec.json_updates us')
  /\ DataManager.load_updates reference_lib Spec.env0 dm
       (snd (DataManager.save_updates dm [] us)) = us
  /\ fst (DataManager.save_updates dm [] us') = false
  /\ DataManager.load_updates reference_lib Spec.env0 dm
       (snd (DataManager.save_updates dm [] us')) = [].
Proof.
  intros dm us us'.
  assert (H1 : Spec.json_updates us) by (repeat constructor).
  assert (H2 : ~ Spec.json_updates us').
  { intros H. inversion H as [|? ? Hu _]. discriminate Hu. }
  destruct (save_load_updates reference_lib Spec.env0 dm [] us) as (_ & Ha & _).
  destruct (save_load_updates reference_lib Spec.env0 dm [] us') as (_ & _ & Hb).
  split; [auto|]. split; [exact (proj2 (Ha H1))|]. exact (Hb H2).
Defined.

(** X4: [add_update] stores the updates [load_updates] returns followed by
    the new one.  On an unreadable store that is the new update alone: what
    the store held is lost. *)
Theorem add_update_appends
    (L : pylib) (E : env) (dm : DataManager.t) (fs : FS.t) (u : TaskUpdate.t) :
  Spec.json_updates (DataManager.load_updates L E dm fs ++ [u]) ->
  let fs' := DataManager.add_update L E dm fs u in
  DataManager.load_updates L E dm fs' = DataManager.load_updates L E dm fs ++ [u]
  /\ (forall task_id,
        DataManager.get_task_updates L E dm fs' task_id
        = DataManager.get_task_updates L E dm fs task_id
          ++ (if eq_int (TaskUpdate.task_id u) task_id then [u] else []))
  /\ (SpecX.unreadable_updates dm fs -> DataManager.load_updates L E dm fs' = [u]).
Proof.
  intros Hj fs'. subst fs'. unfold DataManager.add_update.
  destruct (save_updates_stored dm fs _ Hj) as (_ & Hst & _).
  pose proof (load_updates_stored L E dm _ _ Hst) as Hload.
  split; [exact Hload|]. split.
  - intros tid. unfold DataManager.get_task_updates.
    rewrite Hload, filter_app. reflexivity.
  - intros Hbad. rewrite Hload.
    now rewrite (load_updates_unreadable L E dm fs Hbad).
Qed.


(** One update stored, one added. *)
Lemma add_update_example :
  let dm := DataManager.init Spec.env0 None in
  let fs := snd (DataManager.save_updates dm [] [Spec.update 1 10 "visto"]) in
  let u := Spec.update 2 20 "ok" in
  Spec.json_updates (DataManager.load_updates reference_lib Spec.env0 dm fs ++ [u])
  /\ DataManager.load_updates reference_lib Spec.env0 dm
       (DataManager.add_update reference_lib Spec.env0 dm fs u)
     = [Spec.update 1 10 "visto"; u].
Proof.
  intros dm fs u.
  assert (H : Spec.json_updates
                (DataManager.load_updates reference_lib Spec.env0 dm fs ++ [u]))
    by (repeat constructor).
  split; [exact H|].
  exact (proj1 (add_update_appends reference_lib Spec.env0 dm fs u H)).
Defined.

Lemma json_updates_filter (p : TaskUpdate.t -> bool) (us : list TaskUpdate.t) :
  Spec.json_updates us -> Spec.json_updates (filter p us).
Proof.
  unfold Spec.json_updates. rewrite !Forall_forall.
  intros H u Hu. apply filter_In in Hu as [Hu _]. auto.
Qed.

Lemma load_after_save (L : pylib) (E : env) (dm : DataManager.t) (fs : FS.t)
    (us : list TaskUpdate.t) :
  Spec.json_updates us ->
  fst (DataManager.save_updates dm fs us) = true
  /\ DataManager.load_updates L E dm (snd (DataManager.save_updates dm fs us)) = us.
Proof.
  intros Hj. destruct (save_updates_stored dm fs us Hj) as (Hok & Hst & _).
  split; [exact Hok|]. exact (load_updates_stored L E dm _ us Hst).
Qed.

Lemma filter_other_id_absent (uid : Z) (us : list TaskUpdate.t) :
  SpecX.id_absent uid (filter (Spec.other_id uid) us).
Proof.
  unfold SpecX.id_absent. apply Forall_forall. intros u Hu.
  apply filter_In in Hu as [_ Hu]. unfold Spec.other_id in Hu.
  now apply negb_true_iff in Hu.
Qed.

Lemma filter_other_id_fixed (uid : Z) (us : list TaskUpdate.t) :
  SpecX.id_absent uid us -> filter (Spec.other_id uid) us = us.
Proof.
  unfold SpecX.id_absent. rewrite Forall_forall. intros H.
  apply filter_keeps_all. intros u Hu. unfold Spec.other_id. now rewrite (H u Hu).
Qed.

Lemma edit_first_absent (E : env) (uid : Z) (c : pyval) (us : list TaskUpdate.t) :
  SpecX.id_absent uid us -> DataManager.edit_first E uid c us = us.
Proof.
  induction 1 as [|u us Hu _ IH]; [reflexivity|].
  cbn [DataManager.edit_first]. now rewrite Hu, IH.
Qed.

Lemma edit_first_split (E : env) (uid : Z) (c : pyval)
    (pre post : list TaskUpdate.t) (u0 : TaskUpdate.t) :
  SpecX.id_absent uid pre -> eq_int (TaskUpdate.id u0) uid = true ->
  DataManager.edit_first E uid c (pre ++ u0 :: post)
  = pre ++ SpecX.edited E c u0 :: post.
Proof.
  intros Hpre H0. induction Hpre as [|u pre Hu _ IH].
  - cbn [app DataManager.edit_first]. now rewrite H0.
  - cbn [app DataManager.edit_first]. now rewrite Hu, IH.
Qed.

(** X5: [delete_update] stores what [load_updates] returned without the
    updates of the given id, all of them when several have it; the other
    updates keep their ids; deleting the same id again changes nothing. *)
Theorem delete_update_filters
    (L : pylib) (E : env) (dm : DataManager.t) (fs : FS.t) (update_id : Z) :
  Spec.json_updates (DataManager.load_updates L E dm fs) ->
  let fs' := snd (DataManager.delete_update L E dm fs update_id) in
  fst (DataManager.delete_update L E dm fs update_id) = true
  /\ DataManager.load_updates L E dm fs'
     = filter (Spec.other_id update_id) (DataManager.load_updates L E dm fs)
  /\ SpecX.id_absent update_id (DataManager.load_updates L E dm fs')
  /\ DataManager.load_updates L E dm
       (snd (DataManager.delete_update L E dm fs' update_id))
     = DataManager.load_updates L E dm fs'.
Proof.
  intros Hj fs'.
  pose proof (json_updates_filter (Spec.other_id update_id) _ Hj) as Hj'.
  destruct (load_after_save L E dm fs _ Hj') as [Hok Hload].
  change (DataManager.save_updates dm fs
            (filter (Spec.other_id update_id) (DataManager.load_updates L E dm fs)))
    with (DataManager.delete_update L E dm fs update_id) in Hok, Hload.
  fold fs' in Hload.
  split; [exact Hok|]. split; [exact Hload|]. split.
  - rewrite Hload. apply filter_other_id_absent.
  - change (DataManager.delete_update L E dm fs' update_id)
      with (DataManager.save_updates dm fs'
              (filter (Spec.other_id update_id) (DataManager.load_updates L E dm fs'))).
    rewrite Hload.
    rewrite (filter_other_id_fixed update_id _ (filter_other_id_absent update_id _)).
    exact (proj2 (load_after_save L E dm fs' _ Hj')).
Qed.

(** Three updates, two of them with the id 10. *)
Lemma delete_update_filters_example :
  let dm := DataManager.init Spec.env0 None in
  let us := [Spec.update 1 10 "visto"; Spec.update 2 20 "ok"; Spec.update 3 10 "de novo"] in
  let fs := snd (DataManager.save_updates dm [] us) in
  Spec.json_updates (DataManager.load_updates reference_lib Spec.env0 dm fs)
  /\ DataManager.load_updates reference_lib Spec.env0 dm
       (snd (DataManager.delete_update reference_lib Spec.env0 dm fs 10))
     = [Spec.update 2 20 "ok"].
Proof.
  intros dm us fs.
  assert (H : Spec.json_updates (DataManager.load_updates reference_lib Spec.env0 dm fs))
    by (repeat constructor).
  split; [exact H|].
  destruct (delete_update_filters reference_lib Spec.env0 dm fs 10 H) as (_ & Hl & _).
  rewrite Hl. reflexivity.
Defined.

(** X6: [edit_update] changes the first update that has the id, and only
    that one: it gets the new content and the time of the edit followed by
    " (editado)", and keeps its task, user and id; every other update, and
    the order, stay as loaded. *)
Theorem edit_update_first_match
    (L : pylib) (E : env) (dm : DataManager.t) (fs : FS.t) (update_id : Z)
    (new_content : pyval) (pre post : list TaskUpdate.t) (u0 : TaskUpdate.t) :
  DataManager.load_updates L E dm fs = pre ++ u0 :: post ->
  SpecX.id_absent update_id pre ->
  eq_int (TaskUpdate.id u0) update_id = true ->
  Spec.json_updates (pre ++ SpecX.edited E new_content u0 :: post) ->
  fst (DataManager.edit_update L E dm fs update_id new_content) = true
  /\ DataManager.load_updates L E dm
       (snd (DataManager.edit_update L E dm fs update_id new_content))
     = pre ++ SpecX.edited E new_content u0 :: post.
Proof.
  intros Hload Hpre H0 Hj. unfold DataManager.edit_update.
  rewrite Hload, (edit_first_split E update_id new_content pre post u0 Hpre H0).
  exact (load_after_save L E dm fs _ Hj).
Qed.

(** Two updates share the id 10: the first is edited, the second is not. *)
Lemma edit_update_example :
  let dm := DataManager.init Spec.env0 None in
  let u1 := Spec.update 1 20 "ok" in
  let u2 := Spec.update 1 10 "visto" in
  let u3 := Spec.update 3 10 "de novo" in
  let fs := snd (DataManager.save_updates dm [] [u1; u2; u3]) in
  (DataManager.load_updates reference_lib Spec.env0 dm fs = [u1] ++ u2 :: [u3]
   /\ SpecX.id_absent 10 [u1]
   /\ eq_int (TaskUpdate.id u2) 10 = true
   /\ Spec.json_updates ([u1] ++ SpecX.edited Spec.env0 (VStr (py "revisto")) u2 :: [u3]))
  /\ DataManager.load_updates reference_lib Spec.env0 dm
       (snd (DataManager.edit_update reference_lib Spec.env0 dm fs 10 (VStr (py "revisto"))))
     = [u1;
        TaskUpdate.mk (VInt 1) (VStr (py "revisto"))
          (VStr (py "2026-11-04 12:00:00 (editado)")) (VStr (py "Maicon")) (VInt 10);
        u3].
Proof.
  intros dm u1 u2 u3 fs.
  assert (H1 : DataManager.load_updates reference_lib Spec.env0 dm fs = [u1] ++ u2 :: [u3])
    by reflexivity.
  assert (H2 : SpecX.id_absent 10 [u1]) by (repeat constructor).
  assert (H3 : eq_int (TaskUpdate.id u2) 10 = true) by reflexivity.
  assert (H4 : Spec.json_updates
                 ([u1] ++ SpecX.edited Spec.env0 (VStr (py "revisto")) u2 :: [u3]))
    by (repeat constructor).
  split; [auto|].
  rewrite (proj2 (edit_update_first_match reference_lib Spec.env0 dm fs 10
                    (VStr (py "revisto")) [u1] [u3] u2 H1 H2 H3 H4)).
  vm_compute. reflexivity.
Defined.

(** X7: with an id that no loaded update has, [delete_update] and
    [edit_update] report success and leave the collection as loaded. *)
Theorem absent_id_changes_nothing
    (L : pylib) (E : env) (dm : DataManager.t) (fs : FS.t) (update_id : Z)
    (new_content : pyval) :
  Spec.json_updates (DataManager.load_updates L E dm fs) ->
  SpecX.id_absent update_id (DataManager.load_updates L E dm fs) ->
  (fst (DataManager.delete_update L E dm fs update_id) = true
   /\ DataManager.load_updates L E dm (snd (DataManager.delete_update L E dm fs update_id))
      = DataManager.load_updates L E dm fs)
  /\ (fst (DataManager.edit_update L E dm fs update_id new_content) = true
      /\ DataManager.load_updates L E dm
           (snd (DataManager.edit_update L E dm fs update_id new_content))
         = DataManager.load_updates L E dm fs).
Proof.
  intros Hj Habs. split.
  - change (DataManager.delete_update L E dm fs update_id)
      with (DataManager.save_updates dm fs
              (filter (Spec.other_id update_id) (DataManager.load_updates L E dm fs))).
    rewrite (filter_other_id_fixed update_id _ Habs).
    exact (load_after_save L E dm fs _ Hj).
  - unfold DataManager.edit_update.
    rewrite (edit_first_absent E update_id new_content _ Habs).
    exact (load_after_save L E dm fs _ Hj).
Qed.

Lemma absent_id_example :
  let dm := DataManager.init Spec.env0 None in
  let us := [Spec.update 1 10 "visto"; Spec.update 2 20 "ok"] in
  let fs := snd (DataManager.save_updates dm [] us) in
  (Spec.json_updates (DataManager.load_updates reference_lib Spec.env0 dm fs)
   /\ SpecX.id_absent 30 (DataManager.load_updates reference_lib Spec.env0 dm fs))
  /\ DataManager.load_updates reference_lib Spec.env0 dm
       (snd (DataManager.edit_update reference_lib Spec.env0 dm fs 30 (VStr (py "x"))))
     = us.
Proof.
  intros dm us fs.
  assert (H1 : Spec.json_updates (DataManager.load_updates reference_lib Spec.env0 dm fs))
    by (repeat constructor).
  assert (H2 : SpecX.id_absent 30 (DataManager.load_updates reference_lib Spec.env0 dm fs))
    by (repeat constructor).
  split; [auto|].
  destruct (absent_id_changes_nothing reference_lib Spec.env0 dm fs 30 (VStr (py "x")) H1 H2)
    as [_ [_ He]].
  rewrite He. reflexivity.
Defined.

(** ** Tasks: the local store *)

(** What [to_dict] writes for a task whose collaborators are a list of
    [str] is read by [from_dict] as the constructor applied to the task. *)
Lemma from_dict_to_dict (L : pylib) (E : env) (t : Task.t) (lc : list str) :
  SpecL.reads_repr L (literal_eval L) ->
  Task.collaborators t = VList (map VStr lc) -> Forall SpecL.valid_str lc ->
  Task.from_dict L E (VDict (Task.to_dict L t)) = Task.post_init L t.
Proof.
  intros Hread Hc Hv.
  destruct t as [ti re ca pr st du de at_ co mf i cr].
  cbn [Task.collaborators] in Hc. subst co.
  unfold Task.to_dict;
    cbn [Task.title Task.responsible Task.category Task.priority Task.status
         Task.due_date Task.description Task.attachments Task.collaborators
         Task.manager_feedback Task.id Task.created_at].
  change (Task.from_dict L E (VDict _))
    with (Task.init L ti re ca pr st du de at_
            (try_except
               (if truthy (VStr (py_str L (VList (map VStr lc))))
                then literal_eval L (py_str L (VList (map VStr lc)))
                else Ok (VList []))
               (VList []))
            mf i cr).
  change (py_str L (VList (map VStr lc))) with (py_repr L (VList (map VStr lc))).
  rewrite repr_list_nonempty, (Hread lc Hv). reflexivity.
Qed.

Lemma constructed_due_date (L : pylib) (t : Task.t) :
  SpecS.constructed L t ->
  match Task.due_date t with VDate o => VStr (Date.strftime_ymd o) | d => d end
  = Task.due_date t.
Proof.
  intros [self Hself]. unfold Task.post_init in Hself.
  destruct (if negb (truthy (Task.title self)) then _ else _); [|discriminate].
  cbn [bind] in Hself. injection Hself as <-. cbn [Task.due_date].
  destruct (Task.due_date self); reflexivity.
Qed.

(** The constructor leaves a settled task as it is. *)
Lemma post_init_settled (L : pylib) (t : Task.t) :
  SpecX.settled L t -> Task.post_init L t = Ok t.
Proof.
  intros (Hcons & (x & Hx & Hne & Hamp) & (lc & Hc & Hv & Hamps)).
  destruct (constructed_fields L t Hcons) as [[v Hv'] Hsan].
  assert (Hxv : x = Task.clean_val L v) by congruence.
  assert (Hstrip : strip x <> []).
  { rewrite Hxv, strip_clean_val, <- Hxv. exact Hne. }
  rewrite (post_init_str_list L t x lc Hx Hstrip Hc).
  rewrite (constructed_due_date L t Hcons).
  rewrite (resanitize_fixed L lc (Hsan lc Hc) Hamps).
  assert (Hcl : Task.clean_val L (VStr x) = x).
  { rewrite Hxv. apply clean_val_fixed. now rewrite <- Hxv. }
  rewrite Hcl, <- Hx, <- Hc. destruct t; reflexivity.
Qed.

Lemma mapM_from_dict_settled (L : pylib) (E : env) (ts : list Task.t) :
  SpecL.reads_repr L (literal_eval L) ->
  Forall (SpecX.settled L) ts ->
  mapM (Task.from_dict L E) (map (fun t => VDict (Task.to_dict L t)) ts) = Ok ts.
Proof.
  intros Hread. induction 1 as [|t ts Ht _ IH]; [reflexivity|].
  cbn [map mapM].
  destruct Ht as (Hcons & Htitle & (lc & Hc & Hv & Hamps)).
  rewrite (from_dict_to_dict L E t lc Hread Hc Hv).
  rewrite (post_init_settled L t
             (conj Hcons (conj Htitle (ex_intro _ lc (conj Hc (conj Hv Hamps)))))).
  cbn [bind]. rewrite IH. reflexivity.
Qed.

Lemma load_tasks_stored (L : pylib) (E : env) (dm : DataManager.t) (fs : FS.t) (v : pyval) :
  DataManager.is_manager (current_user E) = false ->
  FS.lookup fs (DataManager.file_path dm) = Some (FS.FJson v) ->
  DataManager.load_tasks L E dm fs
  = Ok (try_except (items <- iter_items v ;; mapM (Task.from_dict L E) items) [], fs).
Proof.
  intros Hm Hf. unfold DataManager.load_tasks.
  rewrite Hm, (exists_lookup _ _ _ Hf). cbn [negb].
  unfold FS.load. rewrite Hf. reflexivity.
Qed.

Lemma load_tasks_garbage (L : pylib) (E : env) (dm : DataManager.t) (fs : FS.t) :
  DataManager.is_manager (current_user E) = false ->
  FS.lookup fs (DataManager.file_path dm) = Some FS.FGarbage ->
  DataManager.load_tasks L E dm fs = Ok ([], fs).
Proof.
  intros Hm Hf. unfold DataManager.load_tasks.
  rewrite Hm, (exists_lookup _ _ _ Hf). cbn [negb].
  unfold FS.load. rewrite Hf. reflexivity.
Qed.

(** X8: in local-file mode, for an identity that is not the manager,
    [save_tasks] followed by [load_tasks] gives back a list of settled
    tasks, field for field; when a task cannot be written as JSON the save
    reports failure and leaves a store from which [load_tasks] gets the
    empty list. *)
Theorem save_load_tasks
    (L : pylib) (E : env) (dm : DataManager.t) (fs : FS.t) (ts : list Task.t) :
  SpecL.reads_repr L (literal_eval L) ->
  DataManager.is_manager (current_user E) = false ->
  Forall (SpecX.settled L) ts ->
  let fs' := snd (DataManager.save_tasks L dm fs ts) in
  (FS.json_ok (SpecX.tasks_json L ts) = true ->
   fst (DataManager.save_tasks L dm fs ts) = true
   /\ DataManager.load_tasks L E dm fs' = Ok (ts, fs'))
  /\ (FS.json_ok (SpecX.tasks_json L ts) = false ->
      fst (DataManager.save_tasks L dm fs ts) = false
      /\ DataManager.load_tasks L E dm fs' = Ok ([], fs')).
Proof.
  intros Hread Hm Hts fs'. subst fs'.
  unfold DataManager.save_tasks, FS.dump.
  fold (SpecX.tasks_json L ts).
  split; intros Hj; rewrite Hj; cbn [fst snd]; (split; [reflexivity|]).
  - rewrite (load_tasks_stored L E dm _ (SpecX.tasks_json L ts) Hm
               (lookup_write_same fs _ _)).
    unfold SpecX.tasks_json. cbn [iter_items bind].
    now rewrite (mapM_from_dict_settled L E ts Hread Hts).
  - apply (load_tasks_garbage L E dm _ Hm). apply lookup_write_same.
Qed.

Lemma sample_settled :
  SpecX.settled reference_lib Sample.task /\ SpecX.settled reference_lib Sample.task0.
Proof.
  split.
  - split; [exists Sample.draft; vm_compute; reflexivity|]. split.
    + exists (py "Relatório"). split; [reflexivity|]. split; [discriminate|reflexivity].
    + exists Sample.collaborators. split; [reflexivity|].
      split; repeat constructor; vm_compute; discriminate.
  - split; [exists Sample.draft0; vm_compute; reflexivity|]. split.
    + exists (py "Relatório"). split; [reflexivity|]. split; [discriminate|reflexivity].
    + exists []. split; [reflexivity|]. split; constructor.
Qed.

(** The two sample tasks saved and loaded by the default user. *)
Lemma save_load_tasks_example :
  let dm := DataManager.init Spec.env0 None in
  let ts := [Sample.task; Sample.task0] in
  let fs' := snd (DataManager.save_tasks reference_lib dm [] ts) in
  (SpecL.reads_repr reference_lib (literal_eval reference_lib)
   /\ DataManager.is_manager (current_user Spec.env0) = false
   /\ Forall (SpecX.settled reference_lib) ts
   /\ FS.json_ok (SpecX.tasks_json reference_lib ts) = true)
  /\ DataManager.load_tasks reference_lib Spec.env0 dm fs' = Ok (ts, fs').
Proof.
  intros dm ts fs'.
  pose proof reference_reads_repr as Hr.
  assert (Hm : DataManager.is_manager (current_user Spec.env0) = false) by reflexivity.
  assert (Hs : Forall (SpecX.settled reference_lib) ts)
    by (destruct sample_settled; constructor; [assumption|constructor; [assumption|constructor]]).
  assert (Hj : FS.json_ok (SpecX.tasks_json reference_lib ts) = true)
    by (vm_compute; reflexivity).
  split; [auto|].
  exact (proj2 (proj1 (save_load_tasks reference_lib Spec.env0 dm [] ts Hr Hm Hs) Hj)).
Defined.

(** ** Tasks: the first load *)

Lemma uint_digits_ascii (d : Decimal.uint) :
  Forall (fun c => (c < 128)%N) (uint_digits d).
Proof. induction d; simpl; constructor; auto; lia. Qed.

Lemma str_of_Z_ascii (z : Z) : Forall (fun c => (c < 128)%N) (str_of_Z z).
Proof.
  unfold str_of_Z. destruct (Z.to_int z); [|constructor; [lia|]]; apply uint_digits_ascii.
Qed.

Lemma zfill_ascii (n : nat) (s : str) :
  Forall (fun c => (c < 128)%N) s -> Forall (fun c => (c < 128)%N) (zfill n s).
Proof.
  intros H. unfold zfill. apply Forall_app. split; [|exact H].
  apply Forall_forall. intros c Hc. apply repeat_spec in Hc. subst. lia.
Qed.

Lemma strftime_ascii (o : Z) : Forall (fun c => (c < 128)%N) (Date.strftime_ymd o).
Proof.
  unfold Date.strftime_ymd. destruct (Date.ord2ymd o) as [[y m] d]. cbv beta iota.
  assert (Hd : Forall (fun c => (c < 128)%N) [45%N])
    by (constructor; [reflexivity|constructor]).
  apply Forall_app; split; [apply zfill_ascii, str_of_Z_ascii|].
  apply Forall_app; split; [exact Hd|].
  apply Forall_app; split; [apply zfill_ascii, str_of_Z_ascii|].
  apply Forall_app; split; [exact Hd|].
  apply zfill_ascii, str_of_Z_ascii.
Qed.

Lemma ascii_encodable (s : str) :
  Forall (fun c => (c < 128)%N) s -> FS.encodable s = true.
Proof.
  intros H. unfold FS.encodable. apply forallb_forall. rewrite Forall_forall in H.
  intros c Hc. specialize (H c Hc).
  apply andb_true_intro. split.
  - apply negb_true_iff, andb_false_iff. left. apply N.leb_gt. lia.
  - apply N.leb_le. lia.
Qed.

Lemma seed_json_ok (L : pylib) (E : env) :
  FS.json_ok (SpecX.tasks_json L [SpecX.seed E]) = true.
Proof.
  pose proof (ascii_encodable _ (strftime_ascii (now_ord E))) as He.
  unfold SpecX.tasks_json, SpecX.seed, today_str. cbn [map Task.to_dict].
  cbn -[FS.encodable Date.strftime_ymd py_str].
  rewrite He. reflexivity.
Qed.

Lemma post_init_seed (L : pylib) (E : env) :
  Task.post_init L (SpecX.seed E) = Ok (SpecX.seed E).
Proof. reflexivity. Qed.

(** X9: in local-file mode, for an identity that is not the manager and a
    store that is a file of the working directory, the first [load_tasks]
    (no store yet) returns the single example task, dated today and with
    the clock as id, and writes it to the store; a later
    [load_tasks], at any other date and clock, reads that stored task back
    (it is not made anew) and changes nothing; no other file is touched. *)
Theorem first_load_seeds
    (L : pylib) (E E' : env) (dm : DataManager.t) (fs : FS.t) :
  SpecL.reads_repr L (literal_eval L) ->
  DataManager.is_manager (current_user E) = false ->
  DataManager.is_manager (current_user E') = false ->
  SpecX.plain_name (DataManager.file_path dm) = true ->
  FS.lookup fs (DataManager.file_path dm) = None ->
  let fs' :=
    FS.write fs (DataManager.file_path dm) (FS.FJson (SpecX.tasks_json L [SpecX.seed E])) in
  DataManager.load_tasks L E dm fs = Ok ([SpecX.seed E], fs')
  /\ DataManager.load_tasks L E' dm fs' = Ok ([SpecX.seed E], fs')
  /\ (forall p, p <> DataManager.file_path dm -> FS.lookup fs' p = FS.lookup fs p).
Proof.
  intros Hread Hm Hm' _ Hf fs'. split; [|split].
  - unfold DataManager.load_tasks. rewrite Hm. unfold FS.exists_. rewrite Hf.
    cbn [negb]. unfold DataManager._create_initial_data.
    change (Task.init L _ _ _ _ _ _ _ _ _ _ _ _) with (Task.post_init L (SpecX.seed E)).
    rewrite post_init_seed. cbn [bind].
    unfold DataManager.save_tasks, FS.dump.
    fold (SpecX.tasks_json L [SpecX.seed E]).
    rewrite seed_json_ok. reflexivity.
  - rewrite (load_tasks_stored L E' dm fs' (SpecX.tasks_json L [SpecX.seed E]) Hm'
               (lookup_write_same fs _ _)).
    unfold SpecX.tasks_json. cbn [iter_items bind map mapM].
    rewrite (from_dict_to_dict L E' (SpecX.seed E) [] Hread eq_refl (Forall_nil _)).
    rewrite post_init_seed. reflexivity.
  - intros p Hp. now apply lookup_write_other.
Qed.

(** A new user with an empty directory, who comes back the next day: the
    task of the first day is loaded, not the one a new seeding would make. *)
Lemma first_load_seeds_example :
  let E := Spec.env0 in
  let E' := SpecX.env_next_day in
  let dm := DataManager.init E None in
  (SpecL.reads_repr reference_lib (literal_eval reference_lib)
   /\ DataManager.is_manager (current_user E) = false
   /\ DataManager.is_manager (current_user E') = false
   /\ SpecX.plain_name (DataManager.file_path dm) = true
   /\ FS.lookup [] (DataManager.file_path dm) = None)
  /\ exists fs',
       DataManager.load_tasks reference_lib E dm [] = Ok ([SpecX.seed E], fs')
       /\ DataManager.load_tasks reference_lib E' dm fs' = Ok ([SpecX.seed E], fs')
       /\ FS.exists_ fs' DATA_FILE = true
       /\ Task.due_date (SpecX.seed E) = VStr (py "2026-11-04")
       /\ Task.due_date (SpecX.seed E') = VStr (py "2026-11-05").
Proof.
  intros E E' dm.
  pose proof reference_reads_repr as Hr.
  assert (Hm : DataManager.is_manager (current_user E) = false) by reflexivity.
  assert (Hm' : DataManager.is_manager (current_user E') = false) by reflexivity.
  assert (Hp : SpecX.plain_name (DataManager.file_path dm) = true) by reflexivity.
  assert (Hf : FS.lookup [] (DataManager.file_path dm) = None) by reflexivity.
  split; [auto|].
  pose proof (first_load_seeds reference_lib E E' dm [] Hr Hm Hm' Hp Hf) as H.
  cbv zeta in H. destruct H as (H1 & H2 & _).
  eexists. split; [exact H1|]. split; [exact H2|].
  split; [reflexivity|]. split; reflexivity.
Defined.

(** ** The files of a manager are fixed at its construction *)

Lemma user_path_inj (pre suf u v : str) :
  pre ++ u ++ suf = pre ++ v ++ suf -> u = v.
Proof. intros H. apply app_inv_head in H. now apply app_inv_tail in H. Qed.

Lemma own_paths_disjoint (Eu Ev : env) :
  current_user Eu <> current_user Ev ->
  forall p q,
    In p (SpecX.own_paths (DataManager.init Eu None)) ->
    In q (SpecX.own_paths (DataManager.init Ev None)) -> p <> q.
Proof.
  intros Hne p q. unfold DataManager.init.
  destruct (str_eqb (current_user Eu) (py "2949400")) eqn:Hu;
    destruct (str_eqb (current_user Ev) (py "2949400")) eqn:Hv.
  1: { apply str_eqb_eq in Hu, Hv. congruence. }
  all: unfold SpecX.own_paths;
    cbn [DataManager.file_path DataManager.updates_path
         DataManager.categories_path DataManager.requests_path];
    intros Hp Hq; cbn [In] in Hp, Hq;
    destruct Hp as [<-|[<-|[<-|[<-|[]]]]];
    destruct Hq as [<-|[<-|[<-|[<-|[]]]]];
    intros H;
    first [ apply user_path_inj in H; contradiction
          | vm_compute in H; discriminate H ].
Qed.

Lemma lookup_dump_other (fs : FS.t) (p q : str) (v : pyval) :
  q <> p -> FS.lookup (snd (FS.dump fs p v)) q = FS.lookup fs q.
Proof.
  intros Hne. unfold FS.dump.
  destruct (FS.json_ok v); cbn [snd]; now apply lookup_write_other.
Qed.

Lemma load_tasks_by_lookup (L : pylib) (E : env) (dm : DataManager.t) (fs1 fs2 : FS.t) :
  DataManager.is_manager (current_user E) = false ->
  FS.lookup fs1 (DataManager.file_path dm) = FS.lookup fs2 (DataManager.file_path dm) ->
  SpecX.loaded (DataManager.load_tasks L E dm fs1)
  = SpecX.loaded (DataManager.load_tasks L E dm fs2).
Proof.
  intros Hm Hl. unfold DataManager.load_tasks. rewrite Hm.
  unfold FS.exists_, FS.load. rewrite Hl.
  destruct (FS.lookup fs2 (DataManager.file_path dm)) as [f|]; cbn [negb].
  - reflexivity.
  - unfold DataManager._create_initial_data.
    destruct (Task.init L _ _ _ _ _ _ _ _ _ _ _ _); reflexivity.
Qed.

Lemma load_updates_by_lookup (L : pylib) (E : env) (dm : DataManager.t) (fs1 fs2 : FS.t) :
  FS.lookup fs1 (DataManager.updates_path dm) = FS.lookup fs2 (DataManager.updates_path dm) ->
  DataManager.load_updates L E dm fs1 = DataManager.load_updates L E dm fs2.
Proof.
  intros Hl. unfold DataManager.load_updates, FS.exists_, FS.load. now rewrite Hl.
Qed.

Lemma load_categories_by_lookup (E : env) (dm : DataManager.t) (fs1 fs2 : FS.t) :
  FS.lookup fs1 (DataManager.categories_path dm)
  = FS.lookup fs2 (DataManager.categories_path dm) ->
  DataManager.load_categories E dm fs1 = DataManager.load_categories E dm fs2.
Proof.
  intros Hl. unfold DataManager.load_categories, FS.exists_, FS.load. now rewrite Hl.
Qed.

Lemma load_requests_by_lookup (E : env) (dm : DataManager.t) (fs1 fs2 : FS.t) :
  FS.lookup fs1 (DataManager.requests_path dm)
  = FS.lookup fs2 (DataManager.requests_path dm) ->
  DataManager.load_requests E dm fs1 = DataManager.load_requests E dm fs2.
Proof.
  intros Hl. unfold DataManager.load_requests, FS.exists_, FS.load. now rewrite Hl.
Qed.

Lemma lookup_after_saves (L : pylib) (dm : DataManager.t) (fs : FS.t)
    (ts : list Task.t) (us : list TaskUpdate.t) (cats : pyval)
    (rs : list RequestRC.t) (q : str) :
  (forall p, In p (SpecX.own_paths dm) -> p <> q) ->
  FS.lookup (SpecX.after_saves L dm fs ts us cats rs) q = FS.lookup fs q.
Proof.
  intros Hd. unfold SpecX.after_saves, DataManager.save_tasks,
    DataManager.save_updates, DataManager.save_categories, DataManager.save_requests.
  cbv zeta.
  rewrite !lookup_dump_other; [reflexivity| | | |];
    intros H; symmetry in H; revert H; apply Hd; unfold SpecX.own_paths;
    cbn [In]; auto.
Qed.

(** X10: the four files of a [DataManager] are fixed when it is
    constructed, from the identity signed in at that moment.  Two managers
    constructed under different identities have no file in common, so
    whatever is saved through the one (tasks, updates, categories, requests)
    changes nothing of what is loaded through the other, whoever is signed
    in when the methods run (for [load_tasks]: anyone but the manager). *)
Theorem stores_fixed_at_construction
    (L : pylib) (Eu Ev E : env) (fs : FS.t) (ts : list Task.t)
    (us : list TaskUpdate.t) (cats : pyval) (rs : list RequestRC.t) :
  current_user Eu <> current_user Ev ->
  DataManager.is_manager (current_user E) = false ->
  let dmu := DataManager.init Eu None in
  let dmv := DataManager.init Ev None in
  let fs' := SpecX.after_saves L dmu fs ts us cats rs in
  (forall p q, In p (SpecX.own_paths dmu) -> In q (SpecX.own_paths dmv) -> p <> q)
  /\ SpecX.loaded (DataManager.load_tasks L E dmv fs')
     = SpecX.loaded (DataManager.load_tasks L E dmv fs)
  /\ DataManager.load_updates L E dmv fs' = DataManager.load_updates L E dmv fs
  /\ DataManager.load_categories E dmv fs' = DataManager.load_categories E dmv fs
  /\ DataManager.load_requests E dmv fs' = DataManager.load_requests E dmv fs.
Proof.
  intros Hne Hm dmu dmv fs'.
  assert (Hq : forall q, In q (SpecX.own_paths dmv) -> FS.lookup fs' q = FS.lookup fs q).
  { intros q Hq. apply lookup_after_saves. intros p Hp.
    exact (own_paths_disjoint Eu Ev Hne p q Hp Hq). }
  split; [exact (own_paths_disjoint Eu Ev Hne)|].
  split; [|split; [|split]].
  - apply load_tasks_by_lookup; [exact Hm|]. apply Hq. cbn; auto.
  - apply load_updates_by_lookup. apply Hq. cbn; auto.
  - apply load_categories_by_lookup. apply Hq. cbn; auto.
  - apply load_requests_by_lookup. apply Hq. cbn; auto.
Qed.

(** A manager constructed for the default user and one constructed for a
    colleague; the default user is the one signed in when the colleague's
    manager loads. *)
Lemma stores_fixed_at_construction_example :
  let Eu := Spec.env0 in
  let Ev := SpecX.env_colleague in
  let E := SpecX.env_next_day in
  (current_user Eu <> current_user Ev
   /\ DataManager.is_manager (current_user E) = false)
  /\ current_user E = current_user Eu
  /\ DataManager.load_updates reference_lib E (DataManager.init Ev None)
       (SpecX.after_saves reference_lib (DataManager.init Eu None) []
          [Sample.task0] [Spec.update 1 10 "visto"] (VDict []) [])
     = DataManager.load_updates reference_lib E (DataManager.init Ev None) [].
Proof.
  intros Eu Ev E.
  assert (Hne : current_user Eu <> current_user Ev)
    by (intros H; vm_compute in H; discriminate H).
  assert (Hm : DataManager.is_manager (current_user E) = false) by reflexivity.
  split; [split; assumption|]. split; [reflexivity|].
  exact (proj1 (proj2 (proj2 (stores_fixed_at_construction reference_lib Eu Ev E []
                         [Sample.task0] [Spec.update 1 10 "visto"] (VDict []) []
                         Hne Hm)))).
Defined.

(** ** The manager's view *)

Lemma str_eqb_sym (a b : str) : str_eqb a b = str_eqb b a.
Proof.
  destruct (str_eqb a b) eqn:Hab; destruct (str_eqb b a) eqn:Hba; try reflexivity.
  - apply str_eqb_eq in Hab. subst b. now rewrite str_eqb_refl in Hba.
  - apply str_eqb_eq in Hba. subst b. now rewrite str_eqb_refl in Hab.
Qed.

Lemma key_eqb_sym (x y : pyval) : key_eqb x y = key_eqb y x.
Proof.
  destruct x, y; cbn [key_eqb eq_int]; try reflexivity;
    try apply Z.eqb_sym; try apply str_eqb_sym.
Qed.

Lemma ordpairs_snoc {A} (R : A -> A -> Prop) (l : list A) (x : A) :
  ForallOrdPairs R l -> Forall (fun a => R a x) l -> ForallOrdPairs R (l ++ [x]).
Proof.
  induction 1 as [|a l Ha Hl IH]; intros Hx; cbn [app].
  - constructor; constructor.
  - inversion Hx as [|? ? Hax Hlx]; subst. constructor.
    + apply Forall_app; split; [exact Ha|]. constructor; [exact Hax|constructor].
    + now apply IH.
Qed.

Lemma existsb_key_false (k : pyval) (ts : list Task.t) :
  existsb (key_eqb k) (map Task.id ts) = false ->
  Forall (fun a => key_eqb (Task.id a) k = false) ts.
Proof.
  induction ts as [|a ts IH]; cbn [map existsb]; intros H; constructor.
  - apply orb_false_iff in H. rewrite key_eqb_sym. exact (proj1 H).
  - apply IH. apply orb_false_iff in H. exact (proj2 H).
Qed.

Lemma gather_invariant (L : pylib) (E : env) (P : Task.t -> Prop) (items : list pyval) :
  (forall item t, In item items -> Task.from_dict L E item = Ok t -> P t) ->
  forall all_tasks,
    SpecX.distinct_ids all_tasks -> Forall P all_tasks ->
    let r := DataManager.gather L E items all_tasks (map Task.id all_tasks) in
    snd r = map Task.id (fst r) /\ SpecX.distinct_ids (fst r) /\ Forall P (fst r).
Proof.
  induction items as [|item rest IH]; intros HP all_tasks Hd Hall;
    cbn [DataManager.gather].
  - cbn [fst snd]. auto.
  - destruct (Task.from_dict L E item) as [t|e] eqn:Hf; [|cbn [fst snd]; auto].
    destruct (hashable (Task.id t)); cbn [negb]; [|cbn [fst snd]; auto].
    destruct (existsb (key_eqb (Task.id t)) (map Task.id all_tasks)) eqn:Hx;
      cbn [negb].
    + apply IH; auto. intros i t' Hi. apply HP. now right.
    + replace (map Task.id all_tasks ++ [Task.id t])
        with (map Task.id (all_tasks ++ [t])) by (now rewrite map_app).
      apply IH.
      * intros i t' Hi. apply HP. now right.
      * apply ordpairs_snoc; [exact Hd|]. now apply existsb_key_false.
      * apply Forall_app; split; [exact Hall|].
        constructor; [|constructor]. apply (HP item t); [now left|exact Hf].
Qed.

Lemma gather_files_invariant (L : pylib) (E : env) (fs : FS.t) (P : Task.t -> Prop)
    (files : list str) :
  (forall f v items item t,
      In f files -> FS.lookup fs f = Some (FS.FJson v) -> iter_items v = Ok items ->
      In item items -> Task.from_dict L E item = Ok t -> P t) ->
  forall all_tasks,
    SpecX.distinct_ids all_tasks -> Forall P all_tasks ->
    let r := DataManager.gather_files L E fs files all_tasks (map Task.id all_tasks) in
    SpecX.distinct_ids r /\ Forall P r.
Proof.
  induction files as [|f rest IH]; intros HP all_tasks Hd Hall;
    cbn [DataManager.gather_files].
  - auto.
  - assert (HP' : forall f v items item t,
               In f rest -> FS.lookup fs f = Some (FS.FJson v) ->
               iter_items v = Ok items -> In item items ->
               Task.from_dict L E item = Ok t -> P t).
    { intros f' v items item t Hin. apply HP. now right. }
    destruct (FS.exists_ fs f); [|now apply IH].
    unfold FS.load. destruct (FS.lookup fs f) as [[v|]|] eqn:Hl; cbn [bind];
      try now apply IH.
    destruct (iter_items v) as [items|e] eqn:Hi; [|now apply IH].
    pose proof (gather_invariant L E P items
                  (fun item t => HP f v items item t (or_introl eq_refl) Hl Hi)
                  all_tasks Hd Hall) as Hg.
    cbv zeta in Hg.
    destruct (DataManager.gather L E items all_tasks (map Task.id all_tasks))
      as [all' seen'].
    cbn [fst snd] in Hg. destruct Hg as (-> & Hd' & Hall').
    now apply IH.
Qed.

(** X11: the manager's [load_tasks] (local files) returns a list in which no
    two tasks have equal ids, every task of which was read from a record of
    [flow_data.json] or of a [flow_data_*.json] file of the directory; it
    never raises and writes nothing. *)
Theorem manager_load_distinct_ids
    (L : pylib) (E : env) (dm : DataManager.t) (fs : FS.t) :
  DataManager.is_manager (current_user E) = true ->
  exists ts,
    DataManager.load_tasks L E dm fs = Ok (ts, fs)
    /\ SpecX.distinct_ids ts
    /\ Forall (SpecX.read_from_store L E fs) ts.
Proof.
  intros Hm. unfold DataManager.load_tasks. rewrite Hm.
  eexists. split; [reflexivity|].
  apply (gather_files_invariant L E fs (SpecX.read_from_store L E fs)
           (SpecX.manager_files fs)).
  - intros f v items item t Hf Hl Hi Hin Ht. now exists f, v, items, item.
  - constructor.
  - constructor.
Qed.

(** The manager reads two stores that hold the same task. *)
Lemma manager_load_distinct_ids_example :
  let E := Spec.env_manager in
  let dm := DataManager.init E None in
  let fs := [(DATA_FILE, FS.FJson (SpecX.tasks_json reference_lib [Sample.task0]));
             (py "flow_data_3050111.json",
              FS.FJson (SpecX.tasks_json reference_lib [Sample.task0]))] in
  DataManager.is_manager (current_user E) = true
  /\ exists ts,
       DataManager.load_tasks reference_lib E dm fs = Ok (ts, fs)
       /\ SpecX.distinct_ids ts.
Proof.
  intros E dm fs.
  assert (Hm : DataManager.is_manager (current_user E) = true) by reflexivity.
  split; [exact Hm|].
  destruct (manager_load_distinct_ids reference_lib E dm fs Hm) as (ts & Hl & Hd & _).
  exists ts. split; assumption.
Defined.

(** ** The dashboard counts: bounds and failure *)

Lemma filter_length_le {A} (p : A -> bool) (l : list A) :
  (0 <= Z.of_nat (List.length (filter p l)) <= Z.of_nat (List.length l))%Z.
Proof.
  induction l as [|a l IH]; cbn [filter List.length]; [lia|].
  destruct (p a); cbn [List.length]; lia.
Qed.

Lemma filter_disjoint_length {A} (p q : A -> bool) (l : list A) :
  (forall a, p a && q a = false) ->
  (Z.of_nat (List.length (filter p l)) + Z.of_nat (List.length (filter q l))
   <= Z.of_nat (List.length l))%Z.
Proof.
  intros H. induction l as [|a l IH]; cbn [filter List.length]; [lia|].
  specialize (H a). destruct (p a), (q a); cbn [List.length]; try discriminate; lia.
Qed.

Lemma eq_str_two (v : pyval) (a b : str) :
  a <> b -> eq_str v a && eq_str v b = false.
Proof.
  intros Hne. destruct (eq_str v a) eqn:Ha; [|reflexivity].
  destruct (eq_str v b) eqn:Hb; [|reflexivity].
  destruct v; try discriminate. cbn [eq_str] in Ha, Hb.
  apply str_eqb_eq in Ha, Hb. congruence.
Qed.

Lemma week_of_today (E : env) :
  (Date.ymd2ord 1000 1 7 <= now_ord E <= Date.MAXORD - 6)%Z ->
  Date.add_days (now_ord E) (- Date.weekday (now_ord E))
  = Ok (Spec.monday_of (now_ord E))
  /\ Date.add_days (Spec.monday_of (now_ord E)) 6 = Ok (Spec.sunday_of (now_ord E)).
Proof.
  intros Hr.
  assert (Hy : Date.ymd2ord 1000 1 7 = 364884%Z) by reflexivity.
  rewrite Hy in Hr. clear Hy.
  pose proof (weekday_range (now_ord E)) as Hw.
  assert (Hm : (Date.MINORD <= now_ord E - Date.weekday (now_ord E))%Z)
    by (apply monday_in_range; unfold Date.MINORD; lia).
  unfold Spec.sunday_of, Spec.monday_of, Date.add_days.
  unfold Date.MINORD, Date.MAXORD in *.
  replace (now_ord E + - Date.weekday (now_ord E))%Z
    with (now_ord E - Date.weekday (now_ord E))%Z by lia.
  set (mon := (now_ord E - Date.weekday (now_ord E))%Z) in *.
  replace ((1 <=? mon)%Z && (mon <=? 3652059)%Z) with true
    by (symmetry; apply andb_true_intro; split; apply Z.leb_le; lia).
  replace ((1 <=? mon + 6)%Z && (mon + 6 <=? 3652059)%Z) with true
    by (symmetry; apply andb_true_intro; split; apply Z.leb_le; lia).
  split; reflexivity.
Qed.

(** X12: for tasks whose due dates are strings, every count of
    [calculate_stats] lies between 0 and [total]; a task is counted at most
    once among [completed], [in_progress] and among [completed], [overdue],
    so those pairs never add up to more than [total]. *)
Theorem calculate_stats_bounds (E : env) (tasks : list Task.t) :
  (Date.ymd2ord 1000 1 7 <= now_ord E <= Date.MAXORD - 6)%Z ->
  Forall Spec.has_str_due tasks ->
  exists total completed in_progress urgent overdue this_week,
    DashboardView.calculate_stats E tasks
    = Ok [(py "total", VInt total); (py "completed", VInt completed);
          (py "in_progress", VInt in_progress); (py "urgent", VInt urgent);
          (py "overdue", VInt overdue); (py "this_week", VInt this_week)]
    /\ total = Z.of_nat (List.length tasks)
    /\ (0 <= completed <= total)%Z /\ (0 <= in_progress <= total)%Z
    /\ (0 <= urgent <= total)%Z /\ (0 <= overdue <= total)%Z
    /\ (0 <= this_week <= total)%Z
    /\ (completed + in_progress <= total)%Z
    /\ (completed + overdue <= total)%Z.
Proof.
  intros Hr Hdue.
  destruct (week_of_today E Hr) as [Hmon Hsun].
  unfold DashboardView.calculate_stats.
  rewrite Hmon. cbn [bind]. rewrite Hsun. cbn [bind].
  rewrite !count_if_total. cbn [bind].
  rewrite (count_if_ok _
             (fun t => str_ltb (Spec.due t) (Date.strftime_ymd (now_ord E))
                       && negb (Spec.done t))).
  2:{ eapply Forall_impl; [|exact Hdue]. intros t [s Hs].
      unfold Spec.due, Spec.done. rewrite Hs. reflexivity. }
  cbn [bind].
  rewrite (count_if_ok _
             (fun t => str_leb (Date.strftime_ymd (Spec.monday_of (now_ord E))) (Spec.due t)
                       && str_leb (Spec.due t)
                            (Date.strftime_ymd (Spec.sunday_of (now_ord E))))).
  2:{ eapply Forall_impl; [|exact Hdue]. intros t [s Hs].
      unfold Spec.due. rewrite Hs. simpl.
      destruct (str_leb (Date.strftime_ymd (Spec.monday_of (now_ord E))) s); reflexivity. }
  cbn [bind].
  do 6 eexists. split; [reflexivity|]. split; [reflexivity|].
  split; [apply filter_length_le|]. split; [apply filter_length_le|].
  split; [apply filter_length_le|]. split; [apply filter_length_le|].
  split; [apply filter_length_le|].
  split.
  - apply filter_disjoint_length. intros t. apply eq_str_two.
    intros H. vm_compute in H. discriminate H.
  - apply filter_disjoint_length. intros t. unfold Spec.done.
    destruct (eq_str (Task.status t) (py "Concluído")); cbn [negb andb];
      [apply andb_false_r|reflexivity].
Qed.

(** The fixture of Wednesday 2026-11-04. *)
Lemma calculate_stats_bounds_example :
  ((Date.ymd2ord 1000 1 7 <= now_ord Spec.env0 <= Date.MAXORD - 6)%Z
   /\ Forall Spec.has_str_due Spec.fixture)
  /\ exists d, DashboardView.calculate_stats Spec.env0 Spec.fixture = Ok d.
Proof.
  assert (Hr : (Date.ymd2ord 1000 1 7 <= now_ord Spec.env0 <= Date.MAXORD - 6)%Z)
    by (vm_compute; split; discriminate).
  assert (Hd : Forall Spec.has_str_due Spec.fixture)
    by (repeat constructor; eexists; reflexivity).
  split; [split; assumption|].
  destruct (calculate_stats_bounds Spec.env0 Spec.fixture Hr Hd)
    as (total & c & i & u & o & w & Hs & _).
  eexists. exact Hs.
Defined.

Lemma count_if_type_error {A} (cond : A -> result bool) (bad : A -> Prop) (l : list A) :
  (forall a, bad a -> cond a = Raise TypeError) ->
  (forall a, ~ bad a -> exists b, cond a = Ok b) ->
  (forall a, bad a \/ ~ bad a) ->
  Exists bad l ->
  DashboardView.count_if cond l = Raise TypeError.
Proof.
  intros Hbad Hgood Hdec Hex.
  induction l as [|a l IH]; [inversion Hex|].
  cbn [DashboardView.count_if].
  destruct (Hdec a) as [Ha|Ha].
  - rewrite (Hbad a Ha). reflexivity.
  - destruct (Hgood a Ha) as [b ->]. cbn [bind].
    inversion Hex as [? ? Hb|? ? Hl]; subst; [contradiction|].
    rewrite (IH Hl). reflexivity.
Qed.

(** X13: one task whose due date is no string (a record with a null or
    numeric [dueDate] gives one) makes [calculate_stats] raise [TypeError]:
    no count is returned. *)
Theorem calculate_stats_type_error (E : env) (tasks : list Task.t) :
  (Date.ymd2ord 1000 1 7 <= now_ord E <= Date.MAXORD - 6)%Z ->
  Exists SpecX.non_str_due tasks ->
  DashboardView.calculate_stats E tasks = Raise TypeError.
Proof.
  intros Hr Hex.
  destruct (week_of_today E Hr) as [Hmon Hsun].
  unfold DashboardView.calculate_stats.
  rewrite Hmon. cbn [bind]. rewrite Hsun. cbn [bind].
  rewrite !count_if_total. cbn [bind].
  rewrite (count_if_type_error _ SpecX.non_str_due tasks); [reflexivity| | | |exact Hex].
  - intros t Ht. unfold SpecX.non_str_due in Ht. unfold DashboardView.lt_str.
    destruct (Task.due_date t); try reflexivity. contradiction.
  - intros t Ht. unfold SpecX.non_str_due in Ht. unfold DashboardView.lt_str.
    destruct (Task.due_date t); try (exfalso; apply Ht; exact I).
    cbn [bind]. eexists. reflexivity.
  - intros t. unfold SpecX.non_str_due. destruct (Task.due_date t); auto.
Qed.

(** A record with a null [dueDate] among the tasks of the fixture. *)
Lemma calculate_stats_type_error_example :
  ((Date.ymd2ord 1000 1 7 <= now_ord Spec.env0 <= Date.MAXORD - 6)%Z
   /\ Task.from_dict reference_lib Spec.env0 SpecX.undated_record = Ok SpecX.undated
   /\ Exists SpecX.non_str_due (Spec.fixture ++ [SpecX.undated]))
  /\ DashboardView.calculate_stats Spec.env0 (Spec.fixture ++ [SpecX.undated])
     = Raise TypeError.
Proof.
  assert (Hr : (Date.ymd2ord 1000 1 7 <= now_ord Spec.env0 <= Date.MAXORD - 6)%Z)
    by (vm_compute; split; discriminate).
  assert (Hx : Exists SpecX.non_str_due (Spec.fixture ++ [SpecX.undated]))
    by (apply Exists_app; right; constructor; exact I).
  split; [split; [exact Hr|split; [vm_compute; reflexivity|exact Hx]]|].
  exact (calculate_stats_type_error Spec.env0 (Spec.fixture ++ [SpecX.undated]) Hr Hx).
Defined.

(** ** What the constructor guarantees *)

Lemma clean_val_clean (L : pylib) (v : pyval) : SpecX.clean (Task.clean_val L v).
Proof.
  split; [|apply strip_clean_val].
  unfold Task.clean_val. destruct (negb (truthy v)); [reflexivity|].
  apply tagfree_strip, (tagfree_strip_tags false).
Qed.

Lemma sanitized_list (L : pylib) (l : list pyval) :
  Forall (fun x => x <> [] /\ SpecX.clean x)
    (map (Task.clean_val L)
       (filter (fun c => truthy (VStr (Task.clean_val L c))) l)).
Proof.
  induction l as [|c l IH]; cbn [filter map]; [constructor|].
  destruct (truthy (VStr (Task.clean_val L c))) eqn:Ht; [|exact IH].
  cbn [map]. constructor; [|exact IH]. split; [|apply clean_val_clean].
  intros He. rewrite He in Ht. discriminate Ht.
Qed.

(** X14: whatever the arguments, a task the constructor returns has a title
    that is a string without markup and without white space around it, a
    due date that is no date object, and, when the collaborators were given
    as a list (or as None), a list of collaborators that are non-empty
    strings without markup and without white space around them. *)
Theorem constructed_task_sanitized (L : pylib) (self t : Task.t) :
  Task.post_init L self = Ok t ->
  (exists x, Task.title t = VStr x /\ SpecX.clean x)
  /\ (forall o, Task.due_date t <> VDate o)
  /\ (forall l, Task.collaborators self = VList l ->
        exists lc, Task.collaborators t = VList (map VStr lc)
                   /\ Forall (fun x => x <> [] /\ SpecX.clean x) lc)
  /\ (Task.collaborators self = VNone -> Task.collaborators t = VList []).
Proof.
  intros H. unfold Task.post_init in H.
  destruct (if negb (truthy (Task.title self)) then _ else _); [|discriminate H].
  cbn [bind] in H. injection H as <-.
  cbn [Task.title Task.due_date Task.collaborators].
  split; [|split; [|split]].
  - eexists. split; [reflexivity|apply clean_val_clean].
  - intros o. destruct (Task.due_date self); discriminate.
  - intros l ->. destruct l as [|c l].
    + exists []. split; [reflexivity|constructor].
    + cbn [truthy].
      exists (map (Task.clean_val L)
                (filter (fun c => truthy (VStr (Task.clean_val L c))) (c :: l))).
      split; [now rewrite map_map|apply sanitized_list].
  - intros ->. reflexivity.
Qed.

(** The sample draft: padded names, markup, a blank entry. *)
Lemma constructed_task_sanitized_example :
  Task.post_init reference_lib Sample.draft = Ok Sample.task
  /\ Task.title Sample.task = VStr (py "Relatório")
  /\ Task.collaborators Sample.task = VList [VStr (py "Ana"); VStr (py "Bia, Jr.")]
  /\ exists x, Task.title Sample.task = VStr x /\ SpecX.clean x.
Proof.
  assert (H : Task.post_init reference_lib Sample.draft = Ok Sample.task)
    by (vm_compute; reflexivity).
  split; [exact H|]. split; [vm_compute; reflexivity|].
  split; [vm_compute; reflexivity|].
  exact (proj1 (constructed_task_sanitized reference_lib Sample.draft Sample.task H)).
Defined.

(** ** Requests and categories: the local stores *)

Lemma request_from_to_dict (E : env) (r : RequestRC.t) :
  RequestRC.from_dict E (VDict (RequestRC.to_dict r)) = Ok r.
Proof. destruct r. reflexivity. Qed.

Lemma mapM_request_to_dict (E : env) (rs : list RequestRC.t) :
  mapM (RequestRC.from_dict E) (map (fun r => VDict (RequestRC.to_dict r)) rs) = Ok rs.
Proof.
  induction rs as [|r rs IH]; [reflexivity|].
  cbn [map mapM]. rewrite request_from_to_dict. cbn [bind]. rewrite IH. reflexivity.
Qed.

(** X15: [save_requests] followed by [load_requests] gives the requests back
    when every field can be written as JSON; otherwise the save reports
    failure and the store is left unreadable, so that [load_requests] gives
    the empty list. *)
Theorem save_load_requests
    (E : env) (dm : DataManager.t) (fs : FS.t) (rs : list RequestRC.t) :
  let fs' := snd (DataManager.save_requests dm fs rs) in
  (FS.json_ok (SpecX.requests_json rs) = true ->
   fst (DataManager.save_requests dm fs rs) = true
   /\ DataManager.load_requests E dm fs' = rs)
  /\ (FS.json_ok (SpecX.requests_json rs) = false ->
      fst (DataManager.save_requests dm fs rs) = false
      /\ DataManager.load_requests E dm fs' = []).
Proof.
  intros fs'. subst fs'.
  unfold DataManager.save_requests, FS.dump. fold (SpecX.requests_json rs).
  split; intros Hj; rewrite Hj; cbn [fst snd]; (split; [reflexivity|]);
    unfold DataManager.load_requests, FS.exists_, FS.load;
    rewrite lookup_write_same; cbn [negb bind try_except].
  - unfold SpecX.requests_json. cbn [iter_items bind].
    rewrite mapM_request_to_dict. reflexivity.
  - reflexivity.
Qed.

Lemma save_load_requests_example :
  let dm := DataManager.init Spec.env0 None in
  FS.json_ok (SpecX.requests_json [SpecX.request]) = true
  /\ DataManager.load_requests Spec.env0 dm
       (snd (DataManager.save_requests dm [] [SpecX.request]))
     = [SpecX.request].
Proof.
  intros dm.
  assert (Hj : FS.json_ok (SpecX.requests_json [SpecX.request]) = true)
    by (vm_compute; reflexivity).
  split; [exact Hj|].
  exact (proj2 (proj1 (save_load_requests Spec.env0 dm [] [SpecX.request]) Hj)).
Defined.

Lemma request_from_dict_unusable (E : env) (item : pyval) :
  SpecX.unusable_request item -> is_ok (RequestRC.from_dict E item) = false.
Proof.
  destruct item as [| | | | |d|]; try reflexivity.
  intros (k & Hin & Hno). unfold RequestRC.from_dict.
  destruct (forallb _ (Dict.keys d)) eqn:Hk; cbn [negb]; [|reflexivity].
  rewrite forallb_forall in Hk. specialize (Hk k Hin).
  apply existsb_str_In in Hk. contradiction.
Qed.

(** X16: one record of the requests store that is no mapping, or that has a
    key which is no field of [RequestRC], makes [load_requests] return the
    empty list: the good records of the store are not returned either. *)
Theorem load_requests_all_or_nothing
    (E : env) (dm : DataManager.t) (fs : FS.t) (items : list pyval) (bad : pyval) :
  FS.lookup fs (DataManager.requests_path dm) = Some (FS.FJson (VList items)) ->
  In bad items -> SpecX.unusable_request bad ->
  DataManager.load_requests E dm fs = [].
Proof.
  intros Hl Hin Hbad.
  unfold DataManager.load_requests, FS.exists_, FS.load. rewrite Hl.
  cbn [negb bind iter_items].
  pose proof (mapM_raises (RequestRC.from_dict E) items bad Hin
                (request_from_dict_unusable E bad Hbad)) as Hm.
  destruct (mapM (RequestRC.from_dict E) items); [discriminate Hm|reflexivity].
Qed.

(** A store written before the field [buyer] was called so. *)
Lemma load_requests_all_or_nothing_example :
  let dm := DataManager.init Spec.env0 None in
  let old := VDict [(py "rc_code", VStr (py "RC-0001")); (py "comprador", VStr (py "Ana"))] in
  let items := [VDict (RequestRC.to_dict SpecX.request); old] in
  let fs := [(DataManager.requests_path dm, FS.FJson (VList items))] in
  (FS.lookup fs (DataManager.requests_path dm) = Some (FS.FJson (VList items))
   /\ In old items /\ SpecX.unusable_request old)
  /\ DataManager.load_requests Spec.env0 dm fs = [].
Proof.
  intros dm old items fs.
  assert (Hl : FS.lookup fs (DataManager.requests_path dm) = Some (FS.FJson (VList items)))
    by reflexivity.
  assert (Hin : In old items) by (right; left; reflexivity).
  assert (Hbad : SpecX.unusable_request old).
  { exists (py "comprador"). split; [right; left; reflexivity|].
    intros H. vm_compute in H. repeat destruct H as [H|H]; try discriminate H; exact H. }
  split; [split; [exact Hl|split; [exact Hin|exact Hbad]]|].
  exact (load_requests_all_or_nothing Spec.env0 dm fs items old Hl Hin Hbad).
Defined.

(** X17: [save_categories] followed by [load_categories] gives the categories
    back when they can be written as JSON; after a failed save, as with no
    file at all, [load_categories] gives the fallback of the identity: the
    default categories for an administrator, none for anyone else. *)
Theorem save_load_categories
    (E : env) (dm : DataManager.t) (fs : FS.t) (cats : pyval) :
  let fs' := snd (DataManager.save_categories dm fs cats) in
  (FS.json_ok cats = true ->
   fst (DataManager.save_categories dm fs cats) = true
   /\ DataManager.load_categories E dm fs' = cats)
  /\ (FS.json_ok cats = false ->
      fst (DataManager.save_categories dm fs cats) = false
      /\ DataManager.load_categories E dm fs' = SpecX.categories_fallback E)
  /\ (FS.lookup fs (DataManager.categories_path dm) = None ->
      DataManager.load_categories E dm fs = SpecX.categories_fallback E).
Proof.
  intros fs'. subst fs'.
  unfold DataManager.save_categories, FS.dump.
  split; [|split].
  - intros Hj. rewrite Hj. cbn [fst snd]. split; [reflexivity|].
    unfold DataManager.load_categories, FS.exists_, FS.load.
    rewrite lookup_write_same. reflexivity.
  - intros Hj. rewrite Hj. cbn [fst snd]. split; [reflexivity|].
    unfold DataManager.load_categories, FS.exists_, FS.load.
    rewrite lookup_write_same. reflexivity.
  - intros Hn. unfold DataManager.load_categories, FS.exists_. rewrite Hn.
    reflexivity.
Qed.

(** A colleague saves one category of their own. *)
Lemma save_load_categories_example :
  let E := SpecX.env_colleague in
  let dm := DataManager.init E None in
  let cats := VDict [(py "Compras", VDict [(py "name", VStr (py "Compras"))])] in
  (FS.json_ok cats = true /\ FS.lookup [] (DataManager.categories_path dm) = None)
  /\ DataManager.load_categories E dm (snd (DataManager.save_categories dm [] cats)) = cats
  /\ DataManager.load_categories E dm [] = VDict [].
Proof.
  intros E dm cats.
  assert (Hj : FS.json_ok cats = true) by (vm_compute; reflexivity).
  assert (Hn : FS.lookup [] (DataManager.categories_path dm) = None) by reflexivity.
  split; [split; assumption|].
  pose proof (save_load_categories E dm [] cats) as H. cbv zeta in H.
  split; [exact (proj2 (proj1 H Hj))|].
  exact (proj2 (proj2 H) Hn).
Defined.

(** ** The manager's view: no id is missed *)

Lemma key_eqb_refl (x : pyval) : hashable x = true -> key_eqb x x = true.
Proof.
  destruct x; cbn [hashable key_eqb eq_int]; intros H; try discriminate H;
    try reflexivity; try apply Z.eqb_refl; try apply str_eqb_refl.
Qed.

Lemma gather_complete (L : pylib) (E : env) (items : list pyval) :
  Forall (fun item => exists t, Task.from_dict L E item = Ok t
                                /\ hashable (Task.id t) = true) items ->
  forall all_tasks,
    let r := DataManager.gather L E items all_tasks (map Task.id all_tasks) in
    incl all_tasks (fst r)
    /\ snd r = map Task.id (fst r)
    /\ forall item t, In item items -> Task.from_dict L E item = Ok t ->
         exists t', In t' (fst r) /\ key_eqb (Task.id t) (Task.id t') = true.
Proof.
  induction 1 as [|item rest (t0 & Hf & Hh) Hrest IH]; intros all_tasks;
    cbn [DataManager.gather].
  - cbn [fst snd]. split; [apply incl_refl|]. split; [reflexivity|].
    intros item t [].
  - rewrite Hf, Hh. cbn [negb].
    destruct (existsb (key_eqb (Task.id t0)) (map Task.id all_tasks)) eqn:Hx;
      cbn [negb].
    + specialize (IH all_tasks). cbv zeta in IH. destruct IH as (Hi & Hs & Hc).
      split; [exact Hi|]. split; [exact Hs|].
      intros i t [<-|Hin] Ht.
      * assert (t = t0) by congruence. subst t.
        apply existsb_exists in Hx as (x & Hxin & Hk).
        apply in_map_iff in Hxin as (t' & <- & Hin').
        exists t'. split; [now apply Hi|exact Hk].
      * now apply (Hc i t).
    + replace (map Task.id all_tasks ++ [Task.id t0])
        with (map Task.id (all_tasks ++ [t0])) by (now rewrite map_app).
      specialize (IH (all_tasks ++ [t0])). cbv zeta in IH.
      destruct IH as (Hi & Hs & Hc).
      split; [intros a Ha; apply Hi, in_or_app; now left|].
      split; [exact Hs|].
      intros i t [<-|Hin] Ht.
      * assert (t = t0) by congruence. subst t.
        exists t0. split; [apply Hi, in_or_app; right; now left|].
        now apply key_eqb_refl.
      * now apply (Hc i t).
Qed.

Lemma gather_files_complete (L : pylib) (E : env) (fs : FS.t) (files : list str) :
  (forall f file,
      In f files -> FS.lookup fs f = Some file ->
      exists items,
        file = FS.FJson (VList items)
        /\ Forall (fun item => exists t, Task.from_dict L E item = Ok t
                                         /\ hashable (Task.id t) = true) items) ->
  forall all_tasks,
    let r := DataManager.gather_files L E fs files all_tasks (map Task.id all_tasks) in
    incl all_tasks r
    /\ forall f items item t,
         In f files -> FS.lookup fs f = Some (FS.FJson (VList items)) ->
         In item items -> Task.from_dict L E item = Ok t ->
         exists t', In t' r /\ key_eqb (Task.id t) (Task.id t') = true.
Proof.
  induction files as [|f rest IH]; intros Hall all_tasks;
    cbn [DataManager.gather_files].
  - split; [apply incl_refl|]. intros f items item t [].
  - assert (Hall' : forall f file,
               In f rest -> FS.lookup fs f = Some file ->
               exists items,
                 file = FS.FJson (VList items)
                 /\ Forall (fun item => exists t, Task.from_dict L E item = Ok t
                                                  /\ hashable (Task.id t) = true) items).
    { intros f' file Hin. apply Hall. now right. }
    specialize (IH Hall').
    unfold FS.exists_, FS.load.
    destruct (FS.lookup fs f) as [file|] eqn:Hl.
    + destruct (Hall f file (or_introl eq_refl) Hl) as (items & -> & Hitems).
      cbn [bind iter_items].
      pose proof (gather_complete L E items Hitems all_tasks) as Hg. cbv zeta in Hg.
      destruct (DataManager.gather L E items all_tasks (map Task.id all_tasks))
        as [all' seen'].
      cbn [fst snd] in Hg. destruct Hg as (Hi & -> & Hc).
      specialize (IH all'). cbv zeta in IH. destruct IH as (Hi' & Hc').
      split; [intros a Ha; now apply Hi', Hi|].
      intros f' items' item t [<-|Hin] Hl' Hitem Ht.
      * assert (items' = items) by congruence. subst items'.
        destruct (Hc item t Hitem Ht) as (t' & Hin' & Hk).
        exists t'. split; [now apply Hi'|exact Hk].
      * now apply (Hc' f' items' item t).
    + specialize (IH all_tasks). cbv zeta in IH. destruct IH as (Hi' & Hc').
      split; [exact Hi'|].
      intros f' items' item t [<-|Hin] Hl' Hitem Ht; [congruence|].
      now apply (Hc' f' items' item t).
Qed.

(** X18: when every store the manager reads is a JSON array of records the
    constructor accepts, with ids that can be members of a set, the
    manager's [load_tasks] misses no id: for every record of every store it
    returns a task with the id of that record. *)
Theorem manager_load_complete
    (L : pylib) (E : env) (dm : DataManager.t) (fs : FS.t) :
  DataManager.is_manager (current_user E) = true ->
  SpecX.all_readable L E fs ->
  exists ts,
    DataManager.load_tasks L E dm fs = Ok (ts, fs)
    /\ forall t, SpecX.read_from_store L E fs t ->
         exists t', In t' ts /\ key_eqb (Task.id t) (Task.id t') = true.
Proof.
  intros Hm Hall. unfold DataManager.load_tasks. rewrite Hm.
  eexists. split; [reflexivity|].
  intros t (f & v & items & item & Hf & Hl & Hi & Hin & Ht).
  destruct (Hall f (FS.FJson v) Hf Hl) as (items' & Hv & _).
  injection Hv as ->. cbn [iter_items] in Hi. injection Hi as <-.
  exact (proj2 (gather_files_complete L E fs (SpecX.manager_files fs) Hall [])
           f items' item t Hf Hl Hin Ht).
Qed.

(** The manager reads two stores that hold the same task. *)
Lemma manager_load_complete_example :
  let E := Spec.env_manager in
  let dm := DataManager.init E None in
  let fs := [(DATA_FILE, FS.FJson (SpecX.tasks_json reference_lib [Sample.task0]));
             (py "flow_data_3050111.json",
              FS.FJson (SpecX.tasks_json reference_lib [Sample.task0]))] in
  (DataManager.is_manager (current_user E) = true
   /\ SpecX.all_readable reference_lib E fs)
  /\ exists ts,
       DataManager.load_tasks reference_lib E dm fs = Ok (ts, fs)
       /\ forall t, SpecX.read_from_store reference_lib E fs t ->
            exists t', In t' ts /\ key_eqb (Task.id t) (Task.id t') = true.
Proof.
  intros E dm fs.
  assert (Hm : DataManager.is_manager (current_user E) = true) by reflexivity.
  assert (Hr : Task.from_dict reference_lib E (VDict (Task.to_dict reference_lib Sample.task0))
               = Ok Sample.task0) by (vm_compute; reflexivity).
  assert (Hall : SpecX.all_readable reference_lib E fs).
  { intros f file Hin Hl.
    exists [VDict (Task.to_dict reference_lib Sample.task0)].
    assert (Hfile : file = FS.FJson (SpecX.tasks_json reference_lib [Sample.task0])).
    { change (SpecX.manager_files fs) with [DATA_FILE; py "flow_data_3050111.json"] in Hin.
      destruct Hin as [<-|[<-|[]]].
      - change (FS.lookup fs DATA_FILE)
          with (Some (FS.FJson (SpecX.tasks_json reference_lib [Sample.task0]))) in Hl.
        now injection Hl.
      - change (FS.lookup fs (py "flow_data_3050111.json"))
          with (Some (FS.FJson (SpecX.tasks_json reference_lib [Sample.task0]))) in Hl.
        now injection Hl. }
    split; [exact Hfile|].
    constructor; [|constructor].
    exists Sample.task0. split; [exact Hr|reflexivity]. }
  split; [split; assumption|].
  exact (manager_load_complete reference_lib E dm fs Hm Hall).
Defined.

(** ** Saving the empty collection *)

Lemma listdir_write_existing (fs : FS.t) (p : str) (f g : FS.file) :
  FS.lookup fs p = Some g -> FS.listdir (FS.write fs p f) = FS.listdir fs.
Proof.
  unfold FS.listdir. induction fs as [|[q h] fs IH]; cbn [FS.lookup FS.write map fst].
  - discriminate.
  - destruct (str_eqb q p) eqn:Hq; cbn [map fst]; [reflexivity|].
    intros H. now rewrite IH.
Qed.

Lemma saved_before_exists (L : pylib) (dm : DataManager.t) (fs : FS.t) :
  SpecX.saved_before L dm fs ->
  exists g, FS.lookup fs (DataManager.file_path dm) = Some g.
Proof.
  intros (fs0 & ts0 & _ & Hl). rewrite Hl.
  unfold DataManager.save_tasks, FS.dump.
  destruct (FS.json_ok _); cbn [snd]; rewrite lookup_write_same; eexists; reflexivity.
Qed.

(** C7: in local-file mode, for an identity that has saved its tasks before,
    saving the empty collection succeeds, replaces the store of the
    identity and changes nothing else in the directory.  For an identity
    that is not the manager, [load_tasks] then returns the empty collection
    (not an example task).  For a manager identity, [load_tasks] returns
    instead what the stores of the others hold: every task it returns was
    read from a store other than the manager's own, and, when all stores
    are readable, no id of those stores is missing. *)
Theorem save_empty_then_load
    (L : pylib) (E : env) (dm : DataManager.t) (fs : FS.t) :
  SpecX.saved_before L dm fs ->
  let fs' := snd (DataManager.save_tasks L dm fs []) in
  fst (DataManager.save_tasks L dm fs []) = true
  /\ FS.listdir fs' = FS.listdir fs
  /\ (forall p, p <> DataManager.file_path dm -> FS.lookup fs' p = FS.lookup fs p)
  /\ (DataManager.is_manager (current_user E) = false ->
      DataManager.load_tasks L E dm fs' = Ok ([], fs'))
  /\ (DataManager.is_manager (current_user E) = true ->
      exists ts,
        DataManager.load_tasks L E dm fs' = Ok (ts, fs')
        /\ Forall (SpecX.read_from_other L E dm fs') ts
        /\ (SpecX.all_readable L E fs' ->
            forall t, SpecX.read_from_other L E dm fs' t ->
              exists t', In t' ts /\ key_eqb (Task.id t) (Task.id t') = true)).
Proof.
  intros Hsaved fs'.
  destruct (saved_before_exists L dm fs Hsaved) as [g Hg].
  assert (Hfs' : fs' = FS.write fs (DataManager.file_path dm) (FS.FJson (VList [])))
    by reflexivity.
  assert (Hf : FS.lookup fs' (DataManager.file_path dm) = Some (FS.FJson (VList []))).
  { rewrite Hfs'. apply lookup_write_same. }
  split; [reflexivity|].
  split; [rewrite Hfs'; exact (listdir_write_existing fs _ _ g Hg)|].
  split; [intros p Hp; rewrite Hfs'; now apply lookup_write_other|].
  split.
  - intros Hm. rewrite (load_tasks_stored L E dm fs' (VList []) Hm Hf). reflexivity.
  - intros Hm. unfold DataManager.load_tasks. rewrite Hm.
    eexists. split; [reflexivity|].
    fold (SpecX.manager_files fs'). split.
    + apply (gather_files_invariant L E fs' (SpecX.read_from_other L E dm fs')
               (SpecX.manager_files fs')); [|constructor|constructor].
      intros f v items item t Hin Hl Hi Hitem Ht.
      exists f, v, items, item.
      split; [|repeat split; assumption].
      intros ->. rewrite Hf in Hl. injection Hl as <-.
      cbn [iter_items] in Hi. injection Hi as <-. destruct Hitem.
    + intros Hall t (f & v & items & item & _ & Hin & Hl & Hi & Hitem & Ht).
      destruct (Hall f (FS.FJson v) Hin Hl) as (items' & Hv & _).
      injection Hv as ->. cbn [iter_items] in Hi. injection Hi as <-.
      exact (proj2 (gather_files_complete L E fs' (SpecX.manager_files fs') Hall [])
               f items' item t Hin Hl Hitem Ht).
Qed.

(** The default user saved one task, then saves the empty collection and
    loads the empty collection back. *)
Lemma save_empty_then_load_example :
  let dm := DataManager.init Spec.env0 None in
  let fs := snd (DataManager.save_tasks reference_lib dm [] [Sample.task0]) in
  let fs' := snd (DataManager.save_tasks reference_lib dm fs []) in
  (SpecX.saved_before reference_lib dm fs
   /\ DataManager.is_manager (current_user Spec.env0) = false)
  /\ DataManager.load_tasks reference_lib Spec.env0 dm fs = Ok ([Sample.task0], fs)
  /\ DataManager.load_tasks reference_lib Spec.env0 dm fs' = Ok ([], fs').
Proof.
  intros dm fs fs'.
  assert (Hs : SpecX.saved_before reference_lib dm fs).
  { exists [], [Sample.task0]. split; [vm_compute; reflexivity|reflexivity]. }
  assert (Hm : DataManager.is_manager (current_user Spec.env0) = false) by reflexivity.
  split; [split; assumption|].
  split; [vm_compute; reflexivity|].
  exact (proj1 (proj2 (proj2 (proj2
           (save_empty_then_load reference_lib Spec.env0 dm fs Hs)))) Hm).
Defined.

(** C7 as stated, for any identity with a prior successful save, fails for
    the manager identity: its [load_tasks] gathers the stores of every
    user.  The manager has saved one task before, saves the empty
    collection, and loads the task of the default user. *)
Lemma manager_save_empty_then_load_not_empty :
  let E := Spec.env_manager in
  let dm := DataManager.init E None in
  let fs0 := [(DATA_FILE, FS.FJson (VList [Spec.record "Pagar fatura" 1]))] in
  let fs := snd (DataManager.save_tasks reference_lib dm fs0 [Sample.task0]) in
  let fs' := snd (DataManager.save_tasks reference_lib dm fs []) in
  fst (DataManager.save_tasks reference_lib dm fs0 [Sample.task0]) = true
  /\ SpecX.saved_before reference_lib dm fs
  /\ fst (DataManager.save_tasks reference_lib dm fs []) = true
  /\ exists t1 : Task.t,
       DataManager.load_tasks reference_lib E dm fs' = Ok ([t1], fs')
       /\ Task.title t1 = VStr (py "Pagar fatura")
       /\ DataManager.load_tasks reference_lib E dm fs' <> Ok ([], fs').
Proof.
  intros E dm fs0 fs fs'.
  assert (H0 : fst (DataManager.save_tasks reference_lib dm fs0 [Sample.task0]) = true)
    by (vm_compute; reflexivity).
  split; [exact H0|].
  split; [exists fs0, [Sample.task0]; split; [exact H0|reflexivity]|].
  split; [reflexivity|].
  eexists. split; [vm_compute; reflexivity|].
  split; [vm_compute; reflexivity|].
  vm_compute. discriminate.
Qed.
